(** * cryoCARE paired-patch data module: a shallow embedding and its properties

    The development follows [cryocare/internals/CryoCAREDataModule.py]:
    the class [CryoCARE_Dataset] (coordinate sampling, random access to
    patches, normalisation statistics, persistence) and the class
    [CryoCARE_DataModule] (train/validation split and wiring of the two
    datasets).

    Conventions of the embedding.
    - Python [int]s are [Z]; array extents and list positions are [nat].
    - Python [float]s that the module computes with ([validation_fraction]
      and the products it enters) are IEEE 754 binary64 numbers, with the
      operations of the standard library's [SpecFloat] (round to nearest,
      ties to even); [int(.)] truncates a finite float toward zero and
      raises on an infinity or a NaN.
    - An attribute that is a Python [int] in a dataset the caller
      constructs and a 0-d numpy array in a dataset [load] returns keeps
      its value in one field and its kind in a flag.
    - A volume or a mask is a three-dimensional array, as the
      specification's volume handle has it: a shape and an indexing
      function.
    - Exceptions are values of [exn]; every method runs in the monad [M],
      which threads the process-wide state the module touches: numpy's
      global random generator (an entropy tape) and standard output.
    - [numpy.random.choice], [numpy.random.permutation], [numpy.where],
      [numpy.mean], basic slicing and integer indexing are modelled after
      numpy's documented behaviour; [mrcfile.mmap]/[mrcfile.read] are
      lookups in a read-only file system; [numpy.savez]/[numpy.load]
      write and read a store of archives indexed by file name. *)

From Stdlib Require Import ZArith QArith Qround List String Ascii Bool Lia Lqa Arith.
From Stdlib Require Import Permutation SpecFloat.
Import ListNotations.
Local Open Scope Z_scope.

(** ** Exceptions, process state and the monad *)

Inductive exn : Type :=
| FileNotFoundError
| AssertionError
| ValueError
| IndexError
| ZeroDivisionError
| OverflowError.

Inductive result (A : Type) : Type :=
| Ok (a : A)
| Raise (e : exn).
Arguments Ok {A} a.
Arguments Raise {A} e.

(** The process state: the entropy consumed by [np.random] and the lines
    printed so far. *)
Record world : Type := World {
  entropy : list nat;
  stdout : list string
}.

Definition M (A : Type) : Type := world -> result (A * world).

Definition ret {A} (a : A) : M A := fun w => Ok (a, w).

Definition raise {A} (e : exn) : M A := fun _ => Raise e.

Definition bind {A B} (m : M A) (k : A -> M B) : M B :=
  fun w => match m w with
           | Ok (a, w') => k a w'
           | Raise e => Raise e
           end.

Declare Scope py_scope.
Delimit Scope py_scope with py.
Notation "x <- m ;; k" := (bind m (fun x => k))
  (at level 61, m at next level, right associativity) : py_scope.
Notation "' pat <- m ;; k" := (bind m (fun x => match x with pat => k end))
  (at level 61, pat pattern, m at next level, right associativity) : py_scope.
Notation "m ;;; k" := (bind m (fun _ => k))
  (at level 61, right associativity) : py_scope.
Local Open Scope py_scope.

(** [assert c] *)
Definition py_assert (c : bool) : M unit :=
  if c then ret tt else raise AssertionError.

(** [print(s)] *)
Definition print (s : string) : M unit :=
  fun w => Ok (tt, {| entropy := entropy w; stdout := stdout w ++ [s] |}).

(** A comprehension or [for] loop whose body may raise: the elements are
    visited in order and the first exception ends the loop. *)
Fixpoint mapM {A B} (f : A -> M B) (l : list A) : M (list B) :=
  match l with
  | [] => ret []
  | a :: l' => b <- f a ;; bs <- mapM f l' ;; ret (b :: bs)
  end.

(** ** Python floats *)

(** A Python [float] is an IEEE 754 binary64 number; its operations round
    to the nearest float, ties going to the even mantissa. *)
Definition float : Type := spec_float.

Definition prec : Z := 53.
Definition emax : Z := 1024.

Definition fsub : float -> float -> float := SFsub prec emax.
Definition fmul : float -> float -> float := SFmul prec emax.
Definition fdiv : float -> float -> float := SFdiv prec emax.

(** The float nearest to an integer; an infinity when the integer is out
    of range. *)
Definition float_of_Z (z : Z) : float := binary_normalize prec emax z 0 false.

(** The float that the decimal literal for [p / q] denotes, for integers
    [p] and [q] of at most 53 bits: the float nearest to the quotient. *)
Definition float_of_ratio (p q : Z) : float := fdiv (float_of_Z p) (float_of_Z q).

(** The conversion of the [int] operand of a mixed operation:
    [OverflowError] when the integer is too large for a float. *)
Definition int_to_float (z : Z) : M float :=
  match float_of_Z z with
  | S754_infinity _ => raise OverflowError
  | f => ret f
  end.

(** [1 - f] for a float [f]. *)
Definition one_minus (f : float) : float := fsub (float_of_Z 1) f.

(** [z * f] for an int [z] and a float [f]. *)
Definition int_mul_float (z : Z) (f : float) : M float :=
  zf <- int_to_float z ;; ret (fmul zf f).

(** [int(f)]: truncation toward zero; [OverflowError] on an infinity and
    [ValueError] on a NaN. *)
Definition py_int (f : float) : M Z :=
  match f with
  | S754_zero _ => ret 0
  | S754_finite s m e => ret (cond_Zopp s (Z.shiftl (Zpos m) e))
  | S754_infinity _ => raise OverflowError
  | S754_nan => raise ValueError
  end.

(** [int(z * f)] *)
Definition int_of_product (z : Z) (f : float) : M Z :=
  q <- int_mul_float z f ;; py_int q.

(** The rational number a finite float stands for (0 for the others). *)
Definition float_value (f : float) : Q :=
  match f with
  | S754_finite s m (Zneg p) => Qmake (cond_Zopp s (Zpos m)) (2 ^ p)%positive
  | S754_finite s m e => inject_Z (cond_Zopp s (Zpos m) * 2 ^ e)
  | _ => 0%Q
  end.

(** ** numpy's global random generator *)

(** One raw draw from the generator; an exhausted tape yields 0. *)
Definition next_random : M nat :=
  fun w => match entropy w with
           | [] => Ok (0%nat, w)
           | r :: rs => Ok (r, {| entropy := rs; stdout := stdout w |})
           end.

(** [size] independent draws below [a] (sampling with replacement). *)
Fixpoint draw_with_replacement (a size : nat) : M (list nat) :=
  match size with
  | O => ret []
  | S k =>
      r <- next_random ;;
      rest <- draw_with_replacement a k ;;
      ret ((r mod a)%nat :: rest)
  end.

Fixpoint remove_at {A} (i : nat) (l : list A) {struct l} : list A :=
  match l, i with
  | [], _ => []
  | _ :: l', O => l'
  | a :: l', S j => a :: remove_at j l'
  end.

(** The first [size] entries of a random arrangement of [pool] (sampling
    without replacement): each step removes one element of the pool. *)
Fixpoint draw_without_replacement (pool : list nat) (size : nat) : M (list nat) :=
  match size with
  | O => ret []
  | S k =>
      match pool with
      | [] => ret []
      | _ :: _ =>
          r <- next_random ;;
          let i := (r mod List.length pool)%nat in
          rest <- draw_without_replacement (remove_at i pool) k ;;
          ret (nth i pool 0%nat :: rest)
      end
  end.

(** [np.random.permutation(n)] *)
Definition permutation (n : nat) : M (list nat) :=
  draw_without_replacement (seq 0 n) n.

(** [np.random.choice(a, size, replace=replace)] for an integer [a]:
    [ValueError] when [a] is 0 unless no samples are taken, when [size] is
    negative, and when more samples than the population are asked for
    without replacement. *)
Definition choice (a : nat) (size : Z) (replace : bool) : M (list nat) :=
  if (a =? 0)%nat && negb (size =? 0) then raise ValueError
  else if size <? 0 then raise ValueError
  else if replace then draw_with_replacement a (Z.to_nat size)
  else if Z.of_nat a <? size then raise ValueError
  else draw_without_replacement (seq 0 a) (Z.to_nat size).

(** [np.random.rand() > 0.5] *)
Definition rand_gt_half : M bool :=
  r <- next_random ;; ret (Nat.odd r).

(** ** Arrays, slicing and indexing *)

Record ndarray3 (A : Type) : Type := Ndarray3 {
  shape3 : nat * nat * nat;
  item3 : nat -> nat -> nat -> A
}.

Record ndarray4 (A : Type) : Type := Ndarray4 {
  shape4 : nat * nat * nat * nat;
  item4 : nat -> nat -> nat -> nat -> A
}.

Arguments Ndarray3 {A} shape3 item3.
Arguments shape3 {A} n.
Arguments item3 {A} n i j k.
Arguments Ndarray4 {A} shape4 item4.
Arguments shape4 {A} n.
Arguments item4 {A} n i j k c.

Definition voxel : Type := Q.
Definition volume : Type := ndarray3 voxel.
Definition patch : Type := ndarray4 voxel.

(** The bound of a slice on an axis of length [n]: a negative bound counts
    from the end, and the result is clipped to [0 .. n]. *)
Definition slice_bound (v : Z) (n : nat) : nat :=
  Z.to_nat (if v <? 0 then Z.max 0 (v + Z.of_nat n) else Z.min v (Z.of_nat n)).

(** [slice(start, stop)] on an axis of length [n]: first position and
    number of positions selected. *)
Definition slice_range (start stop : Z) (n : nat) : nat * nat :=
  let lo := slice_bound start n in
  let hi := slice_bound stop n in
  (lo, (hi - lo)%nat).

(** [a[i]] for a list or along the first axis of an array: negative
    positions count from the end, anything outside raises [IndexError]. *)
Definition py_index {A} (l : list A) (i : Z) : M A :=
  let n := Z.of_nat (List.length l) in
  let j := if i <? 0 then i + n else i in
  if (j <? 0) || (n <=? j) then raise IndexError
  else match nth_error l (Z.to_nat j) with
       | Some a => ret a
       | None => raise IndexError
       end.

(** [np.where(m[ys, xs])] for slices [ys], [xs] of the first two axes: the
    positions, relative to the slices and in row-major order, where the
    array is true. *)
Definition np_where (m : ndarray3 bool) (ys xs : nat * nat) : list (nat * nat * nat) :=
  let '(_, _, d) := shape3 m in
  flat_map (fun i =>
    flat_map (fun j =>
      flat_map (fun k =>
        if item3 m (fst ys + i)%nat (fst xs + j)%nat k then [(i, j, k)] else [])
        (seq 0 d))
      (seq 0 (snd xs)))
    (seq 0 (snd ys)).

(** [np.ones(shape).astype(np.bool)] *)
Definition np_ones (shape : nat * nat * nat) : ndarray3 bool :=
  {| shape3 := shape; item3 := fun _ _ _ => true |}.

(** [v.astype(np.bool)]: true where the value is not zero. *)
Definition astype_bool (v : volume) : ndarray3 bool :=
  {| shape3 := shape3 v; item3 := fun i j k => negb (Qeq_bool (item3 v i j k) 0) |}.

(** [np.array(v.data[y:y + h, x:x + w])[..., np.newaxis]]: the first two
    axes are sliced, the third is kept whole and a channel axis of length
    one is appended. *)
Definition subvolume (v : volume) (y x h w : Z) : patch :=
  let '(Y, X, D) := shape3 v in
  let ys := slice_range y (y + h) Y in
  let xs := slice_range x (x + w) X in
  {| shape4 := (snd ys, snd xs, D, 1%nat);
     item4 := fun i j k _ => item3 v (fst ys + i)%nat (fst xs + j)%nat k |}.

(** ** Python's string and path functions *)

(** [sub in s] *)
Fixpoint str_contains (sub s : string) : bool :=
  String.prefix sub s ||
  match s with
  | EmptyString => false
  | String _ s' => str_contains sub s'
  end.

(** [s.replace(old, new)] for a non-empty [old]: the occurrences of [old]
    are replaced from left to right, the search going on behind each one;
    [skip] counts the characters of a replaced occurrence still to be
    passed over. *)
Fixpoint str_replace_from (old new s : string) (skip : nat) : string :=
  match s with
  | EmptyString => EmptyString
  | String c s' =>
      match skip with
      | S k => str_replace_from old new s' k
      | O =>
          if String.prefix old s
          then (new ++ str_replace_from old new s' (String.length old - 1))%string
          else String c (str_replace_from old new s' 0)
      end
  end.

Definition str_replace (old new s : string) : string := str_replace_from old new s 0.

(** [s.endswith('/')] *)
Fixpoint ends_with_sep (s : string) : bool :=
  match s with
  | EmptyString => false
  | String c EmptyString => Ascii.eqb c "/"%char
  | String _ s' => ends_with_sep s'
  end.

(** [os.path.join(a, b)] of [posixpath]. *)
Definition os_path_join (a b : string) : string :=
  if String.prefix "/" b then b
  else if String.eqb a "" || ends_with_sep a then (a ++ b)%string
  else (a ++ "/" ++ b)%string.

(** [s.endswith(suffix)] *)
Fixpoint str_endswith (suffix s : string) : bool :=
  String.eqb suffix s ||
  match s with
  | EmptyString => false
  | String _ s' => str_endswith suffix s'
  end.

(** ** The file system *)

(** The volumes (tomograms and masks) stored at each path. *)
Definition filesystem : Type := string -> option volume.

(** [mrcfile.mmap(p, mode='r')] and [mrcfile.read(p)] *)
Definition mrc_open (fs : filesystem) (p : string) : M volume :=
  match fs p with
  | Some v => ret v
  | None => raise FileNotFoundError
  end.

Definition shape_eqb (s t : nat * nat * nat) : bool :=
  let '(a, b, c) := s in
  let '(a', b', c') := t in
  (a =? a')%nat && (b =? b')%nat && (c =? c')%nat.

(** ** Values stored in a dataset *)

(** An extraction window [[[y0, y1], [x0, x1]]]. *)
Definition window : Type := (Z * Z) * (Z * Z).

(** [sample_shape], the patch footprint. *)
Definition footprint : Type := Z * Z * Z.

Definition fp0 (s : footprint) : Z := fst (fst s).
Definition fp1 (s : footprint) : Z := snd (fst s).
Definition fp2 (s : footprint) : Z := snd s.

(** A normalisation statistic: a number supplied by the caller, or the
    result of numpy's reduction over the list of sampled patches. *)
Inductive scalar : Type :=
| Float (q : Q)
| NpMean (samples : list patch)
| NpStd (samples : list patch).

Definition shape4_eqb (s t : nat * nat * nat * nat) : bool :=
  let '(a, b, c, d) := s in
  let '(a', b', c', d') := t in
  (a =? a')%nat && (b =? b')%nat && (c =? c')%nat && (d =? d')%nat.

(** The arrays of a list can be stacked into one array: they all have
    the shape of the first. *)
Definition same_shapes (samples : list patch) : bool :=
  match samples with
  | [] => true
  | p :: rest => forallb (fun q => shape4_eqb (shape4 q) (shape4 p)) rest
  end.

(** [np.mean(samples)] and [np.std(samples)] for a list of arrays: numpy
    first turns the list into one array and raises [ValueError] when the
    arrays differ in shape. *)
Definition np_mean (samples : list patch) : M scalar :=
  if same_shapes samples then ret (NpMean samples) else raise ValueError.

Definition np_std (samples : list patch) : M scalar :=
  if same_shapes samples then ret (NpStd samples) else raise ValueError.

(** [["Y", "X"].index(tilt_axis)] *)
Definition axis_index (tilt_axis : string) : M nat :=
  if String.eqb tilt_axis "Y" then ret 0%nat
  else if String.eqb tilt_axis "X" then ret 1%nat
  else raise ValueError.

(** [zip(a, b, c, d)] *)
Definition zip4 {A B C D} (a : list A) (b : list B) (c : list C) (d : list D)
  : list (A * B * C * D) :=
  combine (combine (combine a b) c) d.

(** [idx // n, idx % n] for a Python int [idx]. When [n] is a Python int,
    zero raises [ZeroDivisionError]; when [n] is a 0-d numpy array, numpy
    only warns about a zero and returns 0 for both. *)
Definition floor_divmod (idx n : Z) (n_is_ndarray : bool) : M (Z * Z) :=
  if n =? 0
  then (if n_is_ndarray then ret (0, 0) else raise ZeroDivisionError)
  else ret (idx / n, idx mod n).

(** ** class CryoCARE_Dataset *)

Module CryoCARE_Dataset.

(** The keyword arguments of the constructor. [arg_count_is_ndarray]
    tells whether [n_samples_per_tomo] is passed as a 0-d numpy array, as
    [load] does, or as a Python [int]. *)
Record kwargs : Type := Kwargs {
  arg_tomo_paths_odd : list string;
  arg_tomo_paths_even : list string;
  arg_mask_paths : option (list (option string));
  arg_n_samples_per_tomo : Z;
  arg_count_is_ndarray : bool;
  arg_extraction_shapes : list window;
  arg_mean : option scalar;
  arg_std : option scalar;
  arg_sample_shape : footprint;
  arg_shuffle : bool;
  arg_n_normalization_samples : Z;
  arg_tilt_axis : option string
}.

(** The attributes of an instance. *)
Record t : Type := Dataset {
  tomo_paths_odd : list string;
  tomo_paths_even : list string;
  mask_paths : list (option string);
  n_samples_per_tomo : Z;
  count_is_ndarray : bool;
  tilt_axis : option string;
  rot_axes : option (list nat);
  extraction_shapes : list window;
  mean : option scalar;
  std : option scalar;
  sample_shape : footprint;
  shuffle : bool;
  coords : list (list (Z * Z));
  tomos_odd : list volume;
  tomos_even : list volume;
  n_tomos : nat;
  length : nat;
  indices : list nat
}.

Definition set_stats (self : t) (m s : option scalar) : t :=
  {| tomo_paths_odd := tomo_paths_odd self;
     tomo_paths_even := tomo_paths_even self;
     mask_paths := mask_paths self;
     n_samples_per_tomo := n_samples_per_tomo self;
     count_is_ndarray := count_is_ndarray self;
     tilt_axis := tilt_axis self;
     rot_axes := rot_axes self;
     extraction_shapes := extraction_shapes self;
     mean := m;
     std := s;
     sample_shape := sample_shape self;
     shuffle := shuffle self;
     coords := coords self;
     tomos_odd := tomos_odd self;
     tomos_even := tomos_even self;
     n_tomos := n_tomos self;
     length := length self;
     indices := indices self |}.

Definition set_coords (self : t) (c : list (list (Z * Z))) : t :=
  {| tomo_paths_odd := tomo_paths_odd self;
     tomo_paths_even := tomo_paths_even self;
     mask_paths := mask_paths self;
     n_samples_per_tomo := n_samples_per_tomo self;
     count_is_ndarray := count_is_ndarray self;
     tilt_axis := tilt_axis self;
     rot_axes := rot_axes self;
     extraction_shapes := extraction_shapes self;
     mean := mean self;
     std := std self;
     sample_shape := sample_shape self;
     shuffle := shuffle self;
     coords := c;
     tomos_odd := tomos_odd self;
     tomos_even := tomos_even self;
     n_tomos := n_tomos self;
     length := length self;
     indices := indices self |}.

Definition set_indices (self : t) (ix : list nat) : t :=
  {| tomo_paths_odd := tomo_paths_odd self;
     tomo_paths_even := tomo_paths_even self;
     mask_paths := mask_paths self;
     n_samples_per_tomo := n_samples_per_tomo self;
     count_is_ndarray := count_is_ndarray self;
     tilt_axis := tilt_axis self;
     rot_axes := rot_axes self;
     extraction_shapes := extraction_shapes self;
     mean := mean self;
     std := std self;
     sample_shape := sample_shape self;
     shuffle := shuffle self;
     coords := coords self;
     tomos_odd := tomos_odd self;
     tomos_even := tomos_even self;
     n_tomos := n_tomos self;
     length := length self;
     indices := ix |}.

(** The candidate positions of [create_random_coords]: the two slices
    and, for each true entry of the restricted mask, its row and its
    column shifted by the starts of the slices. *)
Definition valid_inds (ss : footprint) (y x : Z * Z) (mask : ndarray3 bool)
  : list Z * list Z :=
  let '(Y, X, _) := shape3 mask in
  let slices := ((fst y, snd y - fp1 ss), (fst x, snd x - fp0 ss)) in
  let w := np_where mask
             (slice_range (fst (fst slices)) (snd (fst slices)) Y)
             (slice_range (fst (snd slices)) (snd (snd slices)) X) in
  (map (fun v => Z.of_nat (fst (fst v)) + fst (fst slices)) w,
   map (fun v => Z.of_nat (snd (fst v)) + fst (snd slices)) w).

Definition create_random_coords (ss : footprint) (y x : Z * Z)
    (mask : ndarray3 bool) (n_samples : Z) : M (list (Z * Z)) :=
  let valid := valid_inds ss y x mask in
  sample_inds <- choice (List.length (fst valid)) n_samples
                   (Z.of_nat (List.length (fst valid)) <? n_samples) ;;
  let rand_inds := (map (fun i => nth i (fst valid) 0) sample_inds,
                    map (fun i => nth i (snd valid) 0) sample_inds) in
  ret (combine (fst rand_inds) (snd rand_inds)).

(** The mask of one tomogram: all ones when no mask file is given. *)
Definition read_mask (fs : filesystem) (even : volume) (even_path : string)
    (mask_path : option string) : M (ndarray3 bool) :=
  match mask_path with
  | None => ret (np_ones (shape3 even))
  | Some p =>
      m <- mrc_open fs p ;;
      let mask := astype_bool m in
      py_assert (shape_eqb (shape3 even) (shape3 mask)) ;;;
      ret mask
  end.

Definition __create_coords_for_tomo__ (fs : filesystem) (ss : footprint)
    (n_samples : Z) (even_path odd_path : string) (extraction_shape : window)
    (mask_path : option string) : M (list (Z * Z)) :=
  even <- mrc_open fs even_path ;;
  odd <- mrc_open fs odd_path ;;
  py_assert (shape_eqb (shape3 even) (shape3 odd)) ;;;
  mask <- read_mask fs even even_path mask_path ;;
  py_assert (2 * fp0 ss <? Z.of_nat (fst (fst (shape3 even)))) ;;;
  py_assert (2 * fp1 ss <? Z.of_nat (snd (fst (shape3 even)))) ;;;
  create_random_coords ss (fst extraction_shape) (snd extraction_shape)
    mask n_samples.

Definition create_coordinate_lists (fs : filesystem) (self : t)
  : M (list (list (Z * Z))) :=
  mapM (fun z : string * string * window * option string =>
          let '(odd, even, es, maskfile) := z in
          __create_coords_for_tomo__ fs (sample_shape self)
            (n_samples_per_tomo self) even odd es maskfile)
       (zip4 (tomo_paths_odd self) (tomo_paths_even self)
             (extraction_shapes self) (mask_paths self)).

Definition augment (x y : patch) : M (patch * patch) :=
  swap <- rand_gt_half ;;
  if swap then ret (y, x) else ret (x, y).

Definition __len__ (self : t) : nat := length self.

Definition __getitem__ (self : t) (idx : Z) : M (patch * patch) :=
  tc <- floor_divmod idx (n_samples_per_tomo self) (count_is_ndarray self) ;;
  let tomo_index := fst tc in
  let coord_index := snd tc in
  row <- py_index (coords self) tomo_index ;;
  yx <- py_index row coord_index ;;
  let '(y, x) := yx in
  let ss := sample_shape self in
  even <- py_index (tomos_even self) tomo_index ;;
  let even_subvolume := subvolume even y x (fp0 ss) (fp1 ss) in
  odd <- py_index (tomos_odd self) tomo_index ;;
  let odd_subvolume := subvolume odd y x (fp0 ss) (fp1 ss) in
  augment even_subvolume odd_subvolume.

Definition compute_mean_std (self : t) (n_samples : Z) : M t :=
  print "Computing normalization parameters:" ;;;
  samples <- mapM (fun i => xy <- __getitem__ self (Z.of_nat i) ;; ret (fst xy))
                  (seq 0 (Z.to_nat n_samples)) ;;
  mean <- np_mean samples ;;
  std <- np_std samples ;;
  ret (set_stats self (Some mean) (Some std)).

(** The constructor up to and including the index order; the statistics
    are still the ones passed in. *)
Definition init_attributes (fs : filesystem) (a : kwargs) : M t :=
  rot <- match arg_tilt_axis a with
         | Some ax =>
             tilt_axis_index <- axis_index ax ;;
             ret (Some (remove Nat.eq_dec tilt_axis_index [0%nat; 1%nat]))
         | None => ret None
         end ;;
  odds <- mapM (mrc_open fs) (arg_tomo_paths_odd a) ;;
  evens <- mapM (mrc_open fs) (arg_tomo_paths_even a) ;;
  let n := List.length (arg_tomo_paths_odd a) in
  let masks := match arg_mask_paths a with
               | None => repeat None n
               | Some l => l
               end in
  let self :=
    {| tomo_paths_odd := arg_tomo_paths_odd a;
       tomo_paths_even := arg_tomo_paths_even a;
       mask_paths := masks;
       n_samples_per_tomo := arg_n_samples_per_tomo a;
       count_is_ndarray := arg_count_is_ndarray a;
       tilt_axis := arg_tilt_axis a;
       rot_axes := rot;
       extraction_shapes := arg_extraction_shapes a;
       mean := arg_mean a;
       std := arg_std a;
       sample_shape := arg_sample_shape a;
       shuffle := arg_shuffle a;
       coords := [];
       tomos_odd := odds;
       tomos_even := evens;
       n_tomos := n;
       length := 0%nat;
       indices := [] |} in
  cs <- create_coordinate_lists fs self ;;
  let len := list_sum (map (@List.length (Z * Z)) cs) in
  ix <- (if arg_shuffle a then permutation len else ret (seq 0 len)) ;;
  ret {| tomo_paths_odd := arg_tomo_paths_odd a;
         tomo_paths_even := arg_tomo_paths_even a;
         mask_paths := masks;
         n_samples_per_tomo := arg_n_samples_per_tomo a;
         count_is_ndarray := arg_count_is_ndarray a;
         tilt_axis := arg_tilt_axis a;
         rot_axes := rot;
         extraction_shapes := arg_extraction_shapes a;
         mean := arg_mean a;
         std := arg_std a;
         sample_shape := arg_sample_shape a;
         shuffle := arg_shuffle a;
         coords := cs;
         tomos_odd := odds;
         tomos_even := evens;
         n_tomos := n;
         length := len;
         indices := ix |}.

Definition is_none {A} (o : option A) : bool :=
  match o with None => true | Some _ => false end.

Definition __init__ (fs : filesystem) (a : kwargs) : M t :=
  self <- init_attributes fs a ;;
  if is_none (mean self) || is_none (std self)
  then compute_mean_std self (arg_n_normalization_samples a)
  else ret self.

(** The content of an [.npz] archive written by [save]: every entry is
    stored as a numpy array. *)
Record archive : Type := Archive {
  npz_tomo_paths_odd : list string;
  npz_tomo_paths_even : list string;
  npz_mean : option scalar;
  npz_std : option scalar;
  npz_n_samples_per_tomo : Z;
  npz_extraction_shapes : list window;
  npz_sample_shape : footprint;
  npz_shuffle : bool;
  npz_coords : list (list (Z * Z));
  npz_tilt_axis : option string
}.

(** The files [np.savez] has written, by name. *)
Definition npz_files : Type := string -> option archive.

(** The keyword arguments [save] hands to [np.savez]. *)
Definition archive_of (self : t) : archive :=
  {| npz_tomo_paths_odd := tomo_paths_odd self;
     npz_tomo_paths_even := tomo_paths_even self;
     npz_mean := mean self;
     npz_std := std self;
     npz_n_samples_per_tomo := n_samples_per_tomo self;
     npz_extraction_shapes := extraction_shapes self;
     npz_sample_shape := sample_shape self;
     npz_shuffle := shuffle self;
     npz_coords := coords self;
     npz_tilt_axis := tilt_axis self |}.

(** The file [np.savez(path, ...)] writes: [.npz] is appended to a name
    that does not end in it. *)
Definition np_savez_name (path : string) : string :=
  if str_endswith ".npz" path then path else (path ++ ".npz")%string.

(** [np.savez(path, ...)] on the files written so far; the directory of
    [path] is taken to exist and to be writable. *)
Definition np_savez (path : string) (tmp : archive) (files : npz_files) : npz_files :=
  fun name => if String.eqb name (np_savez_name path) then Some tmp else files name.

(** [np.load(path)] opens the file of exactly that name. *)
Definition np_load (files : npz_files) (path : string) : M archive :=
  match files path with
  | Some tmp => ret tmp
  | None => raise FileNotFoundError
  end.

Definition save (self : t) (path : string) (files : npz_files) : npz_files :=
  np_savez path (archive_of self) files.

(** Every entry read back from an archive is an [np.ndarray], so the
    test [isinstance(tmp['tilt_axis'], np.ndarray)] holds for each
    archive and the loaded dataset carries no tilt axis. *)
Definition isinstance_ndarray (entry : option string) : bool := true.

(** The keyword arguments [load] passes to the constructor: the entries
    of the archive as they are, so [n_samples_per_tomo] is a 0-d array. *)
Definition load_kwargs (tmp : archive) : kwargs :=
  let tilt_axis :=
    if isinstance_ndarray (npz_tilt_axis tmp) then None
    else npz_tilt_axis tmp in
  {| arg_tomo_paths_odd := npz_tomo_paths_odd tmp;
     arg_tomo_paths_even := npz_tomo_paths_even tmp;
     arg_mask_paths := None;
     arg_n_samples_per_tomo := npz_n_samples_per_tomo tmp;
     arg_count_is_ndarray := true;
     arg_extraction_shapes := npz_extraction_shapes tmp;
     arg_mean := npz_mean tmp;
     arg_std := npz_std tmp;
     arg_sample_shape := npz_sample_shape tmp;
     arg_shuffle := npz_shuffle tmp;
     arg_n_normalization_samples := 500;
     arg_tilt_axis := tilt_axis |}.

Definition load (fs : filesystem) (files : npz_files) (path : string) : M t :=
  tmp <- np_load files path ;;
  ds <- __init__ fs (load_kwargs tmp) ;;
  ret (set_coords ds (npz_coords tmp)).

Definition on_epoch_end (self : t) : M t :=
  if shuffle self
  then ix <- permutation (length self) ;; ret (set_indices self ix)
  else ret self.

(** One traversal of [__iter__]: the patches in index order, then the
    epoch boundary. *)
Definition __iter__ (self : t) : M (list (patch * patch) * t) :=
  ps <- mapM (fun idx => __getitem__ self (Z.of_nat idx)) (indices self) ;;
  self' <- on_epoch_end self ;;
  ret (ps, self').

End CryoCARE_Dataset.

(** ** class CryoCARE_DataModule *)

Module CryoCARE_DataModule.

(** The two datasets a module holds once [setup] or [load] has run. *)
Record t : Type := DataModule {
  train_dataset : CryoCARE_Dataset.t;
  val_dataset : CryoCARE_Dataset.t
}.

(** [shape[i]] and [sample_shape[i]] for an in-plane axis [i]. *)
Definition shape_at (s : nat * nat * nat) (i : nat) : Z :=
  match i with
  | O => Z.of_nat (fst (fst s))
  | _ => Z.of_nat (snd (fst s))
  end.

Definition footprint_at (s : footprint) (i : nat) : Z :=
  match i with
  | O => fp0 s
  | _ => fp1 s
  end.

(** [w[i] = r] on a window. *)
Definition window_set (w : window) (i : nat) (r : Z * Z) : window :=
  match i with
  | O => (r, snd w)
  | _ => (fst w, r)
  end.

Definition __compute_extraction_shapes__ (fs : filesystem)
    (even_path odd_path : string) (tilt_axis_index : nat)
    (sample_shape : footprint) (validation_fraction : float) : M (window * window) :=
  even <- mrc_open fs even_path ;;
  odd <- mrc_open fs odd_path ;;
  py_assert (shape_eqb (shape3 even) (shape3 odd)) ;;;
  py_assert (2 * fp0 sample_shape <? Z.of_nat (fst (fst (shape3 even)))) ;;;
  py_assert (2 * fp1 sample_shape <? Z.of_nat (snd (fst (shape3 even)))) ;;;
  let extent := shape_at (shape3 even) tilt_axis_index in
  split <- int_of_product extent (one_minus validation_fraction) ;;
  let val_cut_off := split - 1 in
  let val_cut_off :=
    if (extent - val_cut_off <? footprint_at sample_shape tilt_axis_index)
       || (val_cut_off <? footprint_at sample_shape tilt_axis_index)
    then extent - footprint_at sample_shape tilt_axis_index - 1
    else val_cut_off in
  let whole : window := ((0, shape_at (shape3 even) 0), (0, shape_at (shape3 even) 1)) in
  let extraction_shape_train := window_set whole tilt_axis_index (0, val_cut_off) in
  let extraction_shape_val := window_set whole tilt_axis_index (val_cut_off, extent) in
  ret (extraction_shape_train, extraction_shape_val).

(** The first loop of [setup]: the pair of windows of every volume pair. *)
Definition extraction_shapes (fs : filesystem) (tomo_paths_odd tomo_paths_even : list string)
    (tilt_axis : string) (sample_shape : footprint) (validation_fraction : float)
  : M (list (window * window)) :=
  mapM (fun eo : string * string =>
          tilt_axis_index <- axis_index tilt_axis ;;
          __compute_extraction_shapes__ fs (fst eo) (snd eo) tilt_axis_index
            sample_shape validation_fraction)
       (combine tomo_paths_even tomo_paths_odd).

(** The keyword arguments of the two constructor calls in [setup];
    [n_samples] is the value of [int(n_samples_per_tomo * ...)], a Python
    [int]. *)
Definition train_kwargs (tomo_paths_odd tomo_paths_even : list string)
    (mask_paths : option (list (option string))) (n_samples : Z)
    (sample_shape : footprint) (tilt_axis : string)
    (n_normalization_samples : Z) (train_extraction_shapes : list window)
  : CryoCARE_Dataset.kwargs :=
  {| CryoCARE_Dataset.arg_tomo_paths_odd := tomo_paths_odd;
     CryoCARE_Dataset.arg_tomo_paths_even := tomo_paths_even;
     CryoCARE_Dataset.arg_mask_paths := mask_paths;
     CryoCARE_Dataset.arg_mean := None;
     CryoCARE_Dataset.arg_std := None;
     CryoCARE_Dataset.arg_n_samples_per_tomo := n_samples;
     CryoCARE_Dataset.arg_count_is_ndarray := false;
     CryoCARE_Dataset.arg_extraction_shapes := train_extraction_shapes;
     CryoCARE_Dataset.arg_sample_shape := sample_shape;
     CryoCARE_Dataset.arg_shuffle := true;
     CryoCARE_Dataset.arg_n_normalization_samples := n_normalization_samples;
     CryoCARE_Dataset.arg_tilt_axis := Some tilt_axis |}.

Definition val_kwargs (tomo_paths_odd tomo_paths_even : list string)
    (mask_paths : option (list (option string))) (n_samples : Z)
    (sample_shape : footprint)
    (train : CryoCARE_Dataset.t) (val_extraction_shapes : list window)
  : CryoCARE_Dataset.kwargs :=
  {| CryoCARE_Dataset.arg_tomo_paths_odd := tomo_paths_odd;
     CryoCARE_Dataset.arg_tomo_paths_even := tomo_paths_even;
     CryoCARE_Dataset.arg_mask_paths := mask_paths;
     CryoCARE_Dataset.arg_mean := CryoCARE_Dataset.mean train;
     CryoCARE_Dataset.arg_std := CryoCARE_Dataset.std train;
     CryoCARE_Dataset.arg_n_samples_per_tomo := n_samples;
     CryoCARE_Dataset.arg_count_is_ndarray := false;
     CryoCARE_Dataset.arg_extraction_shapes := val_extraction_shapes;
     CryoCARE_Dataset.arg_sample_shape := sample_shape;
     CryoCARE_Dataset.arg_shuffle := false;
     CryoCARE_Dataset.arg_n_normalization_samples := 500;
     CryoCARE_Dataset.arg_tilt_axis := None |}.

Definition setup (fs : filesystem) (tomo_paths_odd tomo_paths_even : list string)
    (mask_paths : option (list (option string))) (n_samples_per_tomo : Z)
    (validation_fraction : float) (sample_shape : footprint) (tilt_axis : string)
    (n_normalization_samples : Z) : M t :=
  shapes <- extraction_shapes fs tomo_paths_odd tomo_paths_even tilt_axis
              sample_shape validation_fraction ;;
  let train_extraction_shapes := map fst shapes in
  let val_extraction_shapes := map snd shapes in
  n_train <- int_of_product n_samples_per_tomo (one_minus validation_fraction) ;;
  train <- CryoCARE_Dataset.__init__ fs
             (train_kwargs tomo_paths_odd tomo_paths_even mask_paths
                n_train sample_shape tilt_axis
                n_normalization_samples train_extraction_shapes) ;;
  n_val <- int_of_product n_samples_per_tomo validation_fraction ;;
  val <- CryoCARE_Dataset.__init__ fs
           (val_kwargs tomo_paths_odd tomo_paths_even mask_paths
              n_val sample_shape train val_extraction_shapes) ;;
  ret {| train_dataset := train; val_dataset := val |}.

(** The names of the two archives in the directory [path]. *)
Definition train_data_npz (path : string) : string :=
  os_path_join path "train_data.npz".

Definition val_data_npz (path : string) : string :=
  os_path_join path "val_data.npz".

Definition save (self : t) (path : string) (files : CryoCARE_Dataset.npz_files)
  : CryoCARE_Dataset.npz_files :=
  CryoCARE_Dataset.save (val_dataset self) (val_data_npz path)
    (CryoCARE_Dataset.save (train_dataset self) (train_data_npz path) files).

Definition load (fs : filesystem) (files : CryoCARE_Dataset.npz_files) (path : string)
  : M t :=
  train <- CryoCARE_Dataset.load fs files (train_data_npz path) ;;
  val <- CryoCARE_Dataset.load fs files (val_data_npz path) ;;
  ret {| train_dataset := train; val_dataset := val |}.

(** [output_shapes] declared by [get_train_dataset] and
    [get_val_dataset]: [tuple(sample_shape) + (1,)]. *)
Definition output_shapes (ds : CryoCARE_Dataset.t) : Z * Z * Z * Z :=
  let ss := CryoCARE_Dataset.sample_shape ds in (fp0 ss, fp1 ss, fp2 ss, 1).

End CryoCARE_DataModule.

(** ** Notions used in the statements *)


(** The process state with a given entropy tape and output. *)
Definition tape (digits : list nat) (out : list string) : world :=
  {| entropy := digits; stdout := out |}.

(** A computation is quiet when it leaves standard output alone. *)
Definition quiet {A} (m : M A) : Prop :=
  forall w a w', m w = Ok (a, w') -> stdout w' = stdout w.

(** The line [compute_mean_std] prints when it runs. *)
Definition estimation_banner : string := "Computing normalization parameters:".

(** A computation that raises from every process state. *)
Definition fails {A} (m : M A) : Prop := forall w, exists e, m w = Raise e.

(** [mask_paths] as the constructor stores it. *)
Definition stored_mask_paths (odd : list string) (masks : option (list (option string)))
  : list (option string) :=
  match masks with
  | None => repeat None (List.length odd)
  | Some l => l
  end.

(** The mask [__create_coords_for_tomo__] samples under, when the mask
    file (if any) can be read. *)
Definition tomo_mask (fs : filesystem) (even : volume) (mask_path : option string)
  : option (ndarray3 bool) :=
  match mask_path with
  | None => Some (np_ones (shape3 even))
  | Some p => option_map astype_bool (fs p)
  end.


(** What a successful [__create_coords_for_tomo__] has established for
    one entry of [zip(odd, even, extraction_shapes, mask_paths)] and the
    coordinates it returned. *)
Definition tomo_sampled (fs : filesystem) (ss : footprint) (n : Z)
    (z : string * string * window * option string) (row : list (Z * Z)) : Prop :=
  let '(odd, even, es, mask_path) := z in
  exists ve vo mask sample_inds,
    fs even = Some ve /\ fs odd = Some vo /\ shape3 ve = shape3 vo /\
    tomo_mask fs ve mask_path = Some mask /\ shape3 mask = shape3 ve /\
    2 * fp0 ss < Z.of_nat (fst (fst (shape3 ve))) /\
    2 * fp1 ss < Z.of_nat (snd (fst (shape3 ve))) /\
    0 <= n /\
    (fst (CryoCARE_Dataset.valid_inds ss (fst es) (snd es) mask) = [] -> n = 0) /\
    List.length sample_inds = Z.to_nat n /\
    Forall (fun i =>
              (i < List.length (fst (CryoCARE_Dataset.valid_inds ss (fst es) (snd es) mask)))%nat)
           sample_inds /\
    row = map (fun i =>
                 (nth i (fst (CryoCARE_Dataset.valid_inds ss (fst es) (snd es) mask)) 0,
                  nth i (snd (CryoCARE_Dataset.valid_inds ss (fst es) (snd es) mask)) 0))
              sample_inds.

(** What holds of every dataset the constructor returns: each stored
    coordinate row was sampled for the matching entry of the zip, the
    opened volumes are the files at the stored paths, and [length] is the
    number of stored coordinates. *)
Definition constructed_from (fs : filesystem) (ds : CryoCARE_Dataset.t) : Prop :=
  Forall2 (tomo_sampled fs (CryoCARE_Dataset.sample_shape ds)
             (CryoCARE_Dataset.n_samples_per_tomo ds))
          (zip4 (CryoCARE_Dataset.tomo_paths_odd ds) (CryoCARE_Dataset.tomo_paths_even ds)
                (CryoCARE_Dataset.extraction_shapes ds) (CryoCARE_Dataset.mask_paths ds))
          (CryoCARE_Dataset.coords ds) /\
  Forall2 (fun p v => fs p = Some v)
          (CryoCARE_Dataset.tomo_paths_odd ds) (CryoCARE_Dataset.tomos_odd ds) /\
  Forall2 (fun p v => fs p = Some v)
          (CryoCARE_Dataset.tomo_paths_even ds) (CryoCARE_Dataset.tomos_even ds) /\
  CryoCARE_Dataset.length ds
  = list_sum (map (@List.length (Z * Z)) (CryoCARE_Dataset.coords ds)).

(** The mask list given to the constructor, if any, reaches as far as the
    zip of the two path lists and the windows. *)
Definition masks_cover (a : CryoCARE_Dataset.kwargs) : Prop :=
  match CryoCARE_Dataset.arg_mask_paths a with
  | None => True
  | Some l =>
      (Nat.min (Nat.min (List.length (CryoCARE_Dataset.arg_tomo_paths_odd a))
                        (List.length (CryoCARE_Dataset.arg_tomo_paths_even a)))
               (List.length (CryoCARE_Dataset.arg_extraction_shapes a))
       <= List.length l)%nat
  end.

(** The datasets a program can hold: built by the constructor from
    arguments whose masks cover the volumes, or read back from the
    archive of such a dataset. *)
Inductive built (fs : filesystem) : CryoCARE_Dataset.t -> Prop :=
| built_by_init a w ds w' :
    masks_cover a ->
    CryoCARE_Dataset.__init__ fs a w = Ok (ds, w') ->
    built fs ds
| built_by_load ds0 files path w ds w' :
    built fs ds0 ->
    files path = Some (CryoCARE_Dataset.archive_of ds0) ->
    CryoCARE_Dataset.load fs files path w = Ok (ds, w') ->
    built fs ds.

(** A dataset that carries statistics and whose archive the constructor
    accepts under every process state. *)
Definition reloadable (fs : filesystem) (ds : CryoCARE_Dataset.t) : Prop :=
  (exists m s, CryoCARE_Dataset.mean ds = Some m /\ CryoCARE_Dataset.std ds = Some s) /\
  forall w, exists d0 w',
    CryoCARE_Dataset.__init__ fs
      (CryoCARE_Dataset.load_kwargs (CryoCARE_Dataset.archive_of ds)) w = Ok (d0, w').

(** Both datasets of a module carry statistics, and the same ones. *)
Definition shared_stats (dm : CryoCARE_DataModule.t) : Prop :=
  exists m s,
    CryoCARE_Dataset.mean (CryoCARE_DataModule.train_dataset dm) = Some m /\
    CryoCARE_Dataset.std (CryoCARE_DataModule.train_dataset dm) = Some s /\
    CryoCARE_Dataset.mean (CryoCARE_DataModule.val_dataset dm) = Some m /\
    CryoCARE_Dataset.std (CryoCARE_DataModule.val_dataset dm) = Some s.

(** [reloaded fs dm dm'] : [dm'] is [dm] after some number of save/load
    round trips, each to an arbitrary directory, over arbitrary other
    files and under an arbitrary process state. *)
Inductive reloaded (fs : filesystem) (dm : CryoCARE_DataModule.t)
  : CryoCARE_DataModule.t -> Prop :=
| reloaded_now : reloaded fs dm dm
| reloaded_again dm1 path files w dm2 w2 :
    reloaded fs dm dm1 ->
    CryoCARE_DataModule.load fs (CryoCARE_DataModule.save dm1 path files) path w
    = Ok (dm2, w2) ->
    reloaded fs dm dm2.

(** ** Python's [round] on a float, for comparison with [py_int] *)



(** [z] is [f] truncated toward zero: it lies between zero and the value
    of [f], less than one away from that value. *)
Definition truncation_of (f : float) (z : Z) : Prop :=
  ((0 <= float_value f)%Q ->
   (inject_Z z <= float_value f)%Q /\ (float_value f < inject_Z z + 1)%Q) /\
  ((float_value f <= 0)%Q ->
   (float_value f <= inject_Z z)%Q /\ (inject_Z z - 1 < float_value f)%Q).

(** ** The split point as the specification words it *)

(** [floor(extent * (1 - validation_fraction)) - 1] over the rationals,
    clamped to [extent - footprint_extent - 1] when the validation
    region or the training region would be shorter than the footprint. *)
Definition spec_cutoff (extent fe : Z) (validation_fraction : Q) : Z :=
  let c := Qfloor (inject_Z extent * (1 - validation_fraction)) - 1 in
  if (extent - c <? fe) || (c <? fe) then extent - fe - 1 else c.

(** The code's split point for a volume of the given extent: the integer
    [int(extent * (1 - validation_fraction))] as the floats give it, less
    one, with the same clamp. *)
Definition clamped (extent fe split : Z) : Z :=
  let c := split - 1 in
  if (extent - c <? fe) || (c <? fe) then extent - fe - 1 else c.

(** ** A small file system for concrete runs *)

(** A volume of the given shape whose voxel at [(i, j, k)] is [i + j + k]. *)
Definition ramp (shape : nat * nat * nat) : volume :=
  {| shape3 := shape;
     item3 := fun i j k => inject_Z (Z.of_nat (i + j + k)) |}.

(** A mask of the given shape that is non-zero on the rows below [rows]. *)
Definition top_mask (shape : nat * nat * nat) (rows : nat) : volume :=
  {| shape3 := shape;
     item3 := fun i _ _ => if (i <? rows)%nat then 1%Q else 0%Q |}.

Definition toy_fs : filesystem :=
  fun p =>
    if String.eqb p "a_ODD.mrc" then Some (ramp (9, 9, 2)%nat)
    else if String.eqb p "a_EVN.mrc" then Some (ramp (9, 9, 2)%nat)
    else if String.eqb p "b_ODD.mrc" then Some (ramp (9, 9, 2)%nat)
    else if String.eqb p "b_EVN.mrc" then Some (ramp (9, 8, 2)%nat)
    else if String.eqb p "a_mask.mrc" then Some (top_mask (9, 9, 2)%nat 4)
    else if String.eqb p "wide_ODD.mrc" then Some (ramp (11, 11, 3)%nat)
    else if String.eqb p "wide_EVN.mrc" then Some (ramp (11, 11, 3)%nat)
    else if String.eqb p "cube_ODD.mrc" then Some (ramp (100, 100, 100)%nat)
    else if String.eqb p "cube_EVN.mrc" then Some (ramp (100, 100, 100)%nat)
    else if String.eqb p "slim_ODD.mrc" then Some (ramp (5, 5, 1)%nat)
    else if String.eqb p "slim_EVN.mrc" then Some (ramp (5, 5, 1)%nat)
    else None.

Definition boot (tape : list nat) : world := {| entropy := tape; stdout := [] |}.

Definition toy_tape : list nat := [3; 1; 4; 1; 5; 9; 2; 6; 5; 3; 5]%nat.

(** ** Concrete runs *)

(** A run known to succeed, with its value and final process state. *)
Inductive succeeds {A} (r : result (A * world)) : Type :=
| Success (a : A) (w : world) (H : r = Ok (a, w)).

Definition value {A} {r : result (A * world)} (s : succeeds r) : A :=
  match s with Success _ a _ _ => a end.

Definition final_world {A} {r : result (A * world)} (s : succeeds r) : world :=
  match s with Success _ _ w _ => w end.

Definition run_of {A} {r : result (A * world)} (s : succeeds r)
  : r = Ok (value s, final_world s) :=
  match s with Success _ _ _ H => H end.

(** One volume pair of shape (9, 9, 2), no mask, 7 samples per volume, a
    quarter of them for validation, footprint (2, 2, 1), split along Y. *)
Definition toy_setup : result (CryoCARE_DataModule.t * world) :=
  CryoCARE_DataModule.setup toy_fs ["a_ODD.mrc"%string] ["a_EVN.mrc"%string]
    None 7 (float_of_ratio 1 4) (2, 2, 1) "Y" 3 (boot toy_tape).

Definition toy_setup_ok : succeeds toy_setup.
Proof. eapply Success. vm_compute. reflexivity. Defined.

(** The same volume pair with 10 samples per volume, a fraction of 0.8
    for validation and a normalisation budget of one patch. *)
Definition ten_setup : result (CryoCARE_DataModule.t * world) :=
  CryoCARE_DataModule.setup toy_fs ["a_ODD.mrc"%string] ["a_EVN.mrc"%string]
    None 10 (float_of_ratio 8 10) (2, 2, 1) "Y" 1 (boot toy_tape).

Definition ten_setup_ok : succeeds ten_setup.
Proof. eapply Success. vm_compute. reflexivity. Defined.

(** The module of [toy_setup], saved and loaded again. *)
Definition no_files : CryoCARE_Dataset.npz_files := fun _ => None.

Definition toy_reload : result (CryoCARE_DataModule.t * world) :=
  CryoCARE_DataModule.load toy_fs
    (CryoCARE_DataModule.save (value toy_setup_ok) "out" no_files) "out"
    (boot toy_tape).

Definition toy_reload_ok : succeeds toy_reload.
Proof. eapply Success. vm_compute. reflexivity. Defined.







(** One volume pair of shape (11, 11, 3), the whole plane as window, a
    footprint of 2 rows and 5 columns, one sample, drawn last in the
    candidate list. *)
Definition wide_init : result (CryoCARE_Dataset.t * world) :=
  CryoCARE_Dataset.__init__ toy_fs
    {| CryoCARE_Dataset.arg_tomo_paths_odd := ["wide_ODD.mrc"%string];
       CryoCARE_Dataset.arg_tomo_paths_even := ["wide_EVN.mrc"%string];
       CryoCARE_Dataset.arg_mask_paths := None;
       CryoCARE_Dataset.arg_n_samples_per_tomo := 1;
       CryoCARE_Dataset.arg_count_is_ndarray := false;
       CryoCARE_Dataset.arg_extraction_shapes := [((0, 11), (0, 11))];
       CryoCARE_Dataset.arg_mean := Some (Float 0);
       CryoCARE_Dataset.arg_std := Some (Float 1);
       CryoCARE_Dataset.arg_sample_shape := (2, 5, 5);
       CryoCARE_Dataset.arg_shuffle := false;
       CryoCARE_Dataset.arg_n_normalization_samples := 0;
       CryoCARE_Dataset.arg_tilt_axis := None |}
    (boot [161%nat]).

Definition wide_init_ok : succeeds wide_init.
Proof. eapply Success. vm_compute. reflexivity. Defined.

(** One volume pair of shape (9, 9, 2), the whole plane as window, two
    samples of footprint (2, 2, 1), statistics supplied. *)
Definition small_kwargs : CryoCARE_Dataset.kwargs :=
  {| CryoCARE_Dataset.arg_tomo_paths_odd := ["a_ODD.mrc"%string];
     CryoCARE_Dataset.arg_tomo_paths_even := ["a_EVN.mrc"%string];
     CryoCARE_Dataset.arg_mask_paths := None;
     CryoCARE_Dataset.arg_n_samples_per_tomo := 2;
     CryoCARE_Dataset.arg_count_is_ndarray := false;
     CryoCARE_Dataset.arg_extraction_shapes := [((0, 9), (0, 9))];
     CryoCARE_Dataset.arg_mean := Some (Float 0);
     CryoCARE_Dataset.arg_std := Some (Float 1);
     CryoCARE_Dataset.arg_sample_shape := (2, 2, 1);
     CryoCARE_Dataset.arg_shuffle := false;
     CryoCARE_Dataset.arg_n_normalization_samples := 0;
     CryoCARE_Dataset.arg_tilt_axis := None |}.

Definition small_init : result (CryoCARE_Dataset.t * world) :=
  CryoCARE_Dataset.__init__ toy_fs small_kwargs (boot [5; 7]%nat).

Definition small_init_ok : succeeds small_init.
Proof. eapply Success. vm_compute. reflexivity. Defined.

(** The arguments of [small_init] with no samples per volume. *)
Definition hollow_kwargs : CryoCARE_Dataset.kwargs :=
  {| CryoCARE_Dataset.arg_tomo_paths_odd := ["a_ODD.mrc"%string];
     CryoCARE_Dataset.arg_tomo_paths_even := ["a_EVN.mrc"%string];
     CryoCARE_Dataset.arg_mask_paths := None;
     CryoCARE_Dataset.arg_n_samples_per_tomo := 0;
     CryoCARE_Dataset.arg_count_is_ndarray := false;
     CryoCARE_Dataset.arg_extraction_shapes := [((0, 9), (0, 9))];
     CryoCARE_Dataset.arg_mean := Some (Float 0);
     CryoCARE_Dataset.arg_std := Some (Float 1);
     CryoCARE_Dataset.arg_sample_shape := (2, 2, 1);
     CryoCARE_Dataset.arg_shuffle := false;
     CryoCARE_Dataset.arg_n_normalization_samples := 0;
     CryoCARE_Dataset.arg_tilt_axis := None |}.

Definition hollow_init : result (CryoCARE_Dataset.t * world) :=
  CryoCARE_Dataset.__init__ toy_fs hollow_kwargs (boot []).

Definition hollow_init_ok : succeeds hollow_init.
Proof. eapply Success. vm_compute. reflexivity. Defined.

(** The dataset of [hollow_init] after [save] and [load]. *)
Definition hollow_reload : result (CryoCARE_Dataset.t * world) :=
  CryoCARE_Dataset.load toy_fs
    (CryoCARE_Dataset.save (value hollow_init_ok) "hollow.npz" no_files)
    "hollow.npz" (boot []).

Definition hollow_reload_ok : succeeds hollow_reload.
Proof. eapply Success. vm_compute. reflexivity. Defined.

(** The arguments of [small_init] with no samples per volume, no
    statistics, and a normalisation budget of one patch. *)
Definition zero_kwargs : CryoCARE_Dataset.kwargs :=
  {| CryoCARE_Dataset.arg_tomo_paths_odd := ["a_ODD.mrc"%string];
     CryoCARE_Dataset.arg_tomo_paths_even := ["a_EVN.mrc"%string];
     CryoCARE_Dataset.arg_mask_paths := None;
     CryoCARE_Dataset.arg_n_samples_per_tomo := 0;
     CryoCARE_Dataset.arg_count_is_ndarray := false;
     CryoCARE_Dataset.arg_extraction_shapes := [((0, 9), (0, 9))];
     CryoCARE_Dataset.arg_mean := None;
     CryoCARE_Dataset.arg_std := None;
     CryoCARE_Dataset.arg_sample_shape := (2, 2, 1);
     CryoCARE_Dataset.arg_shuffle := false;
     CryoCARE_Dataset.arg_n_normalization_samples := 1;
     CryoCARE_Dataset.arg_tilt_axis := None |}.

(** The arguments of [small_init] with no statistics and a budget of
    three patches for a dataset of two. *)
Definition greedy_kwargs : CryoCARE_Dataset.kwargs :=
  {| CryoCARE_Dataset.arg_tomo_paths_odd := ["a_ODD.mrc"%string];
     CryoCARE_Dataset.arg_tomo_paths_even := ["a_EVN.mrc"%string];
     CryoCARE_Dataset.arg_mask_paths := None;
     CryoCARE_Dataset.arg_n_samples_per_tomo := 2;
     CryoCARE_Dataset.arg_count_is_ndarray := false;
     CryoCARE_Dataset.arg_extraction_shapes := [((0, 9), (0, 9))];
     CryoCARE_Dataset.arg_mean := None;
     CryoCARE_Dataset.arg_std := None;
     CryoCARE_Dataset.arg_sample_shape := (2, 2, 1);
     CryoCARE_Dataset.arg_shuffle := false;
     CryoCARE_Dataset.arg_n_normalization_samples := 3;
     CryoCARE_Dataset.arg_tilt_axis := None |}.

Definition greedy_attributes : result (CryoCARE_Dataset.t * world) :=
  CryoCARE_Dataset.init_attributes toy_fs greedy_kwargs (boot [5; 7]%nat).

Definition greedy_attributes_ok : succeeds greedy_attributes.
Proof. eapply Success. vm_compute. reflexivity. Defined.

(** Two volume pairs, the second with an even volume one column short,
    and a mask list with a single entry. *)
Definition ragged_kwargs : CryoCARE_Dataset.kwargs :=
  {| CryoCARE_Dataset.arg_tomo_paths_odd := ["a_ODD.mrc"%string; "b_ODD.mrc"%string];
     CryoCARE_Dataset.arg_tomo_paths_even := ["a_EVN.mrc"%string; "b_EVN.mrc"%string];
     CryoCARE_Dataset.arg_mask_paths := Some [Some "a_mask.mrc"%string];
     CryoCARE_Dataset.arg_n_samples_per_tomo := 1;
     CryoCARE_Dataset.arg_count_is_ndarray := false;
     CryoCARE_Dataset.arg_extraction_shapes := [((0, 9), (0, 9)); ((0, 9), (0, 9))];
     CryoCARE_Dataset.arg_mean := Some (Float 0);
     CryoCARE_Dataset.arg_std := Some (Float 1);
     CryoCARE_Dataset.arg_sample_shape := (2, 2, 1);
     CryoCARE_Dataset.arg_shuffle := false;
     CryoCARE_Dataset.arg_n_normalization_samples := 0;
     CryoCARE_Dataset.arg_tilt_axis := None |}.

Definition ragged_init : result (CryoCARE_Dataset.t * world) :=
  CryoCARE_Dataset.__init__ toy_fs ragged_kwargs (boot [3%nat]).

Definition ragged_init_ok : succeeds ragged_init.
Proof. eapply Success. vm_compute. reflexivity. Defined.

(** [w[i]] on a window, for an in-plane axis [i]. *)
Definition window_at (w : window) (i : nat) : Z * Z :=
  match i with
  | O => fst w
  | _ => snd w
  end.

(** The in-plane axis that is not the split axis. *)
Definition other_axis (i : nat) : nat :=
  match i with
  | O => 1%nat
  | _ => 0%nat
  end.

(** The sampler on the whole plane of an all-valid (11, 11, 3) mask with
    the footprint (2, 5, 5), drawing the last candidate. *)
Definition wide_draw : result (list (Z * Z) * world) :=
  CryoCARE_Dataset.create_random_coords (2, 5, 5) (0, 11) (0, 11)
    (np_ones (11, 11, 3)%nat) 1 (boot [161%nat]).

Definition wide_draw_ok : succeeds wide_draw.
Proof. eapply Success. vm_compute. reflexivity. Defined.

(** The index [setup] derives from a valid split axis. *)
Definition split_axis_index (tilt_axis : string) : nat :=
  if String.eqb tilt_axis "Y" then 0%nat else 1%nat.

(** The arguments of [small_init] with shuffling switched on. *)
Definition shuffled_kwargs : CryoCARE_Dataset.kwargs :=
  {| CryoCARE_Dataset.arg_tomo_paths_odd := ["a_ODD.mrc"%string];
     CryoCARE_Dataset.arg_tomo_paths_even := ["a_EVN.mrc"%string];
     CryoCARE_Dataset.arg_mask_paths := None;
     CryoCARE_Dataset.arg_n_samples_per_tomo := 2;
     CryoCARE_Dataset.arg_count_is_ndarray := false;
     CryoCARE_Dataset.arg_extraction_shapes := [((0, 9), (0, 9))];
     CryoCARE_Dataset.arg_mean := Some (Float 0);
     CryoCARE_Dataset.arg_std := Some (Float 1);
     CryoCARE_Dataset.arg_sample_shape := (2, 2, 1);
     CryoCARE_Dataset.arg_shuffle := true;
     CryoCARE_Dataset.arg_n_normalization_samples := 0;
     CryoCARE_Dataset.arg_tilt_axis := None |}.

Definition shuffled_init : result (CryoCARE_Dataset.t * world) :=
  CryoCARE_Dataset.__init__ toy_fs shuffled_kwargs (boot [5; 7; 1; 0]%nat).

Definition shuffled_init_ok : succeeds shuffled_init.
Proof. eapply Success. vm_compute. reflexivity. Defined.

(** The training dataset of [toy_setup], saved and loaded on its own. *)
Definition toy_train_reload : result (CryoCARE_Dataset.t * world) :=
  CryoCARE_Dataset.load toy_fs
    (CryoCARE_Dataset.save (CryoCARE_DataModule.train_dataset (value toy_setup_ok))
       "train.npz" no_files)
    "train.npz" (boot toy_tape).

Definition toy_train_reload_ok : succeeds toy_train_reload.
Proof. eapply Success. vm_compute. reflexivity. Defined.

(** The opened volumes are the files at the stored paths, there is one
    coordinate row of the requested length per zipped volume pair, and
    [length] counts the stored coordinates. *)
Definition sized (fs : filesystem) (ds : CryoCARE_Dataset.t) : Prop :=
  Forall2 (fun p v => fs p = Some v)
          (CryoCARE_Dataset.tomo_paths_odd ds) (CryoCARE_Dataset.tomos_odd ds) /\
  Forall2 (fun p v => fs p = Some v)
          (CryoCARE_Dataset.tomo_paths_even ds) (CryoCARE_Dataset.tomos_even ds) /\
  Forall (fun row => List.length row
                     = Z.to_nat (CryoCARE_Dataset.n_samples_per_tomo ds))
         (CryoCARE_Dataset.coords ds) /\
  List.length (CryoCARE_Dataset.coords ds)
  = List.length (combine (combine (CryoCARE_Dataset.tomo_paths_odd ds)
                                  (CryoCARE_Dataset.tomo_paths_even ds))
                         (CryoCARE_Dataset.extraction_shapes ds)) /\
  CryoCARE_Dataset.length ds
  = (List.length (CryoCARE_Dataset.coords ds)
     * Z.to_nat (CryoCARE_Dataset.n_samples_per_tomo ds))%nat.

(** The arguments of [small_init] with no statistics and a budget of one
    patch for a dataset of two. *)
Definition frugal_kwargs : CryoCARE_Dataset.kwargs :=
  {| CryoCARE_Dataset.arg_tomo_paths_odd := ["a_ODD.mrc"%string];
     CryoCARE_Dataset.arg_tomo_paths_even := ["a_EVN.mrc"%string];
     CryoCARE_Dataset.arg_mask_paths := None;
     CryoCARE_Dataset.arg_n_samples_per_tomo := 2;
     CryoCARE_Dataset.arg_count_is_ndarray := false;
     CryoCARE_Dataset.arg_extraction_shapes := [((0, 9), (0, 9))];
     CryoCARE_Dataset.arg_mean := None;
     CryoCARE_Dataset.arg_std := None;
     CryoCARE_Dataset.arg_sample_shape := (2, 2, 1);
     CryoCARE_Dataset.arg_shuffle := true;
     CryoCARE_Dataset.arg_n_normalization_samples := 1;
     CryoCARE_Dataset.arg_tilt_axis := None |}.

(** The volume pair of [wide_init] with two samples, the first and the
    last candidate, no statistics and a budget of two patches. *)
Definition clipped_kwargs : CryoCARE_Dataset.kwargs :=
  {| CryoCARE_Dataset.arg_tomo_paths_odd := ["wide_ODD.mrc"%string];
     CryoCARE_Dataset.arg_tomo_paths_even := ["wide_EVN.mrc"%string];
     CryoCARE_Dataset.arg_mask_paths := None;
     CryoCARE_Dataset.arg_n_samples_per_tomo := 2;
     CryoCARE_Dataset.arg_count_is_ndarray := false;
     CryoCARE_Dataset.arg_extraction_shapes := [((0, 11), (0, 11))];
     CryoCARE_Dataset.arg_mean := None;
     CryoCARE_Dataset.arg_std := None;
     CryoCARE_Dataset.arg_sample_shape := (2, 5, 5);
     CryoCARE_Dataset.arg_shuffle := false;
     CryoCARE_Dataset.arg_n_normalization_samples := 2;
     CryoCARE_Dataset.arg_tilt_axis := None |}.

Definition clipped_attributes : result (CryoCARE_Dataset.t * world) :=
  CryoCARE_Dataset.init_attributes toy_fs clipped_kwargs (boot [0; 160]%nat).

Definition clipped_attributes_ok : succeeds clipped_attributes.
Proof. eapply Success. vm_compute. reflexivity. Defined.

Definition frugal_attributes : result (CryoCARE_Dataset.t * world) :=
  CryoCARE_Dataset.init_attributes toy_fs frugal_kwargs (boot toy_tape).

Definition frugal_attributes_ok : succeeds frugal_attributes.
Proof. eapply Success. vm_compute. reflexivity. Defined.

(** Every valid index of a dataset leads to a coordinate that keeps a
    footprint-sized, in-plane region inside the extraction window of its
    volume pair, the window lies inside the volume, and the patches
    served there have the in-plane shape of the footprint. *)
Definition patches_in_windows (d : CryoCARE_Dataset.t) : Prop :=
  forall idx, 0 <= idx < Z.of_nat (CryoCARE_Dataset.length d) ->
    let n := CryoCARE_Dataset.n_samples_per_tomo d in
    let ss := CryoCARE_Dataset.sample_shape d in
    let t := Z.to_nat (idx / n) in
    let c := Z.to_nat (idx mod n) in
    exists wnd row y x ve,
      nth_error (CryoCARE_Dataset.extraction_shapes d) t = Some wnd /\
      nth_error (CryoCARE_Dataset.coords d) t = Some row /\
      nth_error row c = Some (y, x) /\
      nth_error (CryoCARE_Dataset.tomos_even d) t = Some ve /\
      (fst (fst wnd) <= y /\ y + fp0 ss < snd (fst wnd)) /\
      (fst (snd wnd) <= x /\ x + fp1 ss < snd (snd wnd)) /\
      (0 <= fst (fst wnd) /\ snd (fst wnd) <= Z.of_nat (fst (fst (shape3 ve)))) /\
      (0 <= fst (snd wnd) /\ snd (snd wnd) <= Z.of_nat (snd (fst (shape3 ve)))) /\
      forall w, exists p q w',
        CryoCARE_Dataset.__getitem__ d idx w = Ok ((p, q), w') /\
        shape4 p = (Z.to_nat (fp0 ss), Z.to_nat (fp1 ss), snd (shape3 ve), 1%nat) /\
        shape4 q = shape4 p.

(** A window that lies inside a volume and is at least as long as the
    margins the sampler subtracts. *)
Definition window_fits (ss : footprint) (ve : volume) (wnd : window) : Prop :=
  0 <= fst (fst wnd) /\ snd (fst wnd) <= Z.of_nat (fst (fst (shape3 ve))) /\
  0 <= snd (fst wnd) - fp1 ss /\
  0 <= fst (snd wnd) /\ snd (snd wnd) <= Z.of_nat (snd (fst (shape3 ve))) /\
  0 <= snd (snd wnd) - fp0 ss.

(** * The script [cryoCARE_extract_train_data] *)

(** ** Python's [random.sample] *)

(** [random.sample(population, k)]: [k] entries at distinct positions, in
    the order they are drawn; [ValueError] when [k] is negative or larger
    than the population. *)
Definition random_sample (population : list string) (k : Z) : M (list string) :=
  if (k <? 0) || (Z.of_nat (List.length population) <? k) then raise ValueError
  else
    positions <- draw_without_replacement (seq 0 (List.length population)) (Z.to_nat k) ;;
    ret (map (fun i => nth i population EmptyString) positions).

Module cryoCARE_extract_train_data.

(** ** The machine the script runs on *)

(** An entry of the disk: a regular file or a directory. *)
Inductive node : Type :=
| File
| Dir.

(** The disk: what is at each path, and the archives [np.savez] has
    written. *)
Record disk : Type := Disk {
  entries : string -> option node;
  archives : CryoCARE_Dataset.npz_files
}.

(** What the script only reads: the volume files, the names [os.listdir]
    reports for each folder, and the paths at which [os.makedirs] manages
    to create a directory that does not exist yet (the directories it
    creates above that one on its way are not tracked). *)
Record host : Type := Host {
  volumes : filesystem;
  listing : string -> option (list string);
  creatable : string -> bool
}.

(** The state of the running script: that of the library code, and the
    disk. *)
Record process : Type := Process {
  py : world;
  storage : disk
}.

(** The exceptions of the script's own statements. *)
Inductive script_exn : Type :=
| KeyError (key : string)
| OSError
| SystemExit (code : Z).

(** How a run ends: it returns; an exception of the library code goes
    through, of which, as in [result], only the kind is kept, besides the
    disk it leaves; or one of the script's own statements raises. *)
Inductive outcome (A : Type) : Type :=
| Done (a : A) (p : process)
| Failed (e : exn) (d : disk)
| Stopped (e : script_exn) (p : process).
Arguments Done {A} a p.
Arguments Failed {A} e d.
Arguments Stopped {A} e p.

Definition Script (A : Type) : Type := process -> outcome A.

Definition pure {A} (a : A) : Script A := fun p => Done a p.

Definition stop {A} (e : script_exn) : Script A := fun p => Stopped e p.

Definition and_then {A B} (m : Script A) (k : A -> Script B) : Script B :=
  fun p => match m p with
           | Done a p' => k a p'
           | Failed e d => Failed e d
           | Stopped e p' => Stopped e p'
           end.

(** A call into the library code. *)
Definition lift {A} (m : M A) : Script A :=
  fun p => match m (py p) with
           | Ok (a, w) => Done a {| py := w; storage := storage p |}
           | Raise e => Failed e (storage p)
           end.

Declare Scope script_scope.
Delimit Scope script_scope with script.
Notation "x <- m ;; k" := (and_then m (fun x => k))
  (at level 61, m at next level, right associativity) : script_scope.
Notation "m ;;; k" := (and_then m (fun _ => k))
  (at level 61, right associativity) : script_scope.
Local Open Scope script_scope.

(** A [for] loop or comprehension whose body may raise. *)
Fixpoint for_each {A B} (f : A -> Script B) (l : list A) : Script (list B) :=
  match l with
  | [] => pure []
  | a :: l' => b <- f a ;; bs <- for_each f l' ;; pure (b :: bs)
  end.

(** [try: body except OSError: handler] *)
Definition try_except_OSError {A} (body handler : Script A) : Script A :=
  fun p => match body p with
           | Stopped OSError p' => handler p'
           | r => r
           end.

(** The disk a run leaves behind. *)
Definition disk_after {A} (r : outcome A) : disk :=
  match r with
  | Done _ p => storage p
  | Failed _ d => d
  | Stopped _ p => storage p
  end.

(** A part of the script that leaves the disk as it finds it, however it
    ends. *)
Definition reads_only {A} (m : Script A) : Prop :=
  forall p, disk_after (m p) = storage p.

Definition with_entry (p : process) (name : string) (n : node) : process :=
  {| py := py p;
     storage :=
       {| entries := fun q => if String.eqb q name then Some n
                              else entries (storage p) q;
          archives := archives (storage p) |} |}.

Definition with_archives (p : process) (files : CryoCARE_Dataset.npz_files) : process :=
  {| py := py p;
     storage := {| entries := entries (storage p); archives := files |} |}.

(** [os.listdir(folder)]: an [OSError] when the folder cannot be listed. *)
Definition os_listdir (h : host) (folder : string) : Script (list string) :=
  match listing h folder with
  | Some names => pure names
  | None => stop OSError
  end.

(** [os.makedirs(name, exist_ok=exist_ok)]: an [OSError] when [name] is
    there already, unless it is a directory and [exist_ok] is set, and
    when it cannot be created. *)
Definition os_makedirs (h : host) (name : string) (exist_ok : bool) : Script unit :=
  fun p =>
    match entries (storage p) name with
    | Some Dir => if exist_ok then Done tt p else Stopped OSError p
    | Some File => Stopped OSError p
    | None =>
        if creatable h name then Done tt (with_entry p name Dir)
        else Stopped OSError p
    end.

(** [sys.exit(code)] *)
Definition sys_exit {A} (code : Z) : Script A := stop (SystemExit code).

(** [dm.save(name)]: the two archives are written into the directory
    [name], replacing those of an earlier run; an [OSError] when there is
    no such directory. *)
Definition dm_save (dm : CryoCARE_DataModule.t) (name : string) : Script unit :=
  fun p =>
    match entries (storage p) name with
    | Some Dir =>
        Done tt (with_archives p
                   (CryoCARE_DataModule.save dm name (archives (storage p))))
    | _ => Stopped OSError p
    end.

(** ** The configuration *)

(** The parsed configuration file, each value of the type the script
    expects; [None] stands for a key the file lacks (for [mask], also for
    [null]). *)
Record configuration : Type := Configuration {
  folders : option (list string);
  num_slices : option Z;
  odd : option (list string);
  even : option (list string);
  mask : option (list (option string));
  num_samples : option Z;
  split : option float;
  patch_shape : option footprint;
  tilt_axis : option string;
  n_normalization_samples : option Z;
  path : option string;
  overwrite : option bool
}.

(** [config[key]] *)
Definition get {A} (key : string) (field : option A) : Script A :=
  match field with
  | Some v => pure v
  | None => stop (KeyError key)
  end.

(** [config["odd"] = o; config["even"] = e] *)
Definition set_lists (c : configuration) (o e : list string) : configuration :=
  {| folders := folders c;
     num_slices := num_slices c;
     odd := Some o;
     even := Some e;
     mask := mask c;
     num_samples := num_samples c;
     split := split c;
     patch_shape := patch_shape c;
     tilt_axis := tilt_axis c;
     n_normalization_samples := n_normalization_samples c;
     path := path c;
     overwrite := overwrite c |}.

Definition refusal : string :=
  "Output directory already exists. Please choose a new output directory or set 'overwrite' to 'true' in your configuration file.".

(** ** [main] *)

(** The files of one folder whose name contains [_ODD.mrc], joined to the
    folder. *)
Definition odd_files (h : host) (folder : string) : Script (list string) :=
  names <- os_listdir h folder ;;
  pure (map (os_path_join folder) (filter (str_contains "_ODD.mrc") names)).

(** [if config.get("folders"): ...]: the lists of volumes are drawn from
    the folders. *)
Definition select_folders (h : host) (config : configuration) : Script configuration :=
  match folders config with
  | Some ((_ :: _) as fl) =>
      found <- for_each (odd_files h) fl ;;
      let odd := List.concat found in
      k <- get "num_slices" (num_slices config) ;;
      sampled <- lift (random_sample odd k) ;;
      pure (set_lists config sampled
              (map (str_replace "_ODD.mrc" "_EVN.mrc") sampled))
  | _ => pure config
  end.

(** The statements of [main] up to the call of [setup]. *)
Definition sample_data (h : host) (config0 : configuration)
  : Script (configuration * CryoCARE_DataModule.t) :=
  config <- select_folders h config0 ;;
  tomo_paths_odd <- get "odd" (odd config) ;;
  tomo_paths_even <- get "even" (even config) ;;
  n_samples_per_tomo <- get "num_samples" (num_samples config) ;;
  split <- get "split" (split config) ;;
  sample_shape <- get "patch_shape" (patch_shape config) ;;
  tilt_axis <- get "tilt_axis" (tilt_axis config) ;;
  n_normalization_samples <-
    get "n_normalization_samples" (n_normalization_samples config) ;;
  dm <- lift (CryoCARE_DataModule.setup (volumes h) tomo_paths_odd tomo_paths_even
                (mask config) n_samples_per_tomo (one_minus split)
                sample_shape tilt_axis n_normalization_samples) ;;
  pure (config, dm).

(** The statements of [main] behind the call of [setup]. *)
Definition write_out (h : host) (config : configuration) (dm : CryoCARE_DataModule.t)
  : Script unit :=
  try_except_OSError
    (name <- get "path" (path config) ;; os_makedirs h name false)
    (match overwrite config with
     | Some true => name <- get "path" (path config) ;; os_makedirs h name true
     | _ => lift (print refusal) ;;; sys_exit 1
     end) ;;;
  name <- get "path" (path config) ;;
  dm_save dm name.

Definition main (h : host) (config0 : configuration) : Script unit :=
  cd <- sample_data h config0 ;;
  write_out h (fst cd) (snd cd).

(** The files [select_folders] chooses from: for each folder in turn, the
    listed names that contain [_ODD.mrc], joined to the folder. *)
Definition candidates (folders : list string) (names : list (list string))
  : list string :=
  List.concat
    (map (fun fn : string * list string =>
            map (os_path_join (fst fn)) (filter (str_contains "_ODD.mrc") (snd fn)))
         (combine folders names)).

(** ** A concrete machine *)

(** A run known to return, with its value and final state. *)
Inductive returns {A} (r : outcome A) : Type :=
| Returns (a : A) (p : process) (H : r = Done a p).

Definition returned {A} {r : outcome A} (s : returns r) : A :=
  match s with Returns _ a _ _ => a end.

Definition final_process {A} {r : outcome A} (s : returns r) : process :=
  match s with Returns _ _ p _ => p end.

Definition return_of {A} {r : outcome A} (s : returns r)
  : r = Done (returned s) (final_process s) :=
  match s with Returns _ _ _ H => H end.

(** A folder [data] with one pair of volumes and two files that are
    none; directories can be created everywhere. *)
Definition farm : host :=
  {| volumes := fun p =>
       if String.eqb p "data/a_ODD.mrc" then Some (ramp (9, 9, 2)%nat)
       else if String.eqb p "data/a_EVN.mrc" then Some (ramp (9, 9, 2)%nat)
       else None;
     listing := fun folder =>
       if String.eqb folder "data"
       then Some ["a_EVN.mrc"; "a_ODD.mrc"; "notes.txt"]%string
       else None;
     creatable := fun _ => true |}.

(** One volume pair taken from [data], 7 samples of which three quarters
    are for training, footprint (2, 2, 1), split along Y, output to [out]. *)
Definition farm_config : configuration :=
  {| folders := Some ["data"%string];
     num_slices := Some 1;
     odd := None;
     even := None;
     mask := None;
     num_samples := Some 7;
     split := Some (float_of_ratio 3 4);
     patch_shape := Some (2, 2, 1);
     tilt_axis := Some "Y"%string;
     n_normalization_samples := Some 3;
     path := Some "out"%string;
     overwrite := None |}.

(** A process on an empty disk, and one on a disk where [out] exists. *)
Definition fresh : process :=
  {| py := boot toy_tape;
     storage := {| entries := fun _ => None; archives := no_files |} |}.

Definition occupied : process :=
  {| py := boot toy_tape;
     storage :=
       {| entries := fun q => if String.eqb q "out" then Some Dir else None;
          archives := no_files |} |}.

Definition farm_sample : outcome (configuration * CryoCARE_DataModule.t) :=
  sample_data farm farm_config fresh.

Definition farm_sample_ok : returns farm_sample.
Proof. eapply Returns. vm_compute. reflexivity. Defined.

End cryoCARE_extract_train_data.

(** * Properties *)

(** ** Reasoning in the monad *)

Lemma bind_ok_inv {A B} (m : M A) (k : A -> M B) w b w' :
  bind m k w = Ok (b, w') ->
  exists a w1, m w = Ok (a, w1) /\ k a w1 = Ok (b, w').
Proof.
  unfold bind. destruct (m w) as [[a w1]|e]; [|discriminate].
  intros H. exists a, w1. split; [reflexivity|exact H].
Qed.

Lemma bind_ok {A B} (m : M A) (k : A -> M B) w a w1 :
  m w = Ok (a, w1) -> bind m k w = k a w1.
Proof. unfold bind. intros ->. reflexivity. Qed.

Lemma bind_raise {A B} (m : M A) (k : A -> M B) w e :
  m w = Raise e -> bind m k w = Raise e.
Proof. unfold bind. intros ->. reflexivity. Qed.

Lemma ret_ok_inv {A} (a b : A) w w' : ret a w = Ok (b, w') -> a = b /\ w = w'.
Proof. unfold ret. intros H. inversion H. split; reflexivity. Qed.

Lemma py_assert_ok_inv c w u w' : py_assert c w = Ok (u, w') -> c = true /\ w' = w.
Proof.
  unfold py_assert. destruct c; [|discriminate].
  intros H. apply ret_ok_inv in H. destruct H as [_ H]. split; [reflexivity|symmetry; exact H].
Qed.

(** *** Floats *)

Lemma int_to_float_ok z w f w' :
  int_to_float z w = Ok (f, w') -> f = float_of_Z z /\ w' = w.
Proof.
  unfold int_to_float. destruct (float_of_Z z) eqn:E; intros H;
    try (apply ret_ok_inv in H; destruct H as [<- <-]; split; reflexivity).
  discriminate H.
Qed.

Lemma py_int_ok f w z w' :
  py_int f w = Ok (z, w') -> w' = w /\ forall w0, py_int f w0 = Ok (z, w0).
Proof.
  destruct f; simpl; intros H; try discriminate H;
    apply ret_ok_inv in H; destruct H as [<- <-]; split; reflexivity.
Qed.

(** [int(z * f)] does not touch the process state. *)
Lemma int_of_product_ok z f w c w' :
  int_of_product z f w = Ok (c, w') ->
  w' = w /\ forall w0, int_of_product z f w0 = Ok (c, w0).
Proof.
  unfold int_of_product, int_mul_float. intros H.
  apply bind_ok_inv in H. destruct H as (q & w1 & Hq & H).
  apply bind_ok_inv in Hq. destruct Hq as (zf & w2 & Hz & Hq).
  apply int_to_float_ok in Hz. destruct Hz as [-> ->].
  apply ret_ok_inv in Hq. destruct Hq as [<- <-].
  apply py_int_ok in H. destruct H as [-> H].
  split; [reflexivity|]. intros w0. unfold bind, int_to_float.
  destruct (float_of_Z z) eqn:E; try apply H.
  exfalso. specialize (H w0). unfold fmul in H. simpl in H.
  destruct f; simpl in H; discriminate H.
Qed.

Lemma py_int_raise f w e : py_int f w = Raise e -> forall w0, py_int f w0 = Raise e.
Proof. destruct f; simpl; intros H w0; try discriminate H; exact H. Qed.

Lemma int_of_product_raise z f w e :
  int_of_product z f w = Raise e -> forall w0, int_of_product z f w0 = Raise e.
Proof.
  unfold int_of_product, int_mul_float, bind, int_to_float.
  destruct (float_of_Z z); simpl; intros H w0;
    try exact (py_int_raise _ _ _ H w0); exact H.
Qed.

(** [int] truncates toward zero: the result lies between zero and the
    value of the float, less than one away from it. *)
Lemma py_int_truncates f w z w' :
  py_int f w = Ok (z, w') ->
  ((0 <= float_value f)%Q ->
   (inject_Z z <= float_value f)%Q /\ (float_value f < inject_Z z + 1)%Q) /\
  ((float_value f <= 0)%Q ->
   (float_value f <= inject_Z z)%Q /\ (inject_Z z - 1 < float_value f)%Q).
Proof.
  destruct f as [s|s| |s m e]; simpl; intros H; try discriminate H;
    apply ret_ok_inv in H; destruct H as [<- _].
  - split; intros _; split; unfold Qle, Qlt; simpl; lia.
  - destruct e as [|p|p].
    + rewrite Z.shiftl_0_r. simpl. rewrite Z.mul_1_r.
      split; intros _; split; unfold Qle, Qlt; simpl; lia.
    + rewrite Z.shiftl_mul_pow2 by lia.
      replace (cond_Zopp s (Z.pos m * 2 ^ Z.pos p))
        with (cond_Zopp s (Z.pos m) * 2 ^ Z.pos p)
        by (destruct s; unfold cond_Zopp; lia).
      set (x := cond_Zopp s (Z.pos m) * 2 ^ Z.pos p).
      split; intros _; split; unfold Qle, Qlt; simpl; lia.
    + rewrite Z.shiftl_div_pow2 by lia.
      change (- Z.neg p) with (Z.pos p).
      assert (Hpow : Z.pos (2 ^ p) = 2 ^ Z.pos p) by apply Pos2Z.inj_pow.
      assert (Hpos : 0 < 2 ^ Z.pos p) by (apply Z.pow_pos_nonneg; lia).
      pose proof (Z.mul_div_le (Z.pos m) (2 ^ Z.pos p) Hpos) as Hlo.
      pose proof (Z.mul_succ_div_gt (Z.pos m) (2 ^ Z.pos p) Hpos) as Hhi.
      assert (Hq0 : 0 <= Z.pos m / 2 ^ Z.pos p) by (apply Z.div_pos; lia).
      set (q := Z.pos m / 2 ^ Z.pos p) in *.
      destruct s; unfold cond_Zopp;
        (split; intros Hs; split;
         unfold Qle, Qlt in *; cbn [Qnum Qden Qplus Qminus Qopp inject_Z] in *;
         rewrite ?Hpow in *; nia).
Qed.

(** *** Strings and files *)

Lemma str_endswith_app suffix b : forall a,
  str_endswith suffix b = true -> str_endswith suffix (a ++ b) = true.
Proof.
  induction a as [|c a IH]; simpl; intros H; [exact H|].
  rewrite (IH H). apply orb_true_r.
Qed.

Lemma append_inj_l : forall a b c : string, (a ++ b)%string = (a ++ c)%string -> b = c.
Proof.
  induction a as [|x a IH]; simpl; intros b c H; [exact H|].
  inversion H. apply IH. assumption.
Qed.

(** A file name in a directory is the name behind a prefix that only
    depends on the directory. *)
Lemma os_path_join_relative a b :
  String.prefix "/" b = false ->
  os_path_join a b
  = ((if String.eqb a "" || ends_with_sep a then a else a ++ "/") ++ b)%string.
Proof.
  intros H. unfold os_path_join. rewrite H.
  destruct (String.eqb a "" || ends_with_sep a); [reflexivity|].
  induction a as [|c a IH]; simpl; [reflexivity|]. f_equal. exact IH.
Qed.

Lemma np_savez_name_npz path :
  str_endswith ".npz" path = true -> CryoCARE_Dataset.np_savez_name path = path.
Proof. unfold CryoCARE_Dataset.np_savez_name. intros ->. reflexivity. Qed.

Lemma data_npz_names path :
  CryoCARE_Dataset.np_savez_name (CryoCARE_DataModule.train_data_npz path)
  = CryoCARE_DataModule.train_data_npz path /\
  CryoCARE_Dataset.np_savez_name (CryoCARE_DataModule.val_data_npz path)
  = CryoCARE_DataModule.val_data_npz path /\
  CryoCARE_DataModule.train_data_npz path <> CryoCARE_DataModule.val_data_npz path.
Proof.
  unfold CryoCARE_DataModule.train_data_npz, CryoCARE_DataModule.val_data_npz.
  rewrite !os_path_join_relative by reflexivity.
  split; [|split].
  - apply np_savez_name_npz, str_endswith_app. reflexivity.
  - apply np_savez_name_npz, str_endswith_app. reflexivity.
  - intros H. apply append_inj_l in H. discriminate H.
Qed.

(** What [save] leaves at the two names of a directory. *)
Lemma saved_train dm path files :
  CryoCARE_DataModule.save dm path files (CryoCARE_DataModule.train_data_npz path)
  = Some (CryoCARE_Dataset.archive_of (CryoCARE_DataModule.train_dataset dm)).
Proof.
  destruct (data_npz_names path) as (Et & Ev & Hne).
  unfold CryoCARE_DataModule.save, CryoCARE_Dataset.save, CryoCARE_Dataset.np_savez.
  rewrite Et, Ev, String.eqb_refl.
  destruct (String.eqb_spec (CryoCARE_DataModule.train_data_npz path)
                            (CryoCARE_DataModule.val_data_npz path)) as [E|_];
    [contradiction|reflexivity].
Qed.

Lemma saved_val dm path files :
  CryoCARE_DataModule.save dm path files (CryoCARE_DataModule.val_data_npz path)
  = Some (CryoCARE_Dataset.archive_of (CryoCARE_DataModule.val_dataset dm)).
Proof.
  destruct (data_npz_names path) as (Et & Ev & Hne).
  unfold CryoCARE_DataModule.save, CryoCARE_Dataset.save, CryoCARE_Dataset.np_savez.
  rewrite Ev, String.eqb_refl. reflexivity.
Qed.

Lemma np_load_inv files path w tmp w' :
  CryoCARE_Dataset.np_load files path w = Ok (tmp, w') ->
  files path = Some tmp /\ w' = w.
Proof.
  unfold CryoCARE_Dataset.np_load. destruct (files path) as [t|]; [|discriminate].
  intros H. apply ret_ok_inv in H. destruct H as [<- <-]. split; reflexivity.
Qed.

(** [load] opens the archive at the path, runs the constructor on its
    entries and overwrites the coordinates with the archived ones. *)
Lemma load_inv fs files path w ds w' :
  CryoCARE_Dataset.load fs files path w = Ok (ds, w') ->
  exists tmp d0,
    files path = Some tmp /\
    CryoCARE_Dataset.__init__ fs (CryoCARE_Dataset.load_kwargs tmp) w = Ok (d0, w') /\
    ds = CryoCARE_Dataset.set_coords d0 (CryoCARE_Dataset.npz_coords tmp).
Proof.
  unfold CryoCARE_Dataset.load. intros H.
  apply bind_ok_inv in H. destruct H as (tmp & w1 & Hl & H).
  apply np_load_inv in Hl. destruct Hl as [Hf ->].
  apply bind_ok_inv in H. destruct H as (d0 & w2 & Hi & H).
  apply ret_ok_inv in H. destruct H as [<- <-].
  exists tmp, d0. repeat split; assumption.
Qed.

Lemma load_found fs files path tmp w :
  files path = Some tmp ->
  CryoCARE_Dataset.load fs files path w
  = bind (CryoCARE_Dataset.__init__ fs (CryoCARE_Dataset.load_kwargs tmp))
         (fun ds => ret (CryoCARE_Dataset.set_coords ds (CryoCARE_Dataset.npz_coords tmp)))
         w.
Proof.
  intros Hf. unfold CryoCARE_Dataset.load, CryoCARE_Dataset.np_load, bind at 1.
  rewrite Hf. reflexivity.
Qed.

(** Splits a successful run along its binds, assertions and returns. *)
Ltac run_inv H :=
  match type of H with
  | bind _ _ _ = Ok _ =>
      let a := fresh "a" in let w := fresh "w" in
      let H1 := fresh "Hrun" in let H2 := fresh "Hrun" in
      apply bind_ok_inv in H; destruct H as (a & w & H1 & H2);
      run_inv H1; run_inv H2
  | py_assert _ _ = Ok _ =>
      let Hc := fresh "Hassert" in
      apply py_assert_ok_inv in H; destruct H as [Hc H]; subst
  | ret _ _ = Ok _ =>
      let He := fresh "Hret" in
      apply ret_ok_inv in H; destruct H as [He H]; subst
  | raise _ _ = Ok _ => discriminate H
  | _ => idtac
  end.

Lemma quiet_ret {A} (a : A) : quiet (ret a).
Proof. intros w b w' H. apply ret_ok_inv in H. destruct H as [_ ->]. reflexivity. Qed.

Lemma quiet_raise {A} e : quiet (@raise A e).
Proof. intros w b w' H. discriminate H. Qed.

Lemma quiet_bind {A B} (m : M A) (k : A -> M B) :
  quiet m -> (forall a, quiet (k a)) -> quiet (bind m k).
Proof.
  intros Hm Hk w b w' H. apply bind_ok_inv in H. destruct H as (a & w1 & H1 & H2).
  rewrite (Hk _ _ _ _ H2). exact (Hm _ _ _ H1).
Qed.

Lemma quiet_mapM {A B} (f : A -> M B) l : (forall a, quiet (f a)) -> quiet (mapM f l).
Proof.
  intros Hf. induction l as [|a l IH]; simpl.
  - apply quiet_ret.
  - apply quiet_bind; [apply Hf|]. intros b.
    apply quiet_bind; [exact IH|]. intros bs. apply quiet_ret.
Qed.

Lemma quiet_next_random : quiet next_random.
Proof.
  intros w a w'. unfold next_random. destruct (entropy w); intros H; inversion H; reflexivity.
Qed.

Lemma quiet_py_assert c : quiet (py_assert c).
Proof. unfold py_assert. destruct c; [apply quiet_ret|apply quiet_raise]. Qed.

Lemma quiet_mrc_open fs p : quiet (mrc_open fs p).
Proof. unfold mrc_open. destruct (fs p); [apply quiet_ret|apply quiet_raise]. Qed.

Lemma quiet_py_index {A} (l : list A) i : quiet (py_index l i).
Proof.
  unfold py_index. destruct (_ || _); [apply quiet_raise|].
  destruct (nth_error _ _); [apply quiet_ret|apply quiet_raise].
Qed.

Lemma quiet_draw_with_replacement a size : quiet (draw_with_replacement a size).
Proof.
  induction size as [|k IH]; simpl; [apply quiet_ret|].
  apply quiet_bind; [apply quiet_next_random|]. intros r.
  apply quiet_bind; [exact IH|]. intros rest. apply quiet_ret.
Qed.

Lemma quiet_draw_without_replacement size : forall pool,
  quiet (draw_without_replacement pool size).
Proof.
  induction size as [|k IH]; intros pool; simpl; [apply quiet_ret|].
  destruct pool as [|p pool]; [apply quiet_ret|].
  apply quiet_bind; [apply quiet_next_random|]. intros r.
  apply quiet_bind; [apply IH|]. intros rest. apply quiet_ret.
Qed.

Lemma quiet_permutation n : quiet (permutation n).
Proof. apply quiet_draw_without_replacement. Qed.

Lemma quiet_choice a size replace : quiet (choice a size replace).
Proof.
  unfold choice.
  destruct (_ && _); [apply quiet_raise|].
  destruct (size <? 0); [apply quiet_raise|].
  destruct replace; [apply quiet_draw_with_replacement|].
  destruct (_ <? _); [apply quiet_raise|apply quiet_draw_without_replacement].
Qed.

Lemma quiet_floor_divmod idx n b : quiet (floor_divmod idx n b).
Proof.
  unfold floor_divmod. destruct (n =? 0); [|apply quiet_ret].
  destruct b; [apply quiet_ret|apply quiet_raise].
Qed.

Lemma quiet_int_to_float z : quiet (int_to_float z).
Proof.
  unfold int_to_float. destruct (float_of_Z z); try apply quiet_ret. apply quiet_raise.
Qed.

Lemma quiet_py_int f : quiet (py_int f).
Proof. destruct f; simpl; try apply quiet_ret; apply quiet_raise. Qed.

Lemma quiet_int_of_product z f : quiet (int_of_product z f).
Proof.
  unfold int_of_product, int_mul_float.
  apply quiet_bind.
  - apply quiet_bind; [apply quiet_int_to_float|]. intros zf. apply quiet_ret.
  - intros q. apply quiet_py_int.
Qed.

Lemma quiet_np_mean samples : quiet (np_mean samples).
Proof. unfold np_mean. destruct (same_shapes samples); [apply quiet_ret|apply quiet_raise]. Qed.

Lemma quiet_np_std samples : quiet (np_std samples).
Proof. unfold np_std. destruct (same_shapes samples); [apply quiet_ret|apply quiet_raise]. Qed.

Create HintDb quiet.
#[export] Hint Resolve quiet_ret quiet_raise quiet_next_random quiet_py_assert
  quiet_mrc_open quiet_py_index quiet_draw_with_replacement
  quiet_draw_without_replacement quiet_permutation quiet_choice
  quiet_floor_divmod quiet_int_of_product quiet_np_mean quiet_np_std : quiet.

Ltac quiet_tac :=
  repeat first
    [ solve [auto with quiet]
    | apply quiet_bind; [|intro]
    | apply quiet_mapM; intro
    | match goal with |- quiet (match ?x with _ => _ end) => destruct x end
    | match goal with |- quiet (if ?x then _ else _) => destruct x end ].

(** ** What the constructor stores *)

Section ConstructorFacts.
Import CryoCARE_Dataset.
Variable fs : filesystem.

Lemma quiet_create_random_coords ss y x mask n :
  quiet (create_random_coords ss y x mask n).
Proof. unfold create_random_coords. quiet_tac. Qed.

Lemma quiet_read_mask even even_path mp : quiet (read_mask fs even even_path mp).
Proof. unfold read_mask. quiet_tac. Qed.

Lemma quiet_create_coords_for_tomo ss n e o es mp :
  quiet (__create_coords_for_tomo__ fs ss n e o es mp).
Proof.
  unfold __create_coords_for_tomo__. quiet_tac;
    try apply quiet_read_mask; apply quiet_create_random_coords.
Qed.

Lemma quiet_create_coordinate_lists self : quiet (create_coordinate_lists fs self).
Proof.
  unfold create_coordinate_lists. apply quiet_mapM. intros [[[o e] es] mp].
  apply quiet_create_coords_for_tomo.
Qed.

Lemma quiet_getitem self idx : quiet (__getitem__ self idx).
Proof. unfold __getitem__, augment, rand_gt_half. quiet_tac. Qed.

Lemma quiet_axis_index ax : quiet (axis_index ax).
Proof. unfold axis_index. quiet_tac. Qed.

Lemma quiet_init_attributes a : quiet (init_attributes fs a).
Proof.
  unfold init_attributes.
  apply quiet_bind; [destruct (arg_tilt_axis a); quiet_tac; apply quiet_axis_index|].
  intros rot. apply quiet_bind; [quiet_tac|]. intros odds.
  apply quiet_bind; [quiet_tac|]. intros evens.
  apply quiet_bind; [apply quiet_create_coordinate_lists|]. intros cs.
  apply quiet_bind; [destruct (arg_shuffle a); auto with quiet|].
  intros ix. apply quiet_ret.
Qed.

(** The attributes that [init_attributes] copies from its arguments. *)
Lemma init_attributes_fields a w ds w' :
  init_attributes fs a w = Ok (ds, w') ->
  tomo_paths_odd ds = arg_tomo_paths_odd a /\
  tomo_paths_even ds = arg_tomo_paths_even a /\
  n_samples_per_tomo ds = arg_n_samples_per_tomo a /\
  tilt_axis ds = arg_tilt_axis a /\
  extraction_shapes ds = arg_extraction_shapes a /\
  mean ds = arg_mean a /\
  std ds = arg_std a /\
  sample_shape ds = arg_sample_shape a /\
  shuffle ds = arg_shuffle a.
Proof.
  unfold init_attributes. intros H. run_inv H. simpl. repeat split; reflexivity.
Qed.

Lemma init_attributes_count_kind a w ds w' :
  init_attributes fs a w = Ok (ds, w') ->
  count_is_ndarray ds = arg_count_is_ndarray a.
Proof.
  unfold init_attributes. intros H. run_inv H. reflexivity.
Qed.

Lemma np_mean_ok samples w m w' :
  np_mean samples w = Ok (m, w') ->
  m = NpMean samples /\ same_shapes samples = true /\ w' = w.
Proof.
  unfold np_mean. destruct (same_shapes samples); [|discriminate].
  intros H. apply ret_ok_inv in H. destruct H as [<- <-]. repeat split.
Qed.

Lemma np_std_ok samples w m w' :
  np_std samples w = Ok (m, w') ->
  m = NpStd samples /\ same_shapes samples = true /\ w' = w.
Proof.
  unfold np_std. destruct (same_shapes samples); [|discriminate].
  intros H. apply ret_ok_inv in H. destruct H as [<- <-]. repeat split.
Qed.

Lemma compute_mean_std_ok self n w ds w' :
  compute_mean_std self n w = Ok (ds, w') ->
  exists samples,
    ds = set_stats self (Some (NpMean samples)) (Some (NpStd samples)) /\
    stdout w' = stdout w ++ [estimation_banner].
Proof.
  unfold compute_mean_std. intros H.
  apply bind_ok_inv in H. destruct H as ([] & w1 & Hp & H).
  apply bind_ok_inv in H. destruct H as (samples & w2 & Hs & H).
  apply bind_ok_inv in H. destruct H as (m & w3 & Hm & H).
  apply bind_ok_inv in H. destruct H as (sd & w4 & Hsd & H).
  apply np_mean_ok in Hm. destruct Hm as (-> & _ & ->).
  apply np_std_ok in Hsd. destruct Hsd as (-> & _ & ->).
  apply ret_ok_inv in H. destruct H as [<- <-].
  exists samples. split; [reflexivity|].
  assert (Hq : stdout w2 = stdout w1).
  { revert Hs. apply quiet_mapM. intros i. apply quiet_bind; [apply quiet_getitem|].
    intros xy. apply quiet_ret. }
  rewrite Hq. unfold print in Hp. inversion Hp. reflexivity.
Qed.

(** The constructor either keeps the statistics it was given, silently,
    or estimates both, announcing it once on standard output. *)
Lemma init_stats a w ds w' :
  __init__ fs a w = Ok (ds, w') ->
  (exists m s, arg_mean a = Some m /\ arg_std a = Some s /\
               mean ds = Some m /\ std ds = Some s /\ stdout w' = stdout w)
  \/
  ((arg_mean a = None \/ arg_std a = None) /\
   exists samples, mean ds = Some (NpMean samples) /\ std ds = Some (NpStd samples) /\
                   stdout w' = stdout w ++ [estimation_banner]).
Proof.
  unfold __init__. intros H.
  apply bind_ok_inv in H. destruct H as (self & w1 & Hpre & H).
  assert (Hq : stdout w1 = stdout w)
    by (eapply quiet_init_attributes; exact Hpre).
  apply init_attributes_fields in Hpre.
  destruct Hpre as (_ & _ & _ & _ & _ & Hm & Hs & _ & _).
  rewrite Hm, Hs in H.
  destruct (arg_mean a) as [m|] eqn:Ea; destruct (arg_std a) as [s|] eqn:Es; simpl in H.
  - apply ret_ok_inv in H. destruct H as [<- <-].
    left. exists m, s. repeat split; assumption.
  - apply compute_mean_std_ok in H. destruct H as (samples & -> & Hout).
    right. split; [right; reflexivity|]. exists samples. simpl.
    rewrite Hout, Hq. repeat split; reflexivity.
  - apply compute_mean_std_ok in H. destruct H as (samples & -> & Hout).
    right. split; [left; reflexivity|]. exists samples. simpl.
    rewrite Hout, Hq. repeat split; reflexivity.
  - apply compute_mean_std_ok in H. destruct H as (samples & -> & Hout).
    right. split; [left; reflexivity|]. exists samples. simpl.
    rewrite Hout, Hq. repeat split; reflexivity.
Qed.

(** The attributes other than the statistics survive the estimation. *)
Lemma init_fields a w ds w' :
  __init__ fs a w = Ok (ds, w') ->
  tomo_paths_odd ds = arg_tomo_paths_odd a /\
  tomo_paths_even ds = arg_tomo_paths_even a /\
  n_samples_per_tomo ds = arg_n_samples_per_tomo a /\
  tilt_axis ds = arg_tilt_axis a /\
  extraction_shapes ds = arg_extraction_shapes a /\
  sample_shape ds = arg_sample_shape a /\
  shuffle ds = arg_shuffle a.
Proof.
  unfold __init__. intros H.
  apply bind_ok_inv in H. destruct H as (self & w1 & Hpre & H).
  apply init_attributes_fields in Hpre.
  destruct Hpre as (H1 & H2 & H3 & H4 & H5 & _ & _ & H6 & H7).
  destruct (is_none (mean self) || is_none (std self)).
  - apply compute_mean_std_ok in H. destruct H as (samples & -> & _).
    simpl. repeat split; assumption.
  - apply ret_ok_inv in H. destruct H as [<- _]. repeat split; assumption.
Qed.

(** The constructor keeps the kind of the count it is given. *)
Lemma init_count_kind a w ds w' :
  __init__ fs a w = Ok (ds, w') -> count_is_ndarray ds = arg_count_is_ndarray a.
Proof.
  unfold __init__. intros H.
  apply bind_ok_inv in H. destruct H as (self & w1 & Hpre & H).
  assert (E : count_is_ndarray self = arg_count_is_ndarray a).
  { unfold init_attributes in Hpre. run_inv Hpre. reflexivity. }
  destruct (is_none (mean self) || is_none (std self)).
  - apply compute_mean_std_ok in H. destruct H as (samples & -> & _). exact E.
  - apply ret_ok_inv in H. destruct H as [<- _]. exact E.
Qed.

End ConstructorFacts.

(** ** What [setup] builds *)

Section SetupFacts.
Import CryoCARE_DataModule.
Variable fs : filesystem.

Lemma quiet_compute_extraction_shapes e o i ss vf :
  quiet (__compute_extraction_shapes__ fs e o i ss vf).
Proof. unfold __compute_extraction_shapes__. quiet_tac. Qed.

Lemma quiet_extraction_shapes odd even ax ss vf :
  quiet (extraction_shapes fs odd even ax ss vf).
Proof.
  unfold extraction_shapes. apply quiet_mapM. intros eo.
  apply quiet_bind; [apply quiet_axis_index|]. intros i.
  apply quiet_compute_extraction_shapes.
Qed.

(** The stages of a successful [setup]: the windows, the two counts and
    the two constructions. *)
Lemma setup_inv odd even masks n vf ss ax nn w dm w' :
  setup fs odd even masks n vf ss ax nn w = Ok (dm, w') ->
  exists shapes w1 w2 n_train n_val,
    extraction_shapes fs odd even ax ss vf w = Ok (shapes, w1) /\
    (forall w0, int_of_product n (one_minus vf) w0 = Ok (n_train, w0)) /\
    CryoCARE_Dataset.__init__ fs
      (train_kwargs odd even masks n_train ss ax nn (map fst shapes)) w1
      = Ok (train_dataset dm, w2) /\
    (forall w0, int_of_product n vf w0 = Ok (n_val, w0)) /\
    CryoCARE_Dataset.__init__ fs
      (val_kwargs odd even masks n_val ss (train_dataset dm) (map snd shapes)) w2
      = Ok (val_dataset dm, w').
Proof.
  unfold setup. intros H.
  apply bind_ok_inv in H. destruct H as (shapes & w1 & H1 & H).
  apply bind_ok_inv in H. destruct H as (n_train & w1' & C1 & H).
  apply int_of_product_ok in C1. destruct C1 as [-> C1].
  apply bind_ok_inv in H. destruct H as (train & w2 & H2 & H).
  apply bind_ok_inv in H. destruct H as (n_val & w2' & C2 & H).
  apply int_of_product_ok in C2. destruct C2 as [-> C2].
  apply bind_ok_inv in H. destruct H as (val & w3 & H3 & H).
  apply ret_ok_inv in H. destruct H as [<- <-]. simpl.
  exists shapes, w1, w2, n_train, n_val. repeat split; assumption.
Qed.

Lemma setup_shared_stats odd even masks n vf ss ax nn w dm w' :
  setup fs odd even masks n vf ss ax nn w = Ok (dm, w') ->
  shared_stats dm /\ stdout w' = stdout w ++ [estimation_banner].
Proof.
  intros H. apply setup_inv in H.
  destruct H as (shapes & w1 & w2 & n_train & n_val & H1 & _ & H2 & _ & H3).
  assert (Hq : stdout w1 = stdout w)
    by (eapply quiet_extraction_shapes; exact H1).
  apply init_stats in H2. apply init_stats in H3.
  destruct H2 as [(m & s & Hm & _)|(_ & samples & Hm & Hs & Hout)];
    [discriminate Hm|].
  destruct H3 as [(m & s & Hm' & Hs' & Hvm & Hvs & Hout')|([Hn|Hn] & _)].
  - simpl in Hm', Hs'. split.
    + exists m, s. rewrite Hm', Hs', Hvm, Hvs. repeat split; reflexivity.
    + rewrite Hout', Hout, Hq. reflexivity.
  - simpl in Hn. rewrite Hm in Hn. discriminate Hn.
  - simpl in Hn. rewrite Hs in Hn. discriminate Hn.
Qed.

(** Reading a dataset back keeps the archived statistics and estimates
    nothing. *)
Lemma dataset_load_stats (ds : CryoCARE_Dataset.t) files path m s w ds' w' :
  CryoCARE_Dataset.mean ds = Some m ->
  CryoCARE_Dataset.std ds = Some s ->
  files path = Some (CryoCARE_Dataset.archive_of ds) ->
  CryoCARE_Dataset.load fs files path w = Ok (ds', w') ->
  CryoCARE_Dataset.mean ds' = Some m /\ CryoCARE_Dataset.std ds' = Some s /\
  stdout w' = stdout w.
Proof.
  intros Hm Hs Hf H. apply load_inv in H.
  destruct H as (tmp & d & Ef & H & ->).
  assert (tmp = CryoCARE_Dataset.archive_of ds) by congruence. subst tmp. simpl.
  apply init_stats in H. simpl in H. rewrite Hm, Hs in H.
  destruct H as [(m' & s' & Em & Es & Hm' & Hs' & Hout)|([Hn|Hn] & _)];
    try discriminate Hn.
  inversion Em; inversion Es; subst. repeat split; assumption.
Qed.

Lemma load_shared_stats dm path files w dm2 w2 :
  shared_stats dm ->
  load fs (save dm path files) path w = Ok (dm2, w2) ->
  shared_stats dm2 /\
  CryoCARE_Dataset.mean (train_dataset dm2) = CryoCARE_Dataset.mean (train_dataset dm) /\
  CryoCARE_Dataset.std (train_dataset dm2) = CryoCARE_Dataset.std (train_dataset dm) /\
  stdout w2 = stdout w.
Proof.
  intros (m & s & Htm & Hts & Hvm & Hvs) H. unfold load in H.
  apply bind_ok_inv in H. destruct H as (train & w1 & H1 & H).
  apply bind_ok_inv in H. destruct H as (val & w3 & H3 & H).
  apply ret_ok_inv in H. destruct H as [<- <-]. simpl in *.
  destruct (dataset_load_stats _ _ _ _ _ _ _ _ Htm Hts (saved_train dm path files) H1)
    as (A1 & A2 & A3).
  destruct (dataset_load_stats _ _ _ _ _ _ _ _ Hvm Hvs (saved_val dm path files) H3)
    as (B1 & B2 & B3).
  split; [exists m, s; simpl; repeat split; assumption|].
  rewrite A1, A2, Htm, Hts, B3, A3. repeat split; reflexivity.
Qed.

Lemma reloaded_shared_stats dm dm' :
  shared_stats dm -> reloaded fs dm dm' ->
  shared_stats dm' /\
  CryoCARE_Dataset.mean (train_dataset dm') = CryoCARE_Dataset.mean (train_dataset dm) /\
  CryoCARE_Dataset.std (train_dataset dm') = CryoCARE_Dataset.std (train_dataset dm).
Proof.
  intros Hs Hr. induction Hr as [|dm1 path files w dm2 w2 Hr IH Hl].
  - split; [exact Hs|split; reflexivity].
  - destruct IH as (I1 & I2 & I3).
    destruct (load_shared_stats _ _ _ _ _ _ I1 Hl) as (L1 & L2 & L3 & _).
    rewrite L2, L3. split; [exact L1|split; assumption].
Qed.

End SetupFacts.


(** ** Shared normalisation statistics *)

(** C5. After [setup], and after any number of save/load round trips, the
    validation dataset's mean and std are the training dataset's: the
    only estimation [setup] runs is the training dataset's (one banner on
    standard output, statistics that are numpy reductions over sampled
    patches), the validation dataset receives the two values, and a
    reload copies the archived values without estimating anything. *)
Theorem validation_statistics_are_the_training_ones
    fs odd even masks n vf ss ax nn w dm w' :
  CryoCARE_DataModule.setup fs odd even masks n vf ss ax nn w = Ok (dm, w') ->
  stdout w' = stdout w ++ [estimation_banner] /\
  (exists samples,
     CryoCARE_Dataset.mean (CryoCARE_DataModule.train_dataset dm)
       = Some (NpMean samples) /\
     CryoCARE_Dataset.std (CryoCARE_DataModule.train_dataset dm)
       = Some (NpStd samples)) /\
  forall dm', reloaded fs dm dm' ->
    CryoCARE_Dataset.mean (CryoCARE_DataModule.val_dataset dm')
      = CryoCARE_Dataset.mean (CryoCARE_DataModule.train_dataset dm') /\
    CryoCARE_Dataset.std (CryoCARE_DataModule.val_dataset dm')
      = CryoCARE_Dataset.std (CryoCARE_DataModule.train_dataset dm') /\
    CryoCARE_Dataset.mean (CryoCARE_DataModule.train_dataset dm')
      = CryoCARE_Dataset.mean (CryoCARE_DataModule.train_dataset dm) /\
    CryoCARE_Dataset.std (CryoCARE_DataModule.train_dataset dm')
      = CryoCARE_Dataset.std (CryoCARE_DataModule.train_dataset dm) /\
    forall path files w1 dm2 w2,
      CryoCARE_DataModule.load fs (CryoCARE_DataModule.save dm' path files) path w1
      = Ok (dm2, w2) ->
      stdout w2 = stdout w1.
Proof.
  intros H.
  destruct (setup_shared_stats _ _ _ _ _ _ _ _ _ _ _ _ H) as [Hs Hout].
  split; [exact Hout|]. split.
  - apply setup_inv in H.
    destruct H as (shapes & w1 & w2 & n_train & n_val & _ & _ & H2 & _).
    apply init_stats in H2.
    destruct H2 as [(m & s & Hm & _)|(_ & samples & Hm & Hsd & _)];
      [discriminate Hm|].
    exists samples. split; assumption.
  - intros dm' Hr.
    destruct (reloaded_shared_stats _ _ _ Hs Hr) as ((m & s & A & B & C & D) & E & F).
    split; [rewrite C, A; reflexivity|].
    split; [rewrite D, B; reflexivity|].
    split; [exact E|]. split; [exact F|].
    intros path files w1 dm2 w2 Hl.
    assert (Hsh : shared_stats dm') by (exists m, s; repeat split; assumption).
    destruct (load_shared_stats _ _ _ _ _ _ _ Hsh Hl) as (_ & _ & _ & Hq). exact Hq.
Qed.

Lemma validation_statistics_are_the_training_ones_witness :
  CryoCARE_Dataset.mean (CryoCARE_DataModule.val_dataset (value toy_reload_ok))
    = CryoCARE_Dataset.mean (CryoCARE_DataModule.train_dataset (value toy_reload_ok)) /\
  CryoCARE_Dataset.std (CryoCARE_DataModule.val_dataset (value toy_reload_ok))
    = CryoCARE_Dataset.std (CryoCARE_DataModule.train_dataset (value toy_reload_ok)).
Proof.
  destruct (validation_statistics_are_the_training_ones
              toy_fs ["a_ODD.mrc"%string] ["a_EVN.mrc"%string]
              None 7 (float_of_ratio 1 4) (2, 2, 1) "Y" 3 (boot toy_tape)
              (value toy_setup_ok) (final_world toy_setup_ok)
              (run_of toy_setup_ok)) as (_ & _ & H).
  destruct (H (value toy_reload_ok)
              (reloaded_again toy_fs _ _ "out"%string no_files (boot toy_tape) _
                 (final_world toy_reload_ok)
                 (reloaded_now toy_fs _) (run_of toy_reload_ok)))
    as (A & B & _).
  split; [exact A|exact B].
Defined.

(** ** The split-axis tag *)

(** C9. Whatever split axis [setup] is given, the validation dataset is
    built without one: its [tilt_axis] is [None] and so is the entry of
    the archive written for it, while the training dataset and its
    archive record the axis passed to [setup]. *)
Theorem validation_dataset_has_no_tilt_axis
    fs odd even masks n vf ss ax nn w dm w' :
  CryoCARE_DataModule.setup fs odd even masks n vf ss ax nn w = Ok (dm, w') ->
  CryoCARE_Dataset.tilt_axis (CryoCARE_DataModule.val_dataset dm) = None /\
  CryoCARE_Dataset.tilt_axis (CryoCARE_DataModule.train_dataset dm) = Some ax /\
  forall path files,
    exists tmp_val tmp_train,
      CryoCARE_DataModule.save dm path files (CryoCARE_DataModule.val_data_npz path)
      = Some tmp_val /\
      CryoCARE_DataModule.save dm path files (CryoCARE_DataModule.train_data_npz path)
      = Some tmp_train /\
      CryoCARE_Dataset.npz_tilt_axis tmp_val = None /\
      CryoCARE_Dataset.npz_tilt_axis tmp_train = Some ax.
Proof.
  intros H. apply setup_inv in H.
  destruct H as (shapes & w1 & w2 & n_train & n_val & _ & _ & H2 & _ & H3).
  apply init_fields in H2. apply init_fields in H3.
  destruct H2 as (_ & _ & _ & Ht & _). destruct H3 as (_ & _ & _ & Hv & _).
  simpl in Ht, Hv. split; [exact Hv|]. split; [exact Ht|].
  intros path files.
  exists (CryoCARE_Dataset.archive_of (CryoCARE_DataModule.val_dataset dm)),
         (CryoCARE_Dataset.archive_of (CryoCARE_DataModule.train_dataset dm)).
  split; [apply saved_val|]. split; [apply saved_train|].
  simpl. split; assumption.
Qed.

Lemma validation_dataset_has_no_tilt_axis_witness :
  CryoCARE_Dataset.tilt_axis
    (CryoCARE_DataModule.val_dataset (value toy_setup_ok)) = None /\
  CryoCARE_Dataset.tilt_axis
    (CryoCARE_DataModule.train_dataset (value toy_setup_ok)) = Some "Y"%string /\
  forall path files,
    exists tmp_val tmp_train,
      CryoCARE_DataModule.save (value toy_setup_ok) path files
        (CryoCARE_DataModule.val_data_npz path) = Some tmp_val /\
      CryoCARE_DataModule.save (value toy_setup_ok) path files
        (CryoCARE_DataModule.train_data_npz path) = Some tmp_train /\
      CryoCARE_Dataset.npz_tilt_axis tmp_val = None /\
      CryoCARE_Dataset.npz_tilt_axis tmp_train = Some "Y"%string.
Proof.
  exact (validation_dataset_has_no_tilt_axis
           toy_fs ["a_ODD.mrc"%string] ["a_EVN.mrc"%string]
           None 7 (float_of_ratio 1 4) (2, 2, 1) "Y" 3 (boot toy_tape)
           (value toy_setup_ok) (final_world toy_setup_ok) (run_of toy_setup_ok)).
Defined.

(** ** Per-volume sample counts *)

Lemma int_of_product_inv z f w c w' :
  int_of_product z f w = Ok (c, w') ->
  forall w0, py_int (fmul (float_of_Z z) f) w0 = Ok (c, w0).
Proof.
  unfold int_of_product, int_mul_float. intros H.
  apply bind_ok_inv in H. destruct H as (q & w1 & Hq & H).
  apply bind_ok_inv in Hq. destruct Hq as (zf & w2 & Hz & Hq).
  apply int_to_float_ok in Hz. destruct Hz as [-> ->].
  apply ret_ok_inv in Hq. destruct Hq as [<- <-].
  apply py_int_ok in H. destruct H as [_ H]. exact H.
Qed.




(** ** The split point *)

Lemma shape_eqb_eq s t : shape_eqb s t = true <-> s = t.
Proof.
  destruct s as [[a b] c], t as [[a' b'] c']. unfold shape_eqb.
  rewrite !andb_true_iff, !Nat.eqb_eq. split.
  - intros [[-> ->] ->]. reflexivity.
  - intros H. inversion H. repeat split; reflexivity.
Qed.

Lemma truncation_floor f z :
  truncation_of f z -> (0 <= float_value f)%Q -> z = Qfloor (float_value f).
Proof.
  intros [H _] Hv. destruct (H Hv) as [Hlo Hhi].
  pose proof (Qfloor_resp_le _ _ Hlo) as A. rewrite Qfloor_Z in A.
  pose proof (Qfloor_le (float_value f)) as B.
  assert (C : (inject_Z (Qfloor (float_value f)) < inject_Z (z + 1))%Q).
  { rewrite inject_Z_plus. eapply Qle_lt_trans; [exact B|exact Hhi]. }
  rewrite <- Zlt_Qlt in C. lia.
Qed.

Lemma truncation_negative f z :
  truncation_of f z -> (float_value f < 0)%Q -> z <= 0 /\ Qfloor (float_value f) < 0.
Proof.
  intros [_ H] Hv. destruct (H (Qlt_le_weak _ _ Hv)) as [Hlo Hhi].
  split.
  - assert (C : (inject_Z (z - 1) < inject_Z 0)%Q).
    { unfold Zminus. rewrite inject_Z_plus. eapply Qlt_trans; [exact Hhi|exact Hv]. }
    rewrite <- Zlt_Qlt in C. lia.
  - pose proof (Qfloor_le (float_value f)) as B.
    assert (C : (inject_Z (Qfloor (float_value f)) < inject_Z 0)%Q)
      by (eapply Qle_lt_trans; [exact B|exact Hv]).
    rewrite <- Zlt_Qlt in C. exact C.
Qed.

(** With either the truncation or the floor of the float product, the
    clamp gives the same split point: the two differ only on negative
    products, and there the clamp applies. *)
Lemma clamped_truncation_floor f z extent fe :
  truncation_of f z -> 0 <= fe ->
  clamped extent fe z = clamped extent fe (Qfloor (float_value f)).
Proof.
  intros Ht Hfe. destruct (Qlt_le_dec (float_value f) 0) as [Hneg|Hpos].
  - destruct (truncation_negative _ _ Ht Hneg) as [Hz Hf]. unfold clamped.
    replace (z - 1 <? fe) with true by (symmetry; apply Z.ltb_lt; lia).
    replace (Qfloor (float_value f) - 1 <? fe) with true
      by (symmetry; apply Z.ltb_lt; lia).
    rewrite !orb_true_r. reflexivity.
  - rewrite (truncation_floor _ _ Ht Hpos). reflexivity.
Qed.

Lemma py_int_raise_kind f w e :
  py_int f w = Raise e -> e = OverflowError \/ e = ValueError.
Proof.
  destruct f; simpl; intros H; inversion H; auto.
Qed.

Lemma int_of_product_raise_kind z f w e :
  int_of_product z f w = Raise e -> e = OverflowError \/ e = ValueError.
Proof.
  unfold int_of_product, int_mul_float, bind, int_to_float.
  destruct (float_of_Z z); simpl; intros H;
    try (inversion H; auto; fail);
    eapply py_int_raise_kind; exact H.
Qed.

(** C4, as the code has it. For a volume pair that passes the shape
    checks, the split point along the split axis is
    [int(extent * (1 - validation_fraction)) - 1], the subtraction and
    the product being binary64 operations and [int] the truncation of the
    product (its floor when it is not negative), replaced by
    [extent - footprint_extent - 1] whenever [extent - cutoff] or [cutoff]
    is below the footprint extent; the training window is [[0, cutoff]]
    and the validation window [[cutoff, extent]] on that axis, and both
    are at least as long as the footprint. When the product is not a
    finite number the call raises. For shape (100, 100, 100), footprint
    (32, 32, 32), fraction 0.1 and the first in-plane axis the windows are
    [[0, 67]] and [[67, 100]]. *)
Theorem split_point_is_the_clamped_float_product :
  (forall (fs : filesystem) e o i ss vf ve vo w,
      fs e = Some ve -> fs o = Some vo -> shape3 ve = shape3 vo ->
      2 * fp0 ss < Z.of_nat (fst (fst (shape3 ve))) ->
      2 * fp1 ss < Z.of_nat (snd (fst (shape3 ve))) ->
      let extent := CryoCARE_DataModule.shape_at (shape3 ve) i in
      let fe := CryoCARE_DataModule.footprint_at ss i in
      let q := fmul (float_of_Z extent) (one_minus vf) in
      let whole : window :=
        ((0, CryoCARE_DataModule.shape_at (shape3 ve) 0),
         (0, CryoCARE_DataModule.shape_at (shape3 ve) 1)) in
      (forall split,
         int_of_product extent (one_minus vf) w = Ok (split, w) ->
         let cutoff := clamped extent fe split in
         CryoCARE_DataModule.__compute_extraction_shapes__ fs e o i ss vf w
         = Ok ((CryoCARE_DataModule.window_set whole i (0, cutoff),
                CryoCARE_DataModule.window_set whole i (cutoff, extent)), w) /\
         truncation_of q split /\
         (0 <= fe -> cutoff = clamped extent fe (Qfloor (float_value q))) /\
         fe <= cutoff - 0 /\ fe <= extent - cutoff) /\
      (forall err,
         int_of_product extent (one_minus vf) w = Raise err ->
         CryoCARE_DataModule.__compute_extraction_shapes__ fs e o i ss vf w
         = Raise err /\
         (err = OverflowError \/ err = ValueError))) /\
  (forall w,
      CryoCARE_DataModule.__compute_extraction_shapes__ toy_fs
        "cube_EVN.mrc" "cube_ODD.mrc" 0 (32, 32, 32) (float_of_ratio 1 10) w
      = Ok ((((0, 67), (0, 100)), ((67, 100), (0, 100))), w)).
Proof.
  split; [|intros w; vm_compute; reflexivity].
  intros fs e o i ss vf ve vo w He Ho Hsh H0 H1 extent fe q whole.
  assert (Hext : 2 * fe < extent).
  { unfold fe, extent, CryoCARE_DataModule.footprint_at, CryoCARE_DataModule.shape_at.
    destruct i; assumption. }
  assert (Hrun : CryoCARE_DataModule.__compute_extraction_shapes__ fs e o i ss vf w
                 = match int_of_product extent (one_minus vf) w with
                   | Ok (split, w') =>
                       Ok ((CryoCARE_DataModule.window_set whole i
                              (0, clamped extent fe split),
                            CryoCARE_DataModule.window_set whole i
                              (clamped extent fe split, extent)), w')
                   | Raise err => Raise err
                   end).
  { unfold CryoCARE_DataModule.__compute_extraction_shapes__.
    apply shape_eqb_eq in Hsh. apply Z.ltb_lt in H0. apply Z.ltb_lt in H1.
    unfold bind at 1 2 3 4 5 6. unfold mrc_open, py_assert, ret.
    rewrite He, Ho, Hsh, H0, H1. fold extent. fold fe.
    destruct (int_of_product extent (one_minus vf) w) as [[split w1]|err];
      reflexivity. }
  split.
  - intros split Hp cutoff. rewrite Hrun, Hp.
    pose proof (py_int_truncates _ _ _ _ (int_of_product_inv _ _ _ _ _ Hp w)) as Ht.
    split; [reflexivity|]. split; [exact Ht|].
    split; [intros Hfe; apply clamped_truncation_floor; assumption|].
    unfold cutoff, clamped.
    destruct ((extent - (split - 1) <? fe) || (split - 1 <? fe)) eqn:E.
    + lia.
    + apply orb_false_iff in E. destruct E as [E1 E2].
      apply Z.ltb_ge in E1. apply Z.ltb_ge in E2. lia.
  - intros err Hp. rewrite Hrun, Hp. split; [reflexivity|].
    exact (int_of_product_raise_kind _ _ _ _ Hp).
Qed.

Lemma split_point_is_the_clamped_float_product_witness :
  CryoCARE_DataModule.__compute_extraction_shapes__ toy_fs
    "cube_EVN.mrc" "cube_ODD.mrc" 0 (32, 32, 32) (float_of_ratio 1 10) (boot [])
  = Ok ((((0, 67), (0, 100)), ((67, 100), (0, 100))), boot []) /\
  truncation_of (fmul (float_of_Z 100) (one_minus (float_of_ratio 1 10))) 90 /\
  32 <= 67 - 0 /\ 32 <= 100 - 67.
Proof.
  destruct (proj1 split_point_is_the_clamped_float_product toy_fs
              "cube_EVN.mrc"%string "cube_ODD.mrc"%string 0%nat (32, 32, 32)
              (float_of_ratio 1 10)
              (ramp (100, 100, 100)%nat) (ramp (100, 100, 100)%nat) (boot [])
              eq_refl eq_refl eq_refl) as [H _];
    [reflexivity|reflexivity|].
  destruct (H 90) as (A & B & _ & C & D); [vm_compute; reflexivity|].
  split; [exact A|]. split; [exact B|]. split; [exact C|exact D].
Defined.

(** C4, as stated, fails in two ways. The split point is not the floor of
    the exact product, whichever real number the fraction stands for:
    with extent 100 and the fraction 0.55 the code splits at 43, the
    specification's formula over the decimal fraction at 44; with the
    fraction 0.1 the code splits at 89, the formula over the value of
    that float at 88. And a window as long as the footprint does not
    host a patch: with extent 5, footprint 2 and fraction 0.5 the
    training window is [[0, 2]], the sampler finds no candidate in it and
    [setup] raises. *)
Lemma split_point_is_not_the_exact_floor :
  (forall w,
     CryoCARE_DataModule.__compute_extraction_shapes__ toy_fs
       "cube_EVN.mrc" "cube_ODD.mrc" 0 (32, 32, 32) (float_of_ratio 55 100) w
     = Ok ((((0, 43), (0, 100)), ((43, 100), (0, 100))), w)) /\
  spec_cutoff 100 32 (55 # 100) = 44 /\
  (forall w,
     CryoCARE_DataModule.__compute_extraction_shapes__ toy_fs
       "cube_EVN.mrc" "cube_ODD.mrc" 0 (8, 8, 8) (float_of_ratio 1 10) w
     = Ok ((((0, 89), (0, 100)), ((89, 100), (0, 100))), w)) /\
  spec_cutoff 100 8 (float_value (float_of_ratio 1 10)) = 88 /\
  (forall w,
     CryoCARE_DataModule.__compute_extraction_shapes__ toy_fs
       "slim_EVN.mrc" "slim_ODD.mrc" 0 (2, 2, 1) (float_of_ratio 1 2) w
     = Ok ((((0, 2), (0, 5)), ((2, 5), (0, 5))), w)) /\
  CryoCARE_DataModule.setup toy_fs ["slim_ODD.mrc"%string] ["slim_EVN.mrc"%string]
    None 2 (float_of_ratio 1 2) (2, 2, 1) "Y" 1 (boot toy_tape) = Raise ValueError.
Proof.
  split; [intros w; vm_compute; reflexivity|].
  split; [vm_compute; reflexivity|].
  split; [intros w; vm_compute; reflexivity|].
  split; [vm_compute; reflexivity|].
  split; [intros w; vm_compute; reflexivity|].
  vm_compute. reflexivity.
Qed.

(** ** Drawing indices *)

Lemma remove_at_length {A} (l : list A) : forall i,
  (i < List.length l)%nat -> S (List.length (remove_at i l)) = List.length l.
Proof.
  induction l as [|a l IH]; intros i Hi; simpl in *; [lia|].
  destruct i as [|j]; [reflexivity|]. simpl. rewrite IH; [reflexivity|lia].
Qed.

Lemma remove_at_incl {A} (l : list A) : forall i, incl (remove_at i l) l.
Proof.
  induction l as [|a l IH]; intros i x Hx; simpl in *; [exact Hx|].
  destruct i as [|j]; [right; exact Hx|].
  destruct Hx as [->|Hx]; [left; reflexivity|right; exact (IH j x Hx)].
Qed.

Lemma remove_at_NoDup {A} (l : list A) : forall i d,
  NoDup l -> (i < List.length l)%nat ->
  NoDup (remove_at i l) /\ ~ In (nth i l d) (remove_at i l).
Proof.
  induction l as [|a l IH]; intros i d Hnd Hi; simpl in *; [lia|].
  inversion Hnd as [|a' l' Hna Hnd']; subst.
  destruct i as [|j].
  - split; assumption.
  - destruct (IH j d Hnd' ltac:(lia)) as [I1 I2]. split.
    + constructor; [|exact I1]. intros Hin. apply Hna. exact (remove_at_incl l j a Hin).
    + simpl. intros [Heq|Hin]; [|exact (I2 Hin)].
      apply Hna. rewrite Heq. apply nth_In. lia.
Qed.

Lemma next_random_ok w : exists r w', next_random w = Ok (r, w').
Proof. unfold next_random. destruct (entropy w); eexists; eexists; reflexivity. Qed.

Lemma draw_with_replacement_ok a : forall k w,
  exists l w', draw_with_replacement a k w = Ok (l, w') /\ List.length l = k /\
               ((0 < a)%nat -> Forall (fun i => (i < a)%nat) l).
Proof.
  induction k as [|k IH]; intros w; simpl.
  - exists [], w. split; [reflexivity|]. split; [reflexivity|]. intros _. constructor.
  - destruct (next_random_ok w) as (r & w1 & Hr).
    destruct (IH w1) as (l & w2 & Hl & Hlen & Hall).
    exists ((r mod a)%nat :: l), w2.
    rewrite (bind_ok _ _ _ _ _ Hr), (bind_ok _ _ _ _ _ Hl).
    split; [reflexivity|]. split; [simpl; lia|].
    intros Ha. constructor; [apply Nat.mod_upper_bound; lia|exact (Hall Ha)].
Qed.

Lemma draw_without_replacement_ok : forall k pool w,
  (k <= List.length pool)%nat -> NoDup pool ->
  exists l w', draw_without_replacement pool k w = Ok (l, w') /\
               List.length l = k /\ NoDup l /\ incl l pool.
Proof.
  induction k as [|k IH]; intros pool w Hk Hnd; simpl.
  - exists [], w. split; [reflexivity|]. split; [reflexivity|].
    split; [constructor|intros x []].
  - destruct pool as [|p pool]; [simpl in Hk; lia|].
    destruct (next_random_ok w) as (r & w1 & Hr).
    set (i := (r mod List.length (p :: pool))%nat).
    assert (Hi : (i < List.length (p :: pool))%nat)
      by (apply Nat.mod_upper_bound; simpl; lia).
    destruct (remove_at_NoDup (p :: pool) i 0%nat Hnd Hi) as [Hnd' Hnot].
    pose proof (remove_at_length (p :: pool) i Hi) as Hlen.
    destruct (IH (remove_at i (p :: pool)) w1 ltac:(lia) Hnd')
      as (l & w2 & Hl & Hll & Hndl & Hincl).
    exists (nth i (p :: pool) 0%nat :: l), w2.
    rewrite (bind_ok _ _ _ _ _ Hr). fold i. rewrite (bind_ok _ _ _ _ _ Hl).
    split; [reflexivity|]. split; [|split].
    + simpl. lia.
    + constructor; [|exact Hndl]. intros Hin. apply Hnot. exact (Hincl _ Hin).
    + intros x [<-|Hx]; [apply nth_In; exact Hi|].
      exact (remove_at_incl _ _ _ (Hincl _ Hx)).
Qed.

(** [choice] succeeds exactly when the size is not negative and the
    population is not empty unless no sample is asked for; the mode
    [replace = (a < size)] never trips the population check. *)
Lemma choice_spec (a : nat) (size : Z) w :
  0 <= size -> ((a = 0)%nat -> size = 0) ->
  exists l w',
    choice a size (Z.of_nat a <? size) w = Ok (l, w') /\
    List.length l = Z.to_nat size /\
    Forall (fun i => (i < a)%nat) l /\
    (Z.of_nat a < size ->
     draw_with_replacement a (Z.to_nat size) w = Ok (l, w')) /\
    (size <= Z.of_nat a ->
     draw_without_replacement (seq 0 a) (Z.to_nat size) w = Ok (l, w') /\ NoDup l).
Proof.
  intros Hs Ha. unfold choice.
  assert (E1 : (a =? 0)%nat && negb (size =? 0) = false).
  { destruct (a =? 0)%nat eqn:E; [|reflexivity].
    apply Nat.eqb_eq in E. rewrite (Ha E). reflexivity. }
  rewrite E1. replace (size <? 0) with false by (symmetry; apply Z.ltb_ge; exact Hs).
  destruct (Z.of_nat a <? size) eqn:E.
  - apply Z.ltb_lt in E.
    destruct (draw_with_replacement_ok a (Z.to_nat size) w) as (l & w' & Hl & Hlen & Hall).
    exists l, w'. split; [exact Hl|]. split; [exact Hlen|].
    split; [apply Hall; destruct a; [specialize (Ha eq_refl)|]; lia|].
    split; [intros _; exact Hl|intros H; lia].
  - apply Z.ltb_ge in E.
    destruct (draw_without_replacement_ok (Z.to_nat size) (seq 0 a) w) as (l & w' & Hl & Hlen & Hnd & Hincl).
    { rewrite length_seq. lia. }
    { apply seq_NoDup. }
    exists l, w'. split; [exact Hl|]. split; [exact Hlen|]. split.
    + apply Forall_forall. intros x Hx. apply Hincl in Hx. apply in_seq in Hx. lia.
    + split; [intros H; lia|intros _; split; assumption].
Qed.


(** ** The random source reaches every outcome *)





(** ** The coordinate sampler *)

Lemma combine_map_map {A B C} (f : A -> B) (g : A -> C) (l : list A) :
  combine (map f l) (map g l) = map (fun a => (f a, g a)) l.
Proof. induction l as [|a l IH]; simpl; [reflexivity|rewrite IH; reflexivity]. Qed.

Lemma valid_inds_lengths ss y x mask :
  List.length (snd (CryoCARE_Dataset.valid_inds ss y x mask))
  = List.length (fst (CryoCARE_Dataset.valid_inds ss y x mask)).
Proof.
  unfold CryoCARE_Dataset.valid_inds. destruct (shape3 mask) as [[Y X] D].
  simpl. rewrite !length_map. reflexivity.
Qed.






(** ** Empty candidate regions *)



Lemma fails_raise {A} e : fails (@raise A e).
Proof. intros w. exists e. reflexivity. Qed.





Lemma read_mask_ok_inv fs ve e mp w mask w' :
  CryoCARE_Dataset.read_mask fs ve e mp w = Ok (mask, w') ->
  tomo_mask fs ve mp = Some mask.
Proof.
  unfold CryoCARE_Dataset.read_mask, tomo_mask. destruct mp as [p|].
  - unfold mrc_open. destruct (fs p) as [m|]; intros H; run_inv H.
    reflexivity.
  - intros H. run_inv H. reflexivity.
Qed.




(** ** What a successful construction has established *)

Lemma mapM_ok_Forall2 {A B} (f : A -> M B) : forall l w bs w',
  mapM f l w = Ok (bs, w') ->
  Forall2 (fun a b => exists w1 w2, f a w1 = Ok (b, w2)) l bs.
Proof.
  induction l as [|a l IH]; intros w bs w' H; simpl in H.
  - apply ret_ok_inv in H. destruct H as [<- _]. constructor.
  - apply bind_ok_inv in H. destruct H as (b & w1 & Hb & H).
    apply bind_ok_inv in H. destruct H as (bs' & w2 & Hbs & H).
    apply ret_ok_inv in H. destruct H as [<- _].
    constructor; [exists w, w1; exact Hb|exact (IH _ _ _ Hbs)].
Qed.

Lemma mapM_total {A B} (f : A -> M B) : forall l,
  (forall a, In a l -> forall w, exists b w', f a w = Ok (b, w')) ->
  forall w, exists bs w', mapM f l w = Ok (bs, w').
Proof.
  induction l as [|a l IH]; intros Hf w; simpl.
  - exists [], w. reflexivity.
  - destruct (Hf a (or_introl eq_refl) w) as (b & w1 & Hb).
    destruct (IH (fun x Hx => Hf x (or_intror Hx)) w1) as (bs & w2 & Hbs).
    exists (b :: bs), w2.
    rewrite (bind_ok _ _ _ _ _ Hb), (bind_ok _ _ _ _ _ Hbs). reflexivity.
Qed.

Lemma draw_with_replacement_length a k w l w' :
  draw_with_replacement a k w = Ok (l, w') -> List.length l = k.
Proof.
  intros H. destruct (draw_with_replacement_ok a k w) as (l0 & w0 & H0 & Hlen & _).
  assert (El : l0 = l) by congruence. subst l0. exact Hlen.
Qed.

Lemma choice_ok_inv a size replace w l w' :
  choice a size replace w = Ok (l, w') ->
  0 <= size /\ ((a = 0)%nat -> size = 0) /\
  List.length l = Z.to_nat size /\ Forall (fun i => (i < a)%nat) l.
Proof.
  unfold choice. intros H.
  destruct ((a =? 0)%nat && negb (size =? 0)) eqn:E1; [discriminate H|].
  destruct (size <? 0) eqn:E2; [discriminate H|].
  apply Z.ltb_ge in E2.
  assert (Ha : (a = 0)%nat -> size = 0).
  { intros ->. simpl in E1. apply negb_false_iff in E1. apply Z.eqb_eq in E1. exact E1. }
  split; [exact E2|]. split; [exact Ha|].
  destruct replace.
  - destruct (draw_with_replacement_ok a (Z.to_nat size) w) as (l0 & w0 & H0 & Hlen & Hall).
    assert (El : l0 = l) by congruence. subst l0. split; [exact Hlen|].
    destruct a as [|a'].
    + rewrite (Ha eq_refl) in Hlen. simpl in Hlen.
      apply length_zero_iff_nil in Hlen. subst l. constructor.
    + apply Hall. lia.
  - destruct (Z.of_nat a <? size) eqn:E3; [discriminate H|].
    apply Z.ltb_ge in E3.
    destruct (draw_without_replacement_ok (Z.to_nat size) (seq 0 a) w)
      as (l0 & w0 & H0 & Hlen & _ & Hincl).
    { rewrite length_seq. lia. }
    { apply seq_NoDup. }
    assert (El : l0 = l) by congruence. subst l0. split; [exact Hlen|].
    apply Forall_forall. intros x Hx. apply Hincl in Hx. apply in_seq in Hx. lia.
Qed.

Lemma create_random_coords_ok_inv ss y x mask n w row w' :
  CryoCARE_Dataset.create_random_coords ss y x mask n w = Ok (row, w') ->
  exists sample_inds,
    0 <= n /\
    (fst (CryoCARE_Dataset.valid_inds ss y x mask) = [] -> n = 0) /\
    List.length sample_inds = Z.to_nat n /\
    Forall (fun i => (i < List.length (fst (CryoCARE_Dataset.valid_inds ss y x mask)))%nat)
           sample_inds /\
    row = map (fun i => (nth i (fst (CryoCARE_Dataset.valid_inds ss y x mask)) 0,
                         nth i (snd (CryoCARE_Dataset.valid_inds ss y x mask)) 0))
              sample_inds.
Proof.
  unfold CryoCARE_Dataset.create_random_coords. intros H.
  apply bind_ok_inv in H. destruct H as (l & w1 & Hc & H).
  apply ret_ok_inv in H. destruct H as [<- _].
  apply choice_ok_inv in Hc. destruct Hc as (H0 & Ha & Hlen & Hall).
  exists l. split; [exact H0|]. split.
  - intros E. apply Ha. rewrite E. reflexivity.
  - split; [exact Hlen|]. split; [exact Hall|].
    simpl fst. simpl snd. apply combine_map_map.
Qed.

Lemma tomo_mask_shape fs ve mp mask :
  tomo_mask fs ve mp = Some mask ->
  (mp = None \/ shape_eqb (shape3 ve) (shape3 mask) = true) ->
  shape3 mask = shape3 ve.
Proof.
  intros Hm [->|Hs].
  - simpl in Hm. inversion Hm. reflexivity.
  - apply shape_eqb_eq in Hs. symmetry. exact Hs.
Qed.

Lemma create_coords_for_tomo_ok_inv fs ss n o e es mp w row w' :
  CryoCARE_Dataset.__create_coords_for_tomo__ fs ss n e o es mp w = Ok (row, w') ->
  tomo_sampled fs ss n (o, e, es, mp) row.
Proof.
  unfold CryoCARE_Dataset.__create_coords_for_tomo__. intros H.
  apply bind_ok_inv in H. destruct H as (ve & w1 & He & H).
  apply bind_ok_inv in H. destruct H as (vo & w2 & Ho & H).
  apply bind_ok_inv in H. destruct H as ([] & w3 & Hs & H).
  apply bind_ok_inv in H. destruct H as (mask & w4 & Hm & H).
  apply bind_ok_inv in H. destruct H as ([] & w5 & H0 & H).
  apply bind_ok_inv in H. destruct H as ([] & w6 & H1 & H).
  apply py_assert_ok_inv in Hs. destruct Hs as [Hs _].
  apply py_assert_ok_inv in H0. destruct H0 as [H0 _].
  apply py_assert_ok_inv in H1. destruct H1 as [H1 _].
  apply shape_eqb_eq in Hs. apply Z.ltb_lt in H0. apply Z.ltb_lt in H1.
  unfold mrc_open in He, Ho.
  destruct (fs e) as [ve'|] eqn:Ee; [|discriminate He].
  destruct (fs o) as [vo'|] eqn:Eo; [|discriminate Ho].
  apply ret_ok_inv in He. destruct He as [-> _].
  apply ret_ok_inv in Ho. destruct Ho as [-> _].
  assert (Hshape : shape3 mask = shape3 ve).
  { pose proof (read_mask_ok_inv _ _ _ _ _ _ _ Hm) as Htm.
    apply (tomo_mask_shape fs ve mp mask Htm).
    destruct mp as [p|]; [right|left; reflexivity].
    unfold CryoCARE_Dataset.read_mask in Hm.
    apply bind_ok_inv in Hm. destruct Hm as (m & wa & Hp & Hm).
    apply bind_ok_inv in Hm. destruct Hm as ([] & wb & Hq & Hm).
    apply ret_ok_inv in Hm. destruct Hm as [<- _].
    apply py_assert_ok_inv in Hq. exact (proj1 Hq). }
  apply read_mask_ok_inv in Hm.
  apply create_random_coords_ok_inv in H.
  destruct H as (l & Hn & Hem & Hlen & Hall & Hrow).
  simpl. exists ve, vo, mask, l. rewrite Ee.
  repeat (split; [first [reflexivity|assumption]|]). exact Hrow.
Qed.

Lemma mapM_mrc_open_inv fs : forall l w vs w',
  mapM (mrc_open fs) l w = Ok (vs, w') ->
  Forall2 (fun p v => fs p = Some v) l vs /\ w' = w.
Proof.
  induction l as [|p l IH]; intros w vs w' H; simpl in H.
  - apply ret_ok_inv in H. destruct H as [<- <-]. split; [constructor|reflexivity].
  - apply bind_ok_inv in H. destruct H as (v & w1 & Hv & H).
    apply bind_ok_inv in H. destruct H as (vs' & w2 & Hvs & H).
    apply ret_ok_inv in H. destruct H as [<- <-].
    unfold mrc_open in Hv. destruct (fs p) as [v'|] eqn:E; [|discriminate Hv].
    apply ret_ok_inv in Hv. destruct Hv as [-> ->].
    destruct (IH _ _ _ Hvs) as [IH1 ->]. split; [constructor; assumption|reflexivity].
Qed.

Lemma mapM_mrc_open_again fs l vs w :
  Forall2 (fun p v => fs p = Some v) l vs -> mapM (mrc_open fs) l w = Ok (vs, w).
Proof.
  intros H. induction H as [|p v l vs Hp Hl IH]; simpl; [reflexivity|].
  rewrite (bind_ok _ _ w v w) by (unfold mrc_open; rewrite Hp; reflexivity).
  rewrite (bind_ok _ _ _ _ _ IH). reflexivity.
Qed.

Lemma create_coordinate_lists_inv fs self w cs w' :
  CryoCARE_Dataset.create_coordinate_lists fs self w = Ok (cs, w') ->
  Forall2 (tomo_sampled fs (CryoCARE_Dataset.sample_shape self)
             (CryoCARE_Dataset.n_samples_per_tomo self))
          (zip4 (CryoCARE_Dataset.tomo_paths_odd self)
                (CryoCARE_Dataset.tomo_paths_even self)
                (CryoCARE_Dataset.extraction_shapes self)
                (CryoCARE_Dataset.mask_paths self))
          cs.
Proof.
  unfold CryoCARE_Dataset.create_coordinate_lists. intros H.
  apply mapM_ok_Forall2 in H.
  eapply Forall2_impl; [|exact H].
  intros [[[o e] es] mp] row (w1 & w2 & Hrow).
  exact (create_coords_for_tomo_ok_inv _ _ _ _ _ _ _ _ _ _ Hrow).
Qed.

Lemma init_attributes_inv fs a w ds w' :
  CryoCARE_Dataset.init_attributes fs a w = Ok (ds, w') ->
  constructed_from fs ds /\
  CryoCARE_Dataset.mask_paths ds
  = stored_mask_paths (CryoCARE_Dataset.arg_tomo_paths_odd a)
                      (CryoCARE_Dataset.arg_mask_paths a).
Proof.
  unfold CryoCARE_Dataset.init_attributes. intros H.
  apply bind_ok_inv in H. destruct H as (rot & w1 & _ & H).
  apply bind_ok_inv in H. destruct H as (odds & w2 & Hodd & H).
  apply bind_ok_inv in H. destruct H as (evens & w3 & Heven & H).
  apply bind_ok_inv in H. destruct H as (cs & w4 & Hcs & H).
  apply bind_ok_inv in H. destruct H as (ix & w5 & _ & H).
  apply ret_ok_inv in H. destruct H as [<- _].
  apply mapM_mrc_open_inv in Hodd. apply mapM_mrc_open_inv in Heven.
  apply create_coordinate_lists_inv in Hcs. simpl in Hcs.
  unfold constructed_from. simpl.
  repeat split; [exact Hcs|exact (proj1 Hodd)|exact (proj1 Heven)].
Qed.

Lemma constructed_from_set_stats fs ds m s :
  constructed_from fs ds -> constructed_from fs (CryoCARE_Dataset.set_stats ds m s).
Proof. intros H. exact H. Qed.

Lemma init_inv fs a w ds w' :
  CryoCARE_Dataset.__init__ fs a w = Ok (ds, w') ->
  constructed_from fs ds /\
  CryoCARE_Dataset.mask_paths ds
  = stored_mask_paths (CryoCARE_Dataset.arg_tomo_paths_odd a)
                      (CryoCARE_Dataset.arg_mask_paths a).
Proof.
  unfold CryoCARE_Dataset.__init__. intros H.
  apply bind_ok_inv in H. destruct H as (self & w1 & Hpre & H).
  apply init_attributes_inv in Hpre.
  destruct (CryoCARE_Dataset.is_none _ || CryoCARE_Dataset.is_none _).
  - apply compute_mean_std_ok in H. destruct H as (samples & -> & _). exact Hpre.
  - apply ret_ok_inv in H. destruct H as [<- _]. exact Hpre.
Qed.

(** ** Positions in lists *)

Lemma nth_error_combine {A B} (l1 : list A) : forall (l2 : list B) i a b,
  nth_error (combine l1 l2) i = Some (a, b) <->
  nth_error l1 i = Some a /\ nth_error l2 i = Some b.
Proof.
  induction l1 as [|x l1 IH]; intros l2 i a b.
  - simpl. destruct i; simpl; split; intros H; try discriminate H;
      destruct H as [H _]; discriminate H.
  - destruct l2 as [|y l2].
    + simpl. destruct i; simpl; split; intros H; try discriminate H;
        destruct H as [_ H]; discriminate H.
    + destruct i as [|i]; simpl.
      * split; [intros H; inversion H; split; reflexivity|].
        intros [H1 H2]. inversion H1; inversion H2. reflexivity.
      * apply IH.
Qed.

Lemma nth_error_zip4 {A B C D} (a : list A) (b : list B) (c : list C) (d : list D)
    i x y z u :
  nth_error (zip4 a b c d) i = Some (x, y, z, u) <->
  nth_error a i = Some x /\ nth_error b i = Some y /\
  nth_error c i = Some z /\ nth_error d i = Some u.
Proof.
  unfold zip4. rewrite !nth_error_combine. tauto.
Qed.

Lemma Forall2_nth_error_l {A B} (R : A -> B -> Prop) l1 l2 :
  Forall2 R l1 l2 -> forall i b, nth_error l2 i = Some b ->
  exists a, nth_error l1 i = Some a /\ R a b.
Proof.
  intros H. induction H as [|a b l1 l2 Hab Hl IH]; intros i b' Hi.
  - destruct i; discriminate Hi.
  - destruct i as [|i]; simpl in *.
    + inversion Hi; subst. exists a. split; [reflexivity|exact Hab].
    + exact (IH i b' Hi).
Qed.

Lemma Forall2_nth_error_r {A B} (R : A -> B -> Prop) l1 l2 :
  Forall2 R l1 l2 -> forall i a, nth_error l1 i = Some a ->
  exists b, nth_error l2 i = Some b /\ R a b.
Proof.
  intros H. induction H as [|a b l1 l2 Hab Hl IH]; intros i a' Hi.
  - destruct i; discriminate Hi.
  - destruct i as [|i]; simpl in *.
    + inversion Hi; subst. exists b. split; [reflexivity|exact Hab].
    + exact (IH i a' Hi).
Qed.

Lemma py_index_ok {A} (l : list A) (i : Z) a w :
  0 <= i -> nth_error l (Z.to_nat i) = Some a -> py_index l i w = Ok (a, w).
Proof.
  intros Hi Hn. unfold py_index.
  assert (Hlt : (Z.to_nat i < List.length l)%nat)
    by (apply nth_error_Some; rewrite Hn; discriminate).
  replace (i <? 0) with false by (symmetry; apply Z.ltb_ge; exact Hi).
  replace (i <? 0) with false by (symmetry; apply Z.ltb_ge; exact Hi).
  replace (Z.of_nat (List.length l) <=? i) with false
    by (symmetry; apply Z.leb_gt; lia).
  simpl. rewrite Hn. reflexivity.
Qed.

Lemma py_index_out_of_range {A} (l : list A) (i : Z) w :
  Z.of_nat (List.length l) <= i -> py_index l i w = Raise IndexError.
Proof.
  intros Hi. unfold py_index.
  replace (i <? 0) with false by (symmetry; apply Z.ltb_ge; lia).
  replace (Z.of_nat (List.length l) <=? i) with true
    by (symmetry; apply Z.leb_le; exact Hi).
  rewrite orb_true_r. reflexivity.
Qed.

Lemma list_sum_constant (ls : list (list (Z * Z))) k :
  Forall (fun row => List.length row = k) ls ->
  list_sum (map (@List.length (Z * Z)) ls) = (List.length ls * k)%nat.
Proof.
  intros H. induction H as [|row ls Hrow Hls IH]; simpl; [reflexivity|].
  rewrite IH, Hrow. reflexivity.
Qed.

(** ** Random access *)

Lemma tomo_sampled_length fs ss n z row :
  tomo_sampled fs ss n z row -> List.length row = Z.to_nat n /\ 0 <= n.
Proof.
  destruct z as [[[o e] es] mp].
  intros (ve & vo & mask & l & _ & _ & _ & _ & _ & _ & _ & Hn & _ & Hlen & _ & ->).
  rewrite length_map. split; assumption.
Qed.

Lemma constructed_rows fs ds :
  constructed_from fs ds ->
  Forall (fun row => List.length row = Z.to_nat (CryoCARE_Dataset.n_samples_per_tomo ds))
         (CryoCARE_Dataset.coords ds) /\
  (CryoCARE_Dataset.coords ds <> [] -> 0 <= CryoCARE_Dataset.n_samples_per_tomo ds) /\
  CryoCARE_Dataset.length ds
  = (List.length (CryoCARE_Dataset.coords ds)
     * Z.to_nat (CryoCARE_Dataset.n_samples_per_tomo ds))%nat.
Proof.
  intros (Hc & _ & _ & Hlen).
  assert (Hrows : Forall (fun row => List.length row
                    = Z.to_nat (CryoCARE_Dataset.n_samples_per_tomo ds))
                    (CryoCARE_Dataset.coords ds)).
  { clear Hlen. induction Hc as [|z row zs rows Hz Hzs IH]; [constructor|].
    constructor; [|exact IH].
    exact (proj1 (tomo_sampled_length _ _ _ _ _ Hz)). }
  split; [exact Hrows|]. split.
  - intros Hne. inversion Hc as [|z row zs rows Hz Hzs E1 E2]; [congruence|].
    exact (proj2 (tomo_sampled_length _ _ _ _ _ Hz)).
  - rewrite Hlen. apply list_sum_constant. exact Hrows.
Qed.

Lemma augment_ok x y w :
  exists swap w',
    CryoCARE_Dataset.augment x y w = Ok (if swap : bool then (y, x) else (x, y), w').
Proof.
  unfold CryoCARE_Dataset.augment, rand_gt_half.
  destruct (next_random_ok w) as (r & w1 & Hr).
  exists (Nat.odd r), w1. unfold bind. rewrite Hr. unfold ret.
  destruct (Nat.odd r); reflexivity.
Qed.

(** Where a valid global index leads: the volume pair, the stored
    coordinate, and the two sub-volumes [__getitem__] returns, in either
    order. *)
Lemma getitem_valid fs ds idx :
  constructed_from fs ds ->
  0 <= idx < Z.of_nat (CryoCARE_Dataset.length ds) ->
  let n := CryoCARE_Dataset.n_samples_per_tomo ds in
  let ss := CryoCARE_Dataset.sample_shape ds in
  let t := Z.to_nat (idx / n) in
  let c := Z.to_nat (idx mod n) in
  exists o e es mp row y x ve vo,
    nth_error (zip4 (CryoCARE_Dataset.tomo_paths_odd ds)
                    (CryoCARE_Dataset.tomo_paths_even ds)
                    (CryoCARE_Dataset.extraction_shapes ds)
                    (CryoCARE_Dataset.mask_paths ds)) t = Some (o, e, es, mp) /\
    tomo_sampled fs ss n (o, e, es, mp) row /\
    nth_error (CryoCARE_Dataset.coords ds) t = Some row /\
    nth_error row c = Some (y, x) /\
    nth_error (CryoCARE_Dataset.tomos_even ds) t = Some ve /\
    nth_error (CryoCARE_Dataset.tomos_odd ds) t = Some vo /\
    shape3 ve = shape3 vo /\
    forall w, exists (swap : bool) w',
      CryoCARE_Dataset.__getitem__ ds idx w
      = Ok (if swap
            then (subvolume vo y x (fp0 ss) (fp1 ss), subvolume ve y x (fp0 ss) (fp1 ss))
            else (subvolume ve y x (fp0 ss) (fp1 ss), subvolume vo y x (fp0 ss) (fp1 ss)),
            w').
Proof.
  intros Hinv Hidx n ss t c.
  destruct (constructed_rows fs ds Hinv) as (Hrows & Hnn & Hlen).
  destruct Hinv as (Hc & Hodd & Heven & _).
  fold n in Hrows, Hnn, Hlen.
  set (T := List.length (CryoCARE_Dataset.coords ds)) in *.
  assert (HT : (0 < T)%nat) by (destruct T; [rewrite Hlen in Hidx; simpl in Hidx; lia|lia]).
  assert (Hn0 : 0 <= n).
  { apply Hnn. intros E. unfold T in HT. rewrite E in HT. simpl in HT. lia. }
  assert (Hn : 0 < n).
  { destruct (Z.eq_dec n 0) as [E|E]; [|lia].
    rewrite Hlen, E in Hidx. simpl in Hidx. rewrite Nat.mul_0_r in Hidx. simpl in Hidx. lia. }
  assert (Hidx' : idx < n * Z.of_nat T).
  { rewrite Hlen in Hidx. rewrite Nat2Z.inj_mul, Z2Nat.id in Hidx by lia. lia. }
  assert (Ht : 0 <= idx / n < Z.of_nat T).
  { split; [apply Z.div_pos; lia|apply Z.div_lt_upper_bound; lia]. }
  assert (Hcb : 0 <= idx mod n < n) by (apply Z.mod_pos_bound; exact Hn).
  destruct (nth_error (CryoCARE_Dataset.coords ds) t) as [row|] eqn:Erow.
  2:{ apply nth_error_None in Erow. unfold t, T in *. lia. }
  destruct (Forall2_nth_error_l _ _ _ Hc t row Erow) as ([[[o e] es] mp] & Ez & Hz).
  pose proof (proj1 (nth_error_zip4 _ _ _ _ _ _ _ _ _) Ez) as (Eo & Ee & _ & _).
  destruct (Forall2_nth_error_r _ _ _ Hodd t o Eo) as (vo & Evo & Hfo).
  destruct (Forall2_nth_error_r _ _ _ Heven t e Ee) as (ve & Eve & Hfe).
  assert (Hrowlen : List.length row = Z.to_nat n).
  { rewrite Forall_forall in Hrows. apply Hrows. exact (nth_error_In _ _ Erow). }
  destruct (nth_error row c) as [[y x]|] eqn:Eyx.
  2:{ apply nth_error_None in Eyx. unfold c in Eyx. lia. }
  assert (Hshape : shape3 ve = shape3 vo).
  { simpl in Hz. destruct Hz as (ve' & vo' & mask & l & H1 & H2 & H3 & _).
    rewrite Hfe in H1. rewrite Hfo in H2. inversion H1; inversion H2; subst. exact H3. }
  exists o, e, es, mp, row, y, x, ve, vo.
  split; [exact Ez|]. split; [exact Hz|]. split; [reflexivity|].
  split; [exact Eyx|]. split; [exact Eve|]. split; [exact Evo|].
  split; [exact Hshape|].
  intros w.
  destruct (augment_ok (subvolume ve y x (fp0 ss) (fp1 ss))
                       (subvolume vo y x (fp0 ss) (fp1 ss)) w) as (swap & w' & Ha).
  exists swap, w'.
  unfold CryoCARE_Dataset.__getitem__, floor_divmod. fold n. fold ss.
  replace (n =? 0) with false by (symmetry; apply Z.eqb_neq; lia).
  rewrite (bind_ok _ _ w (idx / n, idx mod n) w) by reflexivity.
  simpl fst. simpl snd.
  rewrite (bind_ok _ _ w row w) by (apply py_index_ok; [lia|exact Erow]).
  rewrite (bind_ok _ _ w (y, x) w) by (apply py_index_ok; [lia|exact Eyx]).
  rewrite (bind_ok _ _ w ve w) by (apply py_index_ok; [lia|exact Eve]).
  rewrite (bind_ok _ _ w vo w) by (apply py_index_ok; [lia|exact Evo]).
  exact Ha.
Qed.

Lemma slice_range_inside (y h : Z) (Y : nat) :
  0 <= y -> 0 <= h -> y + h <= Z.of_nat Y ->
  slice_range y (y + h) Y = (Z.to_nat y, Z.to_nat h).
Proof.
  intros Hy Hh Hfit. unfold slice_range, slice_bound.
  replace (y <? 0) with false by (symmetry; apply Z.ltb_ge; lia).
  replace (y + h <? 0) with false by (symmetry; apply Z.ltb_ge; lia).
  rewrite !Z.min_l by lia. f_equal. lia.
Qed.

Lemma subvolume_shape (v : volume) y x h w :
  shape4 (subvolume v y x h w)
  = (snd (slice_range y (y + h) (fst (fst (shape3 v)))),
     snd (slice_range x (x + w) (snd (fst (shape3 v)))),
     snd (shape3 v), 1%nat).
Proof.
  unfold subvolume. destruct (shape3 v) as [[Y X] D]. reflexivity.
Qed.

(** What [__getitem__] returns at a valid index of a dataset built by
    the constructor: the even and the odd sub-volume read at the stored
    coordinate [(y, x)], in either order and of one shape. The first two
    axes are the slices [y : y + sample_shape[0]] and
    [x : x + sample_shape[1]], the third axis is the whole depth of the
    volume, and a channel axis of length one is appended. *)
Lemma getitem_patch_shape fs a w0 ds w1 idx :
  CryoCARE_Dataset.__init__ fs a w0 = Ok (ds, w1) ->
  0 <= idx < Z.of_nat (CryoCARE_Dataset.length ds) ->
  let n := CryoCARE_Dataset.n_samples_per_tomo ds in
  let ss := CryoCARE_Dataset.sample_shape ds in
  let t := Z.to_nat (idx / n) in
  let c := Z.to_nat (idx mod n) in
  exists row y x even odd,
    nth_error (CryoCARE_Dataset.coords ds) t = Some row /\
    nth_error row c = Some (y, x) /\
    nth_error (CryoCARE_Dataset.tomos_even ds) t = Some even /\
    nth_error (CryoCARE_Dataset.tomos_odd ds) t = Some odd /\
    forall w, exists p q w',
      CryoCARE_Dataset.__getitem__ ds idx w = Ok ((p, q), w') /\
      ((p, q) = (subvolume even y x (fp0 ss) (fp1 ss),
                 subvolume odd y x (fp0 ss) (fp1 ss)) \/
       (p, q) = (subvolume odd y x (fp0 ss) (fp1 ss),
                 subvolume even y x (fp0 ss) (fp1 ss))) /\
      shape4 q = shape4 p /\
      shape4 p = (snd (slice_range y (y + fp0 ss) (fst (fst (shape3 even)))),
                  snd (slice_range x (x + fp1 ss) (snd (fst (shape3 even)))),
                  snd (shape3 even), 1%nat) /\
      (0 <= y -> 0 <= x -> 0 <= fp0 ss -> 0 <= fp1 ss ->
       y + fp0 ss <= Z.of_nat (fst (fst (shape3 even))) ->
       x + fp1 ss <= Z.of_nat (snd (fst (shape3 even))) ->
       shape4 p = (Z.to_nat (fp0 ss), Z.to_nat (fp1 ss), snd (shape3 even), 1%nat)).
Proof.
  intros Hinit Hidx n ss t c.
  apply init_inv in Hinit. destruct Hinit as [Hinv _].
  destruct (getitem_valid fs ds idx Hinv Hidx)
    as (o & e & es & mp & row & y & x & ve & vo & _ & _ & Erow & Eyx & Eve & Evo & Hsh & Hget).
  exists row, y, x, ve, vo.
  split; [exact Erow|]. split; [exact Eyx|]. split; [exact Eve|]. split; [exact Evo|].
  intros w. destruct (Hget w) as (swap & w' & Hrun). fold ss in Hrun.
  assert (Hp : shape4 (subvolume ve y x (fp0 ss) (fp1 ss))
               = (snd (slice_range y (y + fp0 ss) (fst (fst (shape3 ve)))),
                  snd (slice_range x (x + fp1 ss) (snd (fst (shape3 ve)))),
                  snd (shape3 ve), 1%nat)) by apply subvolume_shape.
  assert (Hq : shape4 (subvolume vo y x (fp0 ss) (fp1 ss))
               = shape4 (subvolume ve y x (fp0 ss) (fp1 ss)))
    by (rewrite !subvolume_shape, Hsh; reflexivity).
  assert (Hfit : 0 <= y -> 0 <= x -> 0 <= fp0 ss -> 0 <= fp1 ss ->
                 y + fp0 ss <= Z.of_nat (fst (fst (shape3 ve))) ->
                 x + fp1 ss <= Z.of_nat (snd (fst (shape3 ve))) ->
                 shape4 (subvolume ve y x (fp0 ss) (fp1 ss))
                 = (Z.to_nat (fp0 ss), Z.to_nat (fp1 ss), snd (shape3 ve), 1%nat)).
  { intros Hy Hx H0 H1 Hfy Hfx. rewrite Hp.
    rewrite (slice_range_inside y (fp0 ss) _ Hy H0 Hfy).
    rewrite (slice_range_inside x (fp1 ss) _ Hx H1 Hfx). reflexivity. }
  destruct swap.
  - exists (subvolume vo y x (fp0 ss) (fp1 ss)), (subvolume ve y x (fp0 ss) (fp1 ss)), w'.
    split; [exact Hrun|]. split; [right; reflexivity|].
    split; [symmetry; exact Hq|]. rewrite Hq. split; [exact Hp|exact Hfit].
  - exists (subvolume ve y x (fp0 ss) (fp1 ss)), (subvolume vo y x (fp0 ss) (fp1 ss)), w'.
    split; [exact Hrun|]. split; [left; reflexivity|].
    split; [exact Hq|]. split; [exact Hp|exact Hfit].
Qed.

(** C3, evaluated at an input where it fails. [get_train_dataset] and
    [get_val_dataset] declare patches of shape [sample_shape + (1,)], yet
    [__getitem__] slices the first two axes only and keeps the whole
    depth of the volume. For a volume of shape (9, 9, 2) and the
    footprint (2, 2, 1) the declared shape is (2, 2, 1, 1) and both
    patches at a valid index have shape (2, 2, 2, 1): so for a dataset
    built by the constructor, and so for the training dataset [setup]
    builds. *)
Theorem getitem_patch_keeps_the_volume_depth :
  (small_init = Ok (value small_init_ok, final_world small_init_ok) /\
   CryoCARE_Dataset.length (value small_init_ok) = 2%nat /\
   CryoCARE_DataModule.output_shapes (value small_init_ok) = (2, 2, 1, 1) /\
   exists p q w',
     CryoCARE_Dataset.__getitem__ (value small_init_ok) 1 (boot [1%nat])
       = Ok ((p, q), w') /\
     shape4 p = (2, 2, 2, 1)%nat /\ shape4 q = (2, 2, 2, 1)%nat) /\
  (toy_setup = Ok (value toy_setup_ok, final_world toy_setup_ok) /\
   CryoCARE_Dataset.length (CryoCARE_DataModule.train_dataset (value toy_setup_ok))
   = 5%nat /\
   CryoCARE_DataModule.output_shapes
     (CryoCARE_DataModule.train_dataset (value toy_setup_ok)) = (2, 2, 1, 1) /\
   exists p q w',
     CryoCARE_Dataset.__getitem__
       (CryoCARE_DataModule.train_dataset (value toy_setup_ok)) 0 (boot [])
       = Ok ((p, q), w') /\
     shape4 p = (2, 2, 2, 1)%nat /\ shape4 q = (2, 2, 2, 1)%nat).
Proof.
  split.
  - split; [exact (run_of small_init_ok)|].
    split; [vm_compute; reflexivity|].
    split; [vm_compute; reflexivity|].
    do 3 eexists. split; [vm_compute; reflexivity|].
    split; reflexivity.
  - split; [exact (run_of toy_setup_ok)|].
    split; [vm_compute; reflexivity|].
    split; [vm_compute; reflexivity|].
    do 3 eexists. split; [vm_compute; reflexivity|].
    split; reflexivity.
Qed.

(** ** Estimating the statistics *)

Lemma mapM_raises_at {A B} (f : A -> M B) (x : A) (l2 : list A) e : forall l1,
  (forall a, In a l1 -> forall w, exists b w', f a w = Ok (b, w')) ->
  (forall w, f x w = Raise e) ->
  forall w, mapM f (l1 ++ x :: l2) w = Raise e.
Proof.
  induction l1 as [|a l1 IH]; intros Hok Hx w; simpl.
  - apply bind_raise. apply Hx.
  - destruct (Hok a (or_introl eq_refl) w) as (b & w1 & Hb).
    rewrite (bind_ok _ _ _ _ _ Hb). apply bind_raise.
    apply IH; [|exact Hx]. intros a' Ha'. apply Hok. right. exact Ha'.
Qed.

(** The first index past the end: a division by zero when the count of
    samples per volume is the Python integer 0, an index error otherwise
    (numpy's division by a zero count gives position 0 of the first
    coordinate set, which is empty). *)
Lemma getitem_at_length fs ds w :
  constructed_from fs ds ->
  CryoCARE_Dataset.__getitem__ ds (Z.of_nat (CryoCARE_Dataset.length ds)) w
  = Raise (if (CryoCARE_Dataset.n_samples_per_tomo ds =? 0)
              && negb (CryoCARE_Dataset.count_is_ndarray ds)
           then ZeroDivisionError else IndexError).
Proof.
  intros Hinv. destruct (constructed_rows fs ds Hinv) as (Hrows & Hnn & Hlen).
  unfold CryoCARE_Dataset.__getitem__, floor_divmod.
  set (n := CryoCARE_Dataset.n_samples_per_tomo ds) in *.
  destruct (n =? 0) eqn:En.
  - destruct (CryoCARE_Dataset.count_is_ndarray ds); [|reflexivity].
    apply Z.eqb_eq in En. simpl andb.
    rewrite (bind_ok _ _ w (0, 0) w) by reflexivity. simpl fst. simpl snd.
    destruct (CryoCARE_Dataset.coords ds) as [|row rows] eqn:Ec.
    + apply bind_raise. apply py_index_out_of_range. simpl. lia.
    + rewrite (bind_ok _ _ w row w) by reflexivity.
      apply bind_raise. apply py_index_out_of_range.
      inversion Hrows as [|r rs Hr _]; subst. rewrite Hr, En. simpl. lia.
  - apply Z.eqb_neq in En. simpl andb.
    rewrite (bind_ok _ _ w (Z.of_nat (CryoCARE_Dataset.length ds) / n,
                            Z.of_nat (CryoCARE_Dataset.length ds) mod n) w)
      by reflexivity.
    simpl fst. simpl snd.
    apply bind_raise. apply py_index_out_of_range.
    rewrite Hlen.
    destruct (CryoCARE_Dataset.coords ds) as [|row rows] eqn:Ec.
    + simpl. rewrite Z.div_0_l by exact En. lia.
    + assert (H0 : 0 <= n) by (apply Hnn; discriminate).
      rewrite Nat2Z.inj_mul, Z2Nat.id by exact H0.
      rewrite Z.div_mul by exact En. lia.
Qed.

(** C10, as the code has it.  When the constructor has built its
    coordinate lists, mean or std is not supplied and the normalisation
    budget exceeds the dataset's length, construction fails during the
    estimation, at the first index past the end, instead of computing
    statistics from the patches there are: with an index error when the
    per-volume sample count is not zero, and with a division by zero when
    it is the integer zero (a zero count read from an archive is a numpy
    value, whose division does not raise: the index error follows). *)
Theorem estimation_fails_past_the_length fs a w ds w1 :
  CryoCARE_Dataset.init_attributes fs a w = Ok (ds, w1) ->
  CryoCARE_Dataset.arg_mean a = None \/ CryoCARE_Dataset.arg_std a = None ->
  Z.of_nat (CryoCARE_Dataset.length ds) < CryoCARE_Dataset.arg_n_normalization_samples a ->
  CryoCARE_Dataset.__init__ fs a w
  = Raise (if (CryoCARE_Dataset.arg_n_samples_per_tomo a =? 0)
              && negb (CryoCARE_Dataset.arg_count_is_ndarray a)
           then ZeroDivisionError else IndexError).
Proof.
  intros Hpre Hnone Hbudget.
  pose proof (init_attributes_fields fs a w ds w1 Hpre)
    as (_ & _ & Hn & _ & _ & Hm & Hs & _ & _).
  pose proof (init_attributes_count_kind fs a w ds w1 Hpre) as Hk.
  pose proof (proj1 (init_attributes_inv fs a w ds w1 Hpre)) as Hinv.
  unfold CryoCARE_Dataset.__init__. rewrite (bind_ok _ _ _ _ _ Hpre).
  assert (Hc : CryoCARE_Dataset.is_none (CryoCARE_Dataset.mean ds)
               || CryoCARE_Dataset.is_none (CryoCARE_Dataset.std ds) = true).
  { rewrite Hm, Hs. destruct Hnone as [-> | ->]; [reflexivity|apply orb_true_r]. }
  rewrite Hc. unfold CryoCARE_Dataset.compute_mean_std.
  set (L := CryoCARE_Dataset.length ds) in *.
  set (B := Z.to_nat (CryoCARE_Dataset.arg_n_normalization_samples a)).
  assert (HB : (B = L + S (B - L - 1))%nat) by (unfold B; lia).
  unfold bind at 1. unfold print. apply bind_raise.
  rewrite HB, seq_app. simpl seq.
  rewrite <- Hn, <- Hk. apply mapM_raises_at.
  - intros i Hi w2. apply in_seq in Hi.
    destruct (getitem_valid fs ds (Z.of_nat i) Hinv) as
      (? & ? & ? & ? & ? & ? & ? & ? & ? & _ & _ & _ & _ & _ & _ & _ & Hget).
    { fold L. lia. }
    destruct (Hget w2) as (swap & w' & Hrun).
    rewrite (bind_ok _ _ _ _ _ Hrun). eexists. eexists. reflexivity.
  - intros w2. apply bind_raise. apply (getitem_at_length fs ds w2 Hinv).
Qed.

Lemma estimation_fails_past_the_length_witness :
  CryoCARE_Dataset.__init__ toy_fs greedy_kwargs (boot [5; 7]%nat) = Raise IndexError.
Proof.
  refine (estimation_fails_past_the_length toy_fs greedy_kwargs (boot [5; 7]%nat)
            (value greedy_attributes_ok) (final_world greedy_attributes_ok)
            (run_of greedy_attributes_ok) (or_introl eq_refl) _).
  vm_compute. reflexivity.
Defined.

(** C10, as stated, fails when the per-volume sample count is zero: the
    dataset is empty, any budget exceeds its length, and the estimation
    stops on the division of the index by the count, not on an index
    error. *)
Lemma estimation_divides_by_zero :
  (exists ds w1,
     CryoCARE_Dataset.init_attributes toy_fs zero_kwargs (boot []) = Ok (ds, w1) /\
     Z.of_nat (CryoCARE_Dataset.length ds)
     < CryoCARE_Dataset.arg_n_normalization_samples zero_kwargs) /\
  CryoCARE_Dataset.__init__ toy_fs zero_kwargs (boot []) = Raise ZeroDivisionError.
Proof.
  split.
  - do 2 eexists. split; [vm_compute; reflexivity|]. vm_compute. reflexivity.
  - vm_compute. reflexivity.
Qed.

(** ** Empty candidate regions under [setup] *)

Lemma axis_index_ok_inv ax w i w' :
  axis_index ax w = Ok (i, w') ->
  (ax = "Y"%string \/ ax = "X"%string) /\ i = split_axis_index ax /\ w' = w.
Proof.
  unfold axis_index, split_axis_index.
  destruct (String.eqb ax "Y") eqn:EY.
  - intros H. apply ret_ok_inv in H. destruct H as [<- <-].
    apply String.eqb_eq in EY. repeat split. left. exact EY.
  - destruct (String.eqb ax "X") eqn:EX; [|intros H; discriminate H].
    intros H. apply ret_ok_inv in H. destruct H as [<- <-].
    apply String.eqb_eq in EX. repeat split. right. exact EX.
Qed.

Lemma extraction_shapes_inv fs odd even ax ss vf w shapes w' :
  CryoCARE_DataModule.extraction_shapes fs odd even ax ss vf w = Ok (shapes, w') ->
  Forall2 (fun (eo : string * string) (tv : window * window) =>
             exists wa wb,
               CryoCARE_DataModule.__compute_extraction_shapes__ fs (fst eo) (snd eo)
                 (split_axis_index ax) ss vf wa = Ok (tv, wb))
          (combine even odd) shapes.
Proof.
  unfold CryoCARE_DataModule.extraction_shapes. intros H.
  apply mapM_ok_Forall2 in H. eapply Forall2_impl; [|exact H].
  intros eo tv (w1 & w2 & Hrun).
  apply bind_ok_inv in Hrun. destruct Hrun as (i & w3 & Hi & Hrun).
  apply axis_index_ok_inv in Hi. destruct Hi as (_ & -> & ->).
  exists w1, w2. exact Hrun.
Qed.





Lemma init_row_count fs a w ds w' :
  CryoCARE_Dataset.__init__ fs a w = Ok (ds, w') ->
  List.length (CryoCARE_Dataset.coords ds)
  = List.length (zip4 (CryoCARE_Dataset.arg_tomo_paths_odd a)
                      (CryoCARE_Dataset.arg_tomo_paths_even a)
                      (CryoCARE_Dataset.arg_extraction_shapes a)
                      (stored_mask_paths (CryoCARE_Dataset.arg_tomo_paths_odd a)
                                         (CryoCARE_Dataset.arg_mask_paths a))) /\
  CryoCARE_Dataset.length ds
  = (List.length (CryoCARE_Dataset.coords ds)
     * Z.to_nat (CryoCARE_Dataset.arg_n_samples_per_tomo a))%nat.
Proof.
  intros H.
  pose proof (init_fields _ _ _ _ _ H) as (Eo & Ee & En & _ & Ees & _ & _).
  destruct (init_inv _ _ _ _ _ H) as [Hinv Emask].
  destruct (constructed_rows fs ds Hinv) as (_ & _ & Hlen).
  destruct Hinv as (Hc & _).
  rewrite Eo, Ee, Ees, Emask in Hc. rewrite En in Hlen.
  split; [symmetry; exact (Forall2_length Hc)|exact Hlen].
Qed.

Lemma extraction_shapes_count fs odd even ax ss vf w shapes w' :
  CryoCARE_DataModule.extraction_shapes fs odd even ax ss vf w = Ok (shapes, w') ->
  List.length shapes = Nat.min (List.length even) (List.length odd).
Proof.
  intros H. apply extraction_shapes_inv in H.
  rewrite <- (Forall2_length H). apply length_combine.
Qed.

(** The number of coordinate sets of the two datasets of a successful
    [setup]: one for each entry of the zipped lists of odd paths, even
    paths, windows and stored mask paths. *)
Lemma setup_row_counts fs odd even masks n vf ss ax nn w dm w' :
  CryoCARE_DataModule.setup fs odd even masks n vf ss ax nn w = Ok (dm, w') ->
  let T := Nat.min (Nat.min (List.length odd) (List.length even))
                   (List.length (stored_mask_paths odd masks)) in
  List.length (CryoCARE_Dataset.coords (CryoCARE_DataModule.train_dataset dm)) = T /\
  List.length (CryoCARE_Dataset.coords (CryoCARE_DataModule.val_dataset dm)) = T.
Proof.
  intros H T. apply setup_inv in H.
  destruct H as (shapes & w1 & w2 & n_train & n_val & Hsh & _ & H2 & _ & H3).
  apply extraction_shapes_count in Hsh.
  destruct (init_row_count _ _ _ _ _ H2) as [C2 _].
  destruct (init_row_count _ _ _ _ _ H3) as [C3 _].
  simpl in C2, C3.
  unfold zip4 in C2, C3. rewrite !length_combine, length_map, Hsh in C2, C3.
  unfold T. split; lia.
Qed.




(** ** Reading a dataset back *)

Lemma np_where_ones (m : ndarray3 bool) ys xs v :
  In v (np_where m ys xs) -> In v (np_where (np_ones (shape3 m)) ys xs).
Proof.
  unfold np_where. simpl shape3. destruct (shape3 m) as [[Y X] D].
  intros H. apply in_flat_map in H. destruct H as (i & Hi & H).
  apply in_flat_map in H. destruct H as (j & Hj & H).
  apply in_flat_map in H. destruct H as (k & Hk & H).
  apply in_flat_map. exists i. split; [exact Hi|].
  apply in_flat_map. exists j. split; [exact Hj|].
  apply in_flat_map. exists k. split; [exact Hk|].
  simpl. destruct (item3 m _ _ _); [exact H|destruct H].
Qed.

Lemma valid_inds_ones ss y x (mask : ndarray3 bool) :
  fst (CryoCARE_Dataset.valid_inds ss y x (np_ones (shape3 mask))) = [] ->
  fst (CryoCARE_Dataset.valid_inds ss y x mask) = [].
Proof.
  unfold CryoCARE_Dataset.valid_inds. simpl shape3.
  destruct (shape3 mask) as [[Y X] D] eqn:E. simpl fst.
  intros H. apply map_eq_nil in H.
  destruct (np_where mask _ _) as [|v l] eqn:Ew; [reflexivity|].
  exfalso.
  assert (Hin : In v (np_where (np_ones (shape3 mask))
                        (slice_range (fst y) (snd y - fp1 ss) Y)
                        (slice_range (fst x) (snd x - fp0 ss) X))).
  { apply np_where_ones. rewrite Ew. left. reflexivity. }
  rewrite E in Hin. simpl in H. rewrite H in Hin. destruct Hin.
Qed.

Lemma create_random_coords_total ss y x mask n w :
  0 <= n -> (fst (CryoCARE_Dataset.valid_inds ss y x mask) = [] -> n = 0) ->
  exists row w', CryoCARE_Dataset.create_random_coords ss y x mask n w = Ok (row, w').
Proof.
  intros Hn He. unfold CryoCARE_Dataset.create_random_coords.
  destruct (choice_spec (List.length (fst (CryoCARE_Dataset.valid_inds ss y x mask))) n w Hn)
    as (l & w' & Hc & _).
  { intros E. apply He. apply length_zero_iff_nil. exact E. }
  rewrite (bind_ok _ _ _ _ _ Hc). eexists. eexists. reflexivity.
Qed.

(** A volume pair sampled under some mask can be sampled under none. *)
Lemma create_coords_for_tomo_total fs ss n o e es mp row :
  tomo_sampled fs ss n (o, e, es, mp) row ->
  forall w, exists row' w',
    CryoCARE_Dataset.__create_coords_for_tomo__ fs ss n e o es None w = Ok (row', w').
Proof.
  intros (ve & vo & mask & l & He & Ho & Hsh & _ & Hms & H0 & H1 & Hn & Hem & _) w.
  unfold CryoCARE_Dataset.__create_coords_for_tomo__.
  rewrite (bind_ok _ _ w ve w) by (unfold mrc_open; rewrite He; reflexivity).
  rewrite (bind_ok _ _ w vo w) by (unfold mrc_open; rewrite Ho; reflexivity).
  rewrite (bind_ok _ _ w tt w)
    by (apply shape_eqb_eq in Hsh; rewrite Hsh; reflexivity).
  rewrite (bind_ok _ _ w (np_ones (shape3 ve)) w) by reflexivity.
  rewrite (bind_ok _ _ w tt w) by (apply Z.ltb_lt in H0; rewrite H0; reflexivity).
  rewrite (bind_ok _ _ w tt w) by (apply Z.ltb_lt in H1; rewrite H1; reflexivity).
  apply create_random_coords_total; [exact Hn|].
  intros E. apply Hem. rewrite <- Hms in E. exact (valid_inds_ones _ _ _ _ E).
Qed.

Lemma in_combine_repeat {A B} (l : list A) (b : B) k t m :
  In (t, m) (combine l (repeat b k)) -> m = b /\ In t l.
Proof.
  intros H. split.
  - apply in_combine_r in H. exact (repeat_spec _ _ _ H).
  - exact (in_combine_l _ _ _ _ H).
Qed.

Lemma in_combine_cover {A B} (l : list A) : forall (l' : list B) t,
  In t l -> (List.length l <= List.length l')%nat ->
  exists m, In (t, m) (combine l l').
Proof.
  induction l as [|a l IH]; intros l' t Hin Hlen; [destruct Hin|].
  destruct l' as [|b l']; [simpl in Hlen; lia|].
  destruct Hin as [->|Hin].
  - exists b. left. reflexivity.
  - destruct (IH l' t Hin ltac:(simpl in Hlen; lia)) as [m Hm].
    exists m. right. exact Hm.
Qed.

Lemma Forall2_In_l {A B} (R : A -> B -> Prop) l1 l2 a :
  Forall2 R l1 l2 -> In a l1 -> exists b, R a b.
Proof.
  intros H. induction H as [|x y l1 l2 Hxy Hl IH]; intros Hin; [destruct Hin|].
  destruct Hin as [->|Hin]; [exists y; exact Hxy|exact (IH Hin)].
Qed.

Lemma permutation_total n w : exists l w', permutation n w = Ok (l, w').
Proof.
  unfold permutation.
  destruct (draw_without_replacement_ok n (seq 0 n) w) as (l & w' & H & _).
  - rewrite length_seq. lia.
  - apply seq_NoDup.
  - exists l, w'. exact H.
Qed.

Lemma reload_attributes fs ds :
  constructed_from fs ds ->
  (List.length (combine (combine (CryoCARE_Dataset.tomo_paths_odd ds)
                                 (CryoCARE_Dataset.tomo_paths_even ds))
                        (CryoCARE_Dataset.extraction_shapes ds))
   <= List.length (CryoCARE_Dataset.mask_paths ds))%nat ->
  forall w, exists d0 w',
    CryoCARE_Dataset.init_attributes fs
      (CryoCARE_Dataset.load_kwargs (CryoCARE_Dataset.archive_of ds)) w = Ok (d0, w').
Proof.
  intros (Hc & Hodd & Heven & _) Hcover w.
  unfold CryoCARE_Dataset.init_attributes. simpl.
  rewrite (bind_ok _ _ w None w) by reflexivity.
  rewrite (bind_ok _ _ _ _ _ (mapM_mrc_open_again fs _ _ w Hodd)).
  rewrite (bind_ok _ _ _ _ _ (mapM_mrc_open_again fs _ _ w Heven)).
  match goal with
  | |- context [bind (CryoCARE_Dataset.create_coordinate_lists fs ?self) _] =>
      assert (Hcs : exists cs w2,
                CryoCARE_Dataset.create_coordinate_lists fs self w = Ok (cs, w2))
  end.
  { unfold CryoCARE_Dataset.create_coordinate_lists. simpl.
    apply mapM_total. intros [[[o e] es] m] Hin w1.
    unfold zip4 in Hin. apply in_combine_repeat in Hin. destruct Hin as [-> Hin].
    destruct (in_combine_cover _ (CryoCARE_Dataset.mask_paths ds) _ Hin Hcover)
      as [mp Hmp].
    destruct (Forall2_In_l _ _ _ _ Hc Hmp) as [row Hrow].
    exact (create_coords_for_tomo_total fs _ _ o e es mp row Hrow w1). }
  destruct Hcs as (cs & w2 & Hcs). rewrite (bind_ok _ _ _ _ _ Hcs).
  destruct (CryoCARE_Dataset.shuffle ds).
  - destruct (permutation_total (list_sum (map (@List.length (Z * Z)) cs)) w2)
      as (ix & w3 & Hix).
    rewrite (bind_ok _ _ _ _ _ Hix). eexists. eexists. reflexivity.
  - rewrite (bind_ok _ _ w2 (seq 0 (list_sum (map (@List.length (Z * Z)) cs))) w2)
      by reflexivity.
    eexists. eexists. reflexivity.
Qed.

Lemma reload_init fs ds m s :
  constructed_from fs ds ->
  (List.length (combine (combine (CryoCARE_Dataset.tomo_paths_odd ds)
                                 (CryoCARE_Dataset.tomo_paths_even ds))
                        (CryoCARE_Dataset.extraction_shapes ds))
   <= List.length (CryoCARE_Dataset.mask_paths ds))%nat ->
  CryoCARE_Dataset.mean ds = Some m -> CryoCARE_Dataset.std ds = Some s ->
  reloadable fs ds.
Proof.
  intros Hinv Hcover Hm Hs. split; [exists m, s; split; assumption|].
  intros w. destruct (reload_attributes fs ds Hinv Hcover w) as (d0 & w' & Hd0).
  exists d0, w'. unfold CryoCARE_Dataset.__init__.
  rewrite (bind_ok _ _ _ _ _ Hd0).
  apply init_attributes_fields in Hd0.
  destruct Hd0 as (_ & _ & _ & _ & _ & Em & Es & _ & _).
  simpl in Em, Es. rewrite Em, Es, Hm, Hs. reflexivity.
Qed.

Lemma stats_after_init fs a w ds w' :
  CryoCARE_Dataset.__init__ fs a w = Ok (ds, w') ->
  exists m s, CryoCARE_Dataset.mean ds = Some m /\ CryoCARE_Dataset.std ds = Some s.
Proof.
  intros H. apply init_stats in H.
  destruct H as [(m & s & _ & _ & Hm & Hs & _)|(_ & samples & Hm & Hs & _)].
  - exists m, s. split; assumption.
  - eexists. eexists. split; eassumption.
Qed.

Lemma init_reloadable fs a w ds w' :
  masks_cover a ->
  CryoCARE_Dataset.__init__ fs a w = Ok (ds, w') ->
  reloadable fs ds.
Proof.
  intros Hcover H.
  destruct (stats_after_init _ _ _ _ _ H) as (m & s & Hm & Hs).
  pose proof (init_fields _ _ _ _ _ H) as (Eo & Ee & _ & _ & Ees & _ & _).
  destruct (init_inv _ _ _ _ _ H) as [Hinv Emask].
  apply (reload_init fs ds m s Hinv); [|exact Hm|exact Hs].
  rewrite Emask, Eo, Ee, Ees. rewrite !length_combine.
  unfold masks_cover in Hcover. unfold stored_mask_paths.
  destruct (CryoCARE_Dataset.arg_mask_paths a) as [l|].
  - exact Hcover.
  - rewrite repeat_length. lia.
Qed.

Lemma load_reloadable fs ds0 files path w ds w' :
  reloadable fs ds0 ->
  files path = Some (CryoCARE_Dataset.archive_of ds0) ->
  CryoCARE_Dataset.load fs files path w = Ok (ds, w') ->
  reloadable fs ds.
Proof.
  intros [(m & s & Hm & Hs) Hre] Hf H.
  apply load_inv in H. destruct H as (tmp & d0 & Ht & Hd0 & ->).
  rewrite Hf in Ht. injection Ht as <-.
  pose proof (init_fields _ _ _ _ _ Hd0) as (Eo & Ee & En & Et & Ees & Ess & Esh).
  pose proof (init_stats _ _ _ _ _ Hd0) as Hst. simpl in Hst, Eo, Ee, En, Et, Ees, Ess, Esh.
  rewrite Hm, Hs in Hst.
  destruct Hst as [(m' & s' & Em & Es & Hm' & Hs' & _)|([Hn|Hn] & _)];
    try discriminate Hn.
  assert (Ek : CryoCARE_Dataset.load_kwargs
                 (CryoCARE_Dataset.archive_of
                    (CryoCARE_Dataset.set_coords d0
                       (CryoCARE_Dataset.npz_coords (CryoCARE_Dataset.archive_of ds0))))
               = CryoCARE_Dataset.load_kwargs (CryoCARE_Dataset.archive_of ds0)).
  { unfold CryoCARE_Dataset.load_kwargs, CryoCARE_Dataset.archive_of. simpl.
    rewrite Eo, Ee, En, Ees, Ess, Esh, Hm', Hs', Hm, Hs, <- Em, <- Es. reflexivity. }
  split.
  - exists m', s'. split; assumption.
  - intros w1. rewrite Ek. apply Hre.
Qed.

Lemma built_reloadable fs ds : built fs ds -> reloadable fs ds.
Proof.
  intros H.
  induction H as [a w ds w' Hcover Hinit|ds0 files path w ds w' Hb IH Hf Hload].
  - exact (init_reloadable fs a w ds w' Hcover Hinit).
  - exact (load_reloadable fs ds0 files path w ds w' IH Hf Hload).
Qed.

Lemma npz_appended : forall path : string, (path ++ ".npz")%string <> path.
Proof.
  induction path as [|c path IH]; simpl; intros H; [discriminate H|].
  injection H as H. exact (IH H).
Qed.

(** What is found at a destination after [save]: the archive of the
    dataset when the destination ends in [.npz], and whatever was there
    before when it does not. *)
Lemma saved_at ds path files :
  CryoCARE_Dataset.save ds path files path
  = if str_endswith ".npz" path then Some (CryoCARE_Dataset.archive_of ds)
    else files path.
Proof.
  unfold CryoCARE_Dataset.save, CryoCARE_Dataset.np_savez, CryoCARE_Dataset.np_savez_name.
  destruct (str_endswith ".npz" path).
  - rewrite String.eqb_refl. reflexivity.
  - destruct (String.eqb_spec path (path ++ ".npz")) as [E|_]; [|reflexivity].
    exfalso. exact (npz_appended path (eq_sym E)).
Qed.

(** The archive of a reloadable dataset, once found, is read back with
    the coordinates, the statistics and the sample count it holds. *)
Lemma reloadable_load fs ds files path :
  reloadable fs ds ->
  files path = Some (CryoCARE_Dataset.archive_of ds) ->
  forall w, exists ds' w',
    CryoCARE_Dataset.load fs files path w = Ok (ds', w') /\
    CryoCARE_Dataset.coords ds' = CryoCARE_Dataset.coords ds /\
    CryoCARE_Dataset.mean ds' = CryoCARE_Dataset.mean ds /\
    CryoCARE_Dataset.std ds' = CryoCARE_Dataset.std ds /\
    CryoCARE_Dataset.n_samples_per_tomo ds' = CryoCARE_Dataset.n_samples_per_tomo ds /\
    CryoCARE_Dataset.count_is_ndarray ds' = true.
Proof.
  intros [(m & s & Hm & Hs) Hre] Hf w.
  destruct (Hre w) as (d0 & w' & Hd0).
  exists (CryoCARE_Dataset.set_coords d0 (CryoCARE_Dataset.coords ds)), w'.
  split.
  - rewrite (load_found fs files path _ w Hf).
    rewrite (bind_ok _ _ _ _ _ Hd0). reflexivity.
  - pose proof (init_fields _ _ _ _ _ Hd0) as (_ & _ & En & _).
    pose proof (init_count_kind _ _ _ _ _ Hd0) as Ek.
    pose proof (init_stats _ _ _ _ _ Hd0) as Hst. simpl in Hst, En, Ek.
    rewrite Hm, Hs in Hst.
    destruct Hst as [(m' & s' & Em & Es & Hm' & Hs' & _)|([Hn|Hn] & _)];
      try discriminate Hn.
    simpl. rewrite Hm', Hs', Hm, Hs, Em, Es. repeat split; try reflexivity.
    + exact En.
    + exact Ek.
Qed.

(** C1, as the code has it. [np.savez] appends [.npz] to a destination
    that does not end in it, and [np.load] opens the destination as it
    is given. For every dataset built by the constructor from a mask list
    that is absent or reaches every zipped volume pair, or read back
    from the archive of such a dataset, with the volume files unchanged
    and a destination that ends in [.npz], [load] from the destination
    after [save] to it succeeds under every process state and returns a
    dataset with the same coordinate sets, mean, std and per-volume
    sample count (the count now a numpy value). The coordinates are the
    archived ones whatever the random generator yields while the
    constructor runs again. For any other destination [load] finds what
    was there before [save], and raises when nothing was. *)
Theorem save_then_load_restores_the_dataset fs ds path files :
  built fs ds ->
  (str_endswith ".npz" path = true ->
   forall w, exists ds' w',
     CryoCARE_Dataset.load fs (CryoCARE_Dataset.save ds path files) path w
     = Ok (ds', w') /\
     CryoCARE_Dataset.coords ds' = CryoCARE_Dataset.coords ds /\
     CryoCARE_Dataset.mean ds' = CryoCARE_Dataset.mean ds /\
     CryoCARE_Dataset.std ds' = CryoCARE_Dataset.std ds /\
     CryoCARE_Dataset.n_samples_per_tomo ds' = CryoCARE_Dataset.n_samples_per_tomo ds /\
     CryoCARE_Dataset.count_is_ndarray ds' = true) /\
  (str_endswith ".npz" path = false ->
   forall w,
     CryoCARE_Dataset.load fs (CryoCARE_Dataset.save ds path files) path w
     = CryoCARE_Dataset.load fs files path w /\
     (files path = None ->
      CryoCARE_Dataset.load fs (CryoCARE_Dataset.save ds path files) path w
      = Raise FileNotFoundError)).
Proof.
  intros Hb. pose proof (saved_at ds path files) as Hat. split.
  - intros Hsuffix w. rewrite Hsuffix in Hat.
    exact (reloadable_load fs ds _ path (built_reloadable fs ds Hb) Hat w).
  - intros Hsuffix w. rewrite Hsuffix in Hat.
    assert (E : CryoCARE_Dataset.load fs (CryoCARE_Dataset.save ds path files) path w
                = CryoCARE_Dataset.load fs files path w).
    { unfold CryoCARE_Dataset.load, CryoCARE_Dataset.np_load, bind at 1 3.
      rewrite Hat. reflexivity. }
    split; [exact E|]. intros Hnone. rewrite E.
    unfold CryoCARE_Dataset.load, CryoCARE_Dataset.np_load, bind at 1.
    rewrite Hnone. reflexivity.
Qed.

Lemma save_then_load_restores_the_dataset_witness :
  (exists ds' w',
     CryoCARE_Dataset.load toy_fs
       (CryoCARE_Dataset.save (value small_init_ok) "small.npz" no_files) "small.npz"
       (boot [70; 70]%nat) = Ok (ds', w') /\
     CryoCARE_Dataset.coords ds' = CryoCARE_Dataset.coords (value small_init_ok) /\
     CryoCARE_Dataset.mean ds' = CryoCARE_Dataset.mean (value small_init_ok) /\
     CryoCARE_Dataset.std ds' = CryoCARE_Dataset.std (value small_init_ok) /\
     CryoCARE_Dataset.n_samples_per_tomo ds'
     = CryoCARE_Dataset.n_samples_per_tomo (value small_init_ok) /\
     CryoCARE_Dataset.count_is_ndarray ds' = true) /\
  CryoCARE_Dataset.load toy_fs
    (CryoCARE_Dataset.save (value small_init_ok) "small" no_files) "small"
    (boot [70; 70]%nat) = Raise FileNotFoundError.
Proof.
  assert (Hb : built toy_fs (value small_init_ok)).
  { apply (built_by_init toy_fs small_kwargs (boot [5; 7]%nat)
             (value small_init_ok) (final_world small_init_ok)).
    - exact I.
    - exact (run_of small_init_ok). }
  split.
  - exact (proj1 (save_then_load_restores_the_dataset toy_fs (value small_init_ok)
                    "small.npz"%string no_files Hb) eq_refl (boot [70; 70]%nat)).
  - exact (proj2 (proj2 (save_then_load_restores_the_dataset toy_fs
                           (value small_init_ok) "small"%string no_files Hb)
                        eq_refl (boot [70; 70]%nat)) eq_refl).
Defined.

(** C1, as stated, fails in two ways. For a dataset whose mask list is
    shorter than its volume lists: the constructor zips the lists and
    samples the first pair only; [load] runs the constructor again
    without masks, so the second pair is now checked, and its two
    volumes differ in shape. And for a destination that does not end in
    [.npz]: [save] to the destination [small] writes the file
    [small.npz], and [load] from [small] finds no file. *)
Lemma save_then_load_can_fail :
  (ragged_init = Ok (value ragged_init_ok, final_world ragged_init_ok) /\
   CryoCARE_Dataset.coords (value ragged_init_ok) = [[(0, 1)]] /\
   CryoCARE_Dataset.load toy_fs
     (CryoCARE_Dataset.save (value ragged_init_ok) "ragged.npz" no_files) "ragged.npz"
     (boot toy_tape) = Raise AssertionError) /\
  (small_init = Ok (value small_init_ok, final_world small_init_ok) /\
   CryoCARE_Dataset.save (value small_init_ok) "small" no_files "small"%string
   = None /\
   CryoCARE_Dataset.save (value small_init_ok) "small" no_files "small.npz"%string
   = Some (CryoCARE_Dataset.archive_of (value small_init_ok)) /\
   CryoCARE_Dataset.load toy_fs
     (CryoCARE_Dataset.save (value small_init_ok) "small" no_files) "small"
     (boot toy_tape) = Raise FileNotFoundError).
Proof.
  split.
  - split; [exact (run_of ragged_init_ok)|].
    split; vm_compute; reflexivity.
  - split; [exact (run_of small_init_ok)|].
    repeat split; vm_compute; reflexivity.
Qed.

(** ** Sampled coordinates and the window *)

Lemma np_where_spec (m : ndarray3 bool) ys xs i j k :
  In (i, j, k) (np_where m ys xs) ->
  (i < snd ys)%nat /\ (j < snd xs)%nat /\
  item3 m (fst ys + i)%nat (fst xs + j)%nat k = true.
Proof.
  unfold np_where. destruct (shape3 m) as [[Y X] D].
  intros H. apply in_flat_map in H. destruct H as (i' & Hi & H).
  apply in_flat_map in H. destruct H as (j' & Hj & H).
  apply in_flat_map in H. destruct H as (k' & Hk & H).
  apply in_seq in Hi. apply in_seq in Hj.
  destruct (item3 m (fst ys + i')%nat (fst xs + j')%nat k') eqn:E; [|destruct H].
  destruct H as [H|[]]. inversion H; subst. repeat split; [lia|lia|exact E].
Qed.

Lemma slice_range_position (start stop : Z) (n i : nat) :
  0 <= start -> 0 <= stop -> (i < snd (slice_range start stop n))%nat ->
  fst (slice_range start stop n) = Z.to_nat start /\ Z.of_nat i + start < stop.
Proof.
  unfold slice_range, slice_bound. simpl. intros Hs He Hi.
  replace (start <? 0) with false in * by (symmetry; apply Z.ltb_ge; lia).
  replace (stop <? 0) with false in * by (symmetry; apply Z.ltb_ge; lia).
  split; lia.
Qed.

(** X1.  With window bounds that do not wrap around, every sampled coordinate
    lies in the window, leaves [sample_shape[1]] rows and
    [sample_shape[0]] columns before the window's end, and sits on a
    column of the mask that is valid at some depth: the margins are the
    two in-plane footprint components, exchanged. *)
Lemma sampled_coordinates_leave_swapped_margins ss y x mask n w row w' :
  CryoCARE_Dataset.create_random_coords ss y x mask n w = Ok (row, w') ->
  0 <= fst y -> 0 <= snd y - fp1 ss -> 0 <= fst x -> 0 <= snd x - fp0 ss ->
  forall cy cx, In (cy, cx) row ->
    fst y <= cy /\ cy + fp1 ss < snd y /\
    fst x <= cx /\ cx + fp0 ss < snd x /\
    exists k, item3 mask (Z.to_nat cy) (Z.to_nat cx) k = true.
Proof.
  intros H Hy0 Hy1 Hx0 Hx1 cy cx Hin.
  apply create_random_coords_ok_inv in H.
  destruct H as (l & _ & _ & _ & Hall & ->).
  apply in_map_iff in Hin. destruct Hin as (i & Heq & Hi).
  rewrite Forall_forall in Hall. specialize (Hall i Hi).
  revert Heq Hall. unfold CryoCARE_Dataset.valid_inds.
  destruct (shape3 mask) as [[Y X] D]. simpl fst. simpl snd.
  set (wh := np_where mask _ _). rewrite length_map. intros Heq Hlt.
  set (d := (0%nat, 0%nat, 0%nat)).
  assert (E1 : forall f : nat * nat * nat -> Z, nth i (map f wh) 0 = f (nth i wh d)).
  { intros f. rewrite (nth_indep _ 0 (f d)) by (rewrite length_map; exact Hlt).
    apply map_nth. }
  rewrite !E1 in Heq.
  pose proof (nth_In wh d Hlt) as Hv.
  destruct (nth i wh d) as [[a b] k]. simpl in Heq. inversion Heq; subst cy cx.
  apply np_where_spec in Hv. destruct Hv as (Ha & Hb & Hm).
  destruct (slice_range_position _ _ _ _ Hy0 Hy1 Ha) as [Ey Hay].
  destruct (slice_range_position _ _ _ _ Hx0 Hx1 Hb) as [Ex Hbx].
  rewrite Ey, Ex in Hm.
  repeat split; try lia.
  exists k.
  replace (Z.to_nat (Z.of_nat a + fst y)) with (Z.to_nat (fst y) + a)%nat by lia.
  replace (Z.to_nat (Z.of_nat b + fst x)) with (Z.to_nat (fst x) + b)%nat by lia.
  exact Hm.
Qed.

(** C2, evaluated at an input where it fails.  The sampler shortens the
    row range of the window by [sample_shape[1]] and the column range by
    [sample_shape[0]], while [__getitem__] reads [sample_shape[0]] rows
    and [sample_shape[1]] columns.  For a volume of shape (11, 11, 3), the
    window [[0, 11], [0, 11]] and the footprint (2, 5, 5) the constructor
    stores the coordinate (5, 8): 8 + 5 exceeds the window's 11 columns,
    and the patch read there has 3 columns instead of 5. *)
Theorem sampled_columns_can_leave_the_window :
  wide_init = Ok (value wide_init_ok, final_world wide_init_ok) /\
  CryoCARE_Dataset.coords (value wide_init_ok) = [[(5, 8)]] /\
  CryoCARE_Dataset.extraction_shapes (value wide_init_ok) = [((0, 11), (0, 11))] /\
  CryoCARE_Dataset.sample_shape (value wide_init_ok) = (2, 5, 5) /\
  ~ (8 + fp1 (CryoCARE_Dataset.sample_shape (value wide_init_ok)) <= 11) /\
  exists p q w',
    CryoCARE_Dataset.__getitem__ (value wide_init_ok) 0 (boot []) = Ok ((p, q), w') /\
    shape4 p = (2, 3, 3, 1)%nat /\ shape4 q = (2, 3, 3, 1)%nat.
Proof.
  split; [exact (run_of wide_init_ok)|].
  split; [vm_compute; reflexivity|].
  split; [vm_compute; reflexivity|].
  split; [vm_compute; reflexivity|].
  split; [vm_compute; intros H; apply H; reflexivity|].
  do 3 eexists. split; [vm_compute; reflexivity|].
  split; reflexivity.
Qed.

(** * Further properties of the code *)

Lemma sampled_coordinates_leave_swapped_margins_witness :
  (0 <= 5 /\ 5 + 5 < 11 /\ 0 <= 8 /\ 8 + 2 < 11 /\
   exists k, item3 (np_ones (11, 11, 3)%nat) (Z.to_nat 5) (Z.to_nat 8) k = true).
Proof.
  refine (sampled_coordinates_leave_swapped_margins (2, 5, 5) (0, 11) (0, 11)
            (np_ones (11, 11, 3)%nat) 1 (boot [161%nat])
            (value wide_draw_ok) (final_world wide_draw_ok) (run_of wide_draw_ok)
            _ _ _ _ 5 8 _).
  - vm_compute. intros E; discriminate E.
  - vm_compute. intros E; discriminate E.
  - vm_compute. intros E; discriminate E.
  - vm_compute. intros E; discriminate E.
  - vm_compute. left. reflexivity.
Defined.

(** ** The windows [setup] computes *)

Lemma axis_index_unknown ax w :
  ax <> "Y"%string -> ax <> "X"%string -> axis_index ax w = Raise ValueError.
Proof.
  intros HY HX. unfold axis_index.
  apply String.eqb_neq in HY. apply String.eqb_neq in HX. rewrite HY, HX. reflexivity.
Qed.

Lemma window_at_set_same w i r :
  window_at (CryoCARE_DataModule.window_set w i r) i = r.
Proof. destruct i; reflexivity. Qed.

Lemma window_at_set_other w i r :
  window_at (CryoCARE_DataModule.window_set w i r) (other_axis i)
  = window_at w (other_axis i).
Proof. destruct i; reflexivity. Qed.

(** What a successful [__compute_extraction_shapes__] returns, with the
    split point as the code computes it. *)
Lemma compute_extraction_shapes_ok_inv fs e o i ss vf w wt wv w' :
  CryoCARE_DataModule.__compute_extraction_shapes__ fs e o i ss vf w
    = Ok ((wt, wv), w') ->
  exists ve vo c,
    fs e = Some ve /\ fs o = Some vo /\ shape3 ve = shape3 vo /\
    2 * fp0 ss < Z.of_nat (fst (fst (shape3 ve))) /\
    2 * fp1 ss < Z.of_nat (snd (fst (shape3 ve))) /\
    w' = w /\
    CryoCARE_DataModule.footprint_at ss i <= c /\
    CryoCARE_DataModule.footprint_at ss i
      <= CryoCARE_DataModule.shape_at (shape3 ve) i - c /\
    wt = CryoCARE_DataModule.window_set
           ((0, CryoCARE_DataModule.shape_at (shape3 ve) 0),
            (0, CryoCARE_DataModule.shape_at (shape3 ve) 1)) i (0, c) /\
    wv = CryoCARE_DataModule.window_set
           ((0, CryoCARE_DataModule.shape_at (shape3 ve) 0),
            (0, CryoCARE_DataModule.shape_at (shape3 ve) 1)) i
           (c, CryoCARE_DataModule.shape_at (shape3 ve) i).
Proof.
  unfold CryoCARE_DataModule.__compute_extraction_shapes__. intros H.
  apply bind_ok_inv in H. destruct H as (ve & w1 & He & H).
  apply bind_ok_inv in H. destruct H as (vo & w2 & Ho & H).
  apply bind_ok_inv in H. destruct H as ([] & w3 & Hs & H).
  apply bind_ok_inv in H. destruct H as ([] & w4 & H0 & H).
  apply bind_ok_inv in H. destruct H as ([] & w5 & H1 & H).
  apply py_assert_ok_inv in Hs. destruct Hs as [Hs ->].
  apply py_assert_ok_inv in H0. destruct H0 as [H0 ->].
  apply py_assert_ok_inv in H1. destruct H1 as [H1 ->].
  apply shape_eqb_eq in Hs. apply Z.ltb_lt in H0. apply Z.ltb_lt in H1.
  unfold mrc_open in He, Ho.
  destruct (fs e) as [ve'|] eqn:Ee; [|discriminate He].
  destruct (fs o) as [vo'|] eqn:Eo; [|discriminate Ho].
  apply ret_ok_inv in He. destruct He as [-> ->].
  apply ret_ok_inv in Ho. destruct Ho as [-> ->].
  apply bind_ok_inv in H. destruct H as (split & w6 & Hsp & H).
  apply int_of_product_ok in Hsp. destruct Hsp as [-> _].
  apply ret_ok_inv in H. destruct H as [H ->].
  set (extent := CryoCARE_DataModule.shape_at (shape3 ve) i) in *.
  set (fe := CryoCARE_DataModule.footprint_at ss i) in *.
  set (c0 := split - 1) in *.
  assert (Hext : 2 * fe < extent).
  { unfold fe, extent, CryoCARE_DataModule.footprint_at, CryoCARE_DataModule.shape_at.
    destruct i; assumption. }
  exists ve, vo, (if (extent - c0 <? fe) || (c0 <? fe) then extent - fe - 1 else c0).
  inversion H; subst wt wv.
  repeat (split; [first [reflexivity|assumption]|]).
  split; [|split; [|split; reflexivity]].
  - destruct ((extent - c0 <? fe) || (c0 <? fe)) eqn:E; [lia|].
    apply orb_false_iff in E. destruct E as [_ E]. apply Z.ltb_ge in E. exact E.
  - destruct ((extent - c0 <? fe) || (c0 <? fe)) eqn:E; [lia|].
    apply orb_false_iff in E. destruct E as [E _]. apply Z.ltb_ge in E. exact E.
Qed.

Lemma combine_fst_snd {A B} (l : list (A * B)) : combine (map fst l) (map snd l) = l.
Proof.
  induction l as [|[a b] l IH]; simpl; [reflexivity|rewrite IH; reflexivity].
Qed.

Lemma setup_axis fs odd even masks n vf ss ax nn w dm w' :
  CryoCARE_DataModule.setup fs odd even masks n vf ss ax nn w = Ok (dm, w') ->
  ax = "Y"%string \/ ax = "X"%string.
Proof.
  intros H. apply setup_inv in H. destruct H as (shapes & w1 & w2 & n_train & n_val & _ & _ & H2 & _).
  unfold CryoCARE_Dataset.__init__ in H2.
  apply bind_ok_inv in H2. destruct H2 as (self & w3 & Hpre & _).
  unfold CryoCARE_Dataset.init_attributes in Hpre.
  apply bind_ok_inv in Hpre. destruct Hpre as (rot & w4 & Hrot & _).
  simpl in Hrot. apply bind_ok_inv in Hrot. destruct Hrot as (i & w5 & Hi & _).
  apply axis_index_ok_inv in Hi. exact (proj1 Hi).
Qed.

(** X2.  After a successful [setup] the split axis is "Y" or "X", and for
    every volume pair the training and the validation window stored in
    the two datasets split the volume along that axis: the training
    window is [[0, c]], the validation window [[c, extent]] with the same
    [c], both are at least as long as the footprint along the axis, and
    on the other in-plane axis both windows are the whole extent. *)
Theorem setup_windows_split_each_volume fs odd even masks n vf ss ax nn w dm w' :
  CryoCARE_DataModule.setup fs odd even masks n vf ss ax nn w = Ok (dm, w') ->
  (ax = "Y"%string \/ ax = "X"%string) /\
  Forall2
    (fun (eo : string * string) (tv : window * window) =>
       exists ve,
         fs (fst eo) = Some ve /\
         window_at (fst tv) (split_axis_index ax)
         = (0, fst (window_at (snd tv) (split_axis_index ax))) /\
         snd (window_at (snd tv) (split_axis_index ax))
         = CryoCARE_DataModule.shape_at (shape3 ve) (split_axis_index ax) /\
         window_at (fst tv) (other_axis (split_axis_index ax))
         = (0, CryoCARE_DataModule.shape_at (shape3 ve)
                 (other_axis (split_axis_index ax))) /\
         window_at (snd tv) (other_axis (split_axis_index ax))
         = window_at (fst tv) (other_axis (split_axis_index ax)) /\
         CryoCARE_DataModule.footprint_at ss (split_axis_index ax)
         <= fst (window_at (snd tv) (split_axis_index ax)) /\
         CryoCARE_DataModule.footprint_at ss (split_axis_index ax)
         <= snd (window_at (snd tv) (split_axis_index ax))
            - fst (window_at (snd tv) (split_axis_index ax)))
    (combine even odd)
    (combine (CryoCARE_Dataset.extraction_shapes (CryoCARE_DataModule.train_dataset dm))
             (CryoCARE_Dataset.extraction_shapes (CryoCARE_DataModule.val_dataset dm))).
Proof.
  intros H. split; [exact (setup_axis _ _ _ _ _ _ _ _ _ _ _ _ H)|].
  apply setup_inv in H. destruct H as (shapes & w1 & w2 & n_train & n_val & Hsh & Ht & H2 & Hv & H3).
  apply init_fields in H2. apply init_fields in H3.
  destruct H2 as (_ & _ & _ & _ & E2 & _). destruct H3 as (_ & _ & _ & _ & E3 & _).
  simpl in E2, E3. rewrite E2, E3, combine_fst_snd.
  apply extraction_shapes_inv in Hsh.
  eapply Forall2_impl; [|exact Hsh].
  intros [e o] [wt wv] (wa & wb & Hrun). simpl in Hrun.
  apply compute_extraction_shapes_ok_inv in Hrun.
  destruct Hrun as (ve & vo & c & He & _ & _ & _ & _ & _ & Hc1 & Hc2 & -> & ->).
  exists ve. simpl fst. simpl snd.
  rewrite !window_at_set_same, !window_at_set_other. simpl fst. simpl snd.
  split; [exact He|].
  split; [reflexivity|]. split; [reflexivity|].
  split; [destruct (split_axis_index ax); reflexivity|].
  split; [reflexivity|]. split; assumption.
Qed.

Lemma setup_windows_split_each_volume_witness :
  Forall2
    (fun (eo : string * string) (tv : window * window) =>
       exists ve,
         toy_fs (fst eo) = Some ve /\
         window_at (fst tv) 0 = (0, fst (window_at (snd tv) 0)) /\
         snd (window_at (snd tv) 0) = CryoCARE_DataModule.shape_at (shape3 ve) 0 /\
         window_at (fst tv) 1 = (0, CryoCARE_DataModule.shape_at (shape3 ve) 1) /\
         window_at (snd tv) 1 = window_at (fst tv) 1 /\
         2 <= fst (window_at (snd tv) 0) /\
         2 <= snd (window_at (snd tv) 0) - fst (window_at (snd tv) 0))
    [("a_EVN.mrc"%string, "a_ODD.mrc"%string)]
    (combine (CryoCARE_Dataset.extraction_shapes
                (CryoCARE_DataModule.train_dataset (value toy_setup_ok)))
             (CryoCARE_Dataset.extraction_shapes
                (CryoCARE_DataModule.val_dataset (value toy_setup_ok)))).
Proof.
  exact (proj2 (setup_windows_split_each_volume
                  toy_fs ["a_ODD.mrc"%string] ["a_EVN.mrc"%string]
                  None 7 (float_of_ratio 1 4) (2, 2, 1) "Y" 3 (boot toy_tape)
                  (value toy_setup_ok) (final_world toy_setup_ok)
                  (run_of toy_setup_ok))).
Defined.

(** X3.  [setup] does not accept a split axis other than "Y" and "X",
    whatever the other arguments are and whether or not the volume
    files exist. With at least one volume pair it raises [ValueError]
    before anything else is computed. With none, the training sample
    count is computed first: [setup] raises [ValueError] when that
    count is an integer, and what the count raises when it is not. *)
Theorem setup_rejects_an_unknown_axis fs odd even masks n vf ss ax nn w :
  ax <> "Y"%string -> ax <> "X"%string ->
  (combine even odd <> [] \/
   (exists c, int_of_product n (one_minus vf) w = Ok (c, w)) ->
   CryoCARE_DataModule.setup fs odd even masks n vf ss ax nn w = Raise ValueError) /\
  (combine even odd = [] ->
   forall e, int_of_product n (one_minus vf) w = Raise e ->
   CryoCARE_DataModule.setup fs odd even masks n vf ss ax nn w = Raise e).
Proof.
  intros HY HX. unfold CryoCARE_DataModule.setup, CryoCARE_DataModule.extraction_shapes.
  destruct (combine even odd) as [|eo l] eqn:E.
  - simpl mapM. rewrite (bind_ok _ _ w [] w) by reflexivity. split.
    + intros [Hne|[c Hc]]; [contradiction Hne; reflexivity|].
      rewrite (bind_ok _ _ _ _ _ Hc).
      apply bind_raise. unfold CryoCARE_Dataset.__init__. apply bind_raise.
      unfold CryoCARE_Dataset.init_attributes. apply bind_raise. simpl.
      apply bind_raise. exact (axis_index_unknown ax w HY HX).
    + intros _ e He. apply bind_raise. exact He.
  - split.
    + intros _. apply bind_raise. simpl mapM. apply bind_raise. apply bind_raise.
      exact (axis_index_unknown ax w HY HX).
    + intros Hnil. discriminate Hnil.
Qed.

Lemma setup_rejects_an_unknown_axis_witness :
  CryoCARE_DataModule.setup toy_fs ["a_ODD.mrc"%string] ["a_EVN.mrc"%string]
    None 7 (float_of_ratio 1 4) (2, 2, 1) "Z" 3 (boot toy_tape) = Raise ValueError /\
  CryoCARE_DataModule.setup toy_fs [] [] None (2 ^ 1024) (float_of_ratio 1 4)
    (2, 2, 1) "Z" 3 (boot toy_tape) = Raise OverflowError.
Proof.
  split.
  - apply (proj1 (setup_rejects_an_unknown_axis toy_fs
                    ["a_ODD.mrc"%string] ["a_EVN.mrc"%string] None 7
                    (float_of_ratio 1 4) (2, 2, 1) "Z" 3 (boot toy_tape)
                    ltac:(intros E; discriminate E) ltac:(intros E; discriminate E))).
    left. intros E. discriminate E.
  - apply (proj2 (setup_rejects_an_unknown_axis toy_fs [] [] None (2 ^ 1024)
                    (float_of_ratio 1 4) (2, 2, 1) "Z" 3 (boot toy_tape)
                    ltac:(intros E; discriminate E) ltac:(intros E; discriminate E))
                 eq_refl).
    vm_compute. reflexivity.
Defined.

(** ** Shape checks come first *)

Lemma mapM_raise_kind {A B} (f : A -> M B) (P : exn -> Prop) x : forall l,
  (forall a w e, f a w = Raise e -> P e) ->
  In x l -> fails (f x) ->
  forall w, exists e, mapM f l w = Raise e /\ P e.
Proof.
  induction l as [|a l IH]; intros HP Hin Hx w; [destruct Hin|].
  simpl. unfold bind at 1.
  destruct (f a w) as [[b w1]|e] eqn:Ea.
  - destruct Hin as [Heq|Hin].
    + subst a. destruct (Hx w) as [e He]. congruence.
    + destruct (IH HP Hin Hx w1) as (e & He & HPe).
      exists e. split; [|exact HPe]. apply bind_raise. exact He.
  - exists e. split; [reflexivity|exact (HP a w e Ea)].
Qed.

Lemma compute_extraction_shapes_raise_kind fs e o i ss vf w err :
  CryoCARE_DataModule.__compute_extraction_shapes__ fs e o i ss vf w = Raise err ->
  err = AssertionError \/ err = FileNotFoundError \/
  exists ve,
    fs e = Some ve /\
    int_of_product (CryoCARE_DataModule.shape_at (shape3 ve) i) (one_minus vf) w
    = Raise err.
Proof.
  unfold CryoCARE_DataModule.__compute_extraction_shapes__, bind, mrc_open, py_assert,
    ret, raise.
  destruct (fs e) as [ve|]; [|intros H; inversion H; right; left; reflexivity].
  destruct (fs o); [|intros H; inversion H; right; left; reflexivity].
  destruct (shape_eqb _ _); [|intros H; inversion H; left; reflexivity].
  destruct (_ <? _); [|intros H; inversion H; left; reflexivity].
  destruct (_ <? _); [|intros H; inversion H; left; reflexivity].
  destruct (int_of_product _ _ w) as [[c w1]|e1] eqn:Ec; intros H; [discriminate H|].
  right. right. exists ve. split; [reflexivity|]. inversion H; subst. exact Ec.
Qed.

Lemma compute_extraction_shapes_rejects fs e o i ss vf ve vo w :
  fs e = Some ve -> fs o = Some vo ->
  shape3 ve <> shape3 vo \/
  Z.of_nat (fst (fst (shape3 ve))) <= 2 * fp0 ss \/
  Z.of_nat (snd (fst (shape3 ve))) <= 2 * fp1 ss ->
  CryoCARE_DataModule.__compute_extraction_shapes__ fs e o i ss vf w
  = Raise AssertionError.
Proof.
  intros He Ho Hbad.
  unfold CryoCARE_DataModule.__compute_extraction_shapes__, bind, mrc_open, py_assert,
    ret, raise.
  rewrite He, Ho.
  destruct (shape_eqb (shape3 ve) (shape3 vo)) eqn:Es; [|reflexivity].
  apply shape_eqb_eq in Es.
  destruct (2 * fp0 ss <? Z.of_nat (fst (fst (shape3 ve)))) eqn:E0; [|reflexivity].
  destruct (2 * fp1 ss <? Z.of_nat (snd (fst (shape3 ve)))) eqn:E1; [|reflexivity].
  apply Z.ltb_lt in E0. apply Z.ltb_lt in E1.
  exfalso. destruct Hbad as [H|[H|H]]; [exact (H Es)|lia|lia].
Qed.

(** X4.  With a valid split axis, if some zipped volume pair has volumes
    of different shapes, or a volume whose first or second extent is not
    more than twice the footprint's, [setup] fails in its first loop,
    before either dataset is constructed and any coordinate is sampled:
    the error is the failed assertion, or what an earlier pair of that
    loop met, a missing file or a split point that is not an integer
    (the product of the extent and [1 - validation_fraction] is not a
    finite float). *)
Theorem setup_checks_volumes_before_sampling
    fs odd even masks n vf ss ax nn w e o ve vo :
  ax = "Y"%string \/ ax = "X"%string ->
  In (e, o) (combine even odd) ->
  fs e = Some ve -> fs o = Some vo ->
  shape3 ve <> shape3 vo \/
  Z.of_nat (fst (fst (shape3 ve))) <= 2 * fp0 ss \/
  Z.of_nat (snd (fst (shape3 ve))) <= 2 * fp1 ss ->
  exists err,
    CryoCARE_DataModule.extraction_shapes fs odd even ax ss vf w = Raise err /\
    CryoCARE_DataModule.setup fs odd even masks n vf ss ax nn w = Raise err /\
    (err = AssertionError \/ err = FileNotFoundError \/
     exists e' ve',
       fs e' = Some ve' /\
       int_of_product
         (CryoCARE_DataModule.shape_at (shape3 ve') (split_axis_index ax))
         (one_minus vf) w = Raise err).
Proof.
  intros Hax Hin He Ho Hbad.
  assert (Hi : forall w0, axis_index ax w0 = Ok (split_axis_index ax, w0)).
  { intros w0. destruct Hax as [-> | ->]; reflexivity. }
  destruct (mapM_raise_kind
              (fun eo : string * string =>
                 tilt_axis_index <- axis_index ax ;;
                 CryoCARE_DataModule.__compute_extraction_shapes__ fs (fst eo) (snd eo)
                   tilt_axis_index ss vf)
              (fun err => err = AssertionError \/ err = FileNotFoundError \/
                          exists e' ve',
                            fs e' = Some ve' /\
                            int_of_product
                              (CryoCARE_DataModule.shape_at (shape3 ve')
                                 (split_axis_index ax))
                              (one_minus vf) w = Raise err)
              (e, o) (combine even odd)) with (w := w) as (err & Herr & Hkind).
  - intros a w0 err H. rewrite (bind_ok _ _ _ _ _ (Hi w0)) in H.
    destruct (compute_extraction_shapes_raise_kind _ _ _ _ _ _ _ _ H)
      as [K|[K|(ve' & Hve & K)]]; [left; exact K|right; left; exact K|].
    right. right. exists (fst a), ve'. split; [exact Hve|].
    exact (int_of_product_raise _ _ _ _ K w).
  - exact Hin.
  - intros w0. exists AssertionError. rewrite (bind_ok _ _ _ _ _ (Hi w0)).
    exact (compute_extraction_shapes_rejects fs e o _ ss vf ve vo w0 He Ho Hbad).
  - exists err. split; [exact Herr|]. split; [|exact Hkind].
    unfold CryoCARE_DataModule.setup. apply bind_raise. exact Herr.
Qed.

Lemma setup_checks_volumes_before_sampling_witness :
  exists err,
    CryoCARE_DataModule.extraction_shapes toy_fs
      ["a_ODD.mrc"%string; "b_ODD.mrc"%string] ["a_EVN.mrc"%string; "b_EVN.mrc"%string]
      "Y" (2, 2, 1) (float_of_ratio 1 4) (boot toy_tape) = Raise err /\
    CryoCARE_DataModule.setup toy_fs
      ["a_ODD.mrc"%string; "b_ODD.mrc"%string] ["a_EVN.mrc"%string; "b_EVN.mrc"%string]
      None 7 (float_of_ratio 1 4) (2, 2, 1) "Y" 3 (boot toy_tape) = Raise err /\
    (err = AssertionError \/ err = FileNotFoundError \/
     exists e' ve',
       toy_fs e' = Some ve' /\
       int_of_product (CryoCARE_DataModule.shape_at (shape3 ve') 0)
         (one_minus (float_of_ratio 1 4)) (boot toy_tape) = Raise err).
Proof.
  refine (setup_checks_volumes_before_sampling toy_fs
            ["a_ODD.mrc"%string; "b_ODD.mrc"%string]
            ["a_EVN.mrc"%string; "b_EVN.mrc"%string]
            None 7 (float_of_ratio 1 4) (2, 2, 1) "Y" 3 (boot toy_tape)
            "b_EVN.mrc"%string "b_ODD.mrc"%string
            (ramp (9, 8, 2)%nat) (ramp (9, 9, 2)%nat)
            (or_introl eq_refl) _ eq_refl eq_refl _).
  - right. left. reflexivity.
  - left. intros E. discriminate E.
Defined.

(** ** The index order and one traversal *)

Lemma permutation_spec n w l w' :
  permutation n w = Ok (l, w') -> Permutation l (seq 0 n).
Proof.
  unfold permutation. intros H.
  destruct (draw_without_replacement_ok n (seq 0 n) w) as (l0 & w0 & H0 & Hlen & Hnd & Hincl).
  - rewrite length_seq. lia.
  - apply seq_NoDup.
  - assert (El : l0 = l) by congruence. subst l0.
    apply NoDup_Permutation_bis; [exact Hnd| |exact Hincl].
    rewrite length_seq, Hlen. lia.
Qed.

Lemma init_attributes_indices fs a w ds w' :
  CryoCARE_Dataset.init_attributes fs a w = Ok (ds, w') ->
  Permutation (CryoCARE_Dataset.indices ds) (seq 0 (CryoCARE_Dataset.length ds)) /\
  (CryoCARE_Dataset.shuffle ds = false ->
   CryoCARE_Dataset.indices ds = seq 0 (CryoCARE_Dataset.length ds)).
Proof.
  unfold CryoCARE_Dataset.init_attributes. intros H.
  apply bind_ok_inv in H. destruct H as (rot & w1 & _ & H).
  apply bind_ok_inv in H. destruct H as (odds & w2 & _ & H).
  apply bind_ok_inv in H. destruct H as (evens & w3 & _ & H).
  apply bind_ok_inv in H. destruct H as (cs & w4 & _ & H).
  apply bind_ok_inv in H. destruct H as (ix & w5 & Hix & H).
  apply ret_ok_inv in H. destruct H as [<- _]. simpl.
  destruct (CryoCARE_Dataset.arg_shuffle a).
  - split; [exact (permutation_spec _ _ _ _ Hix)|intros E; discriminate E].
  - apply ret_ok_inv in Hix. destruct Hix as [<- _].
    split; [apply Permutation_refl|reflexivity].
Qed.

Lemma init_indices fs a w ds w' :
  CryoCARE_Dataset.__init__ fs a w = Ok (ds, w') ->
  Permutation (CryoCARE_Dataset.indices ds) (seq 0 (CryoCARE_Dataset.length ds)) /\
  (CryoCARE_Dataset.shuffle ds = false ->
   CryoCARE_Dataset.indices ds = seq 0 (CryoCARE_Dataset.length ds)).
Proof.
  unfold CryoCARE_Dataset.__init__. intros H.
  apply bind_ok_inv in H. destruct H as (self & w1 & Hpre & H).
  apply init_attributes_indices in Hpre. destruct Hpre as [Hp Hs].
  assert (Hds : CryoCARE_Dataset.indices ds = CryoCARE_Dataset.indices self /\
                CryoCARE_Dataset.length ds = CryoCARE_Dataset.length self /\
                CryoCARE_Dataset.shuffle ds = CryoCARE_Dataset.shuffle self).
  { destruct (CryoCARE_Dataset.is_none _ || CryoCARE_Dataset.is_none _).
    - apply compute_mean_std_ok in H. destruct H as (samples & -> & _).
      repeat split.
    - apply ret_ok_inv in H. destruct H as [<- _]. repeat split. }
  destruct Hds as (-> & -> & ->).
  split; [exact Hp|exact Hs].
Qed.

(** X5.  The index order a constructed dataset starts with is an
    arrangement of [0 .. length - 1] in which every index occurs exactly
    once, and it is the identity order when [shuffle] is off. *)
Theorem initial_indices_enumerate_the_dataset fs a w ds w' :
  CryoCARE_Dataset.__init__ fs a w = Ok (ds, w') ->
  Permutation (CryoCARE_Dataset.indices ds) (seq 0 (CryoCARE_Dataset.length ds)) /\
  NoDup (CryoCARE_Dataset.indices ds) /\
  (CryoCARE_Dataset.shuffle ds = false ->
   CryoCARE_Dataset.indices ds = seq 0 (CryoCARE_Dataset.length ds)).
Proof.
  intros H. destruct (init_indices fs a w ds w' H) as [Hp Hs].
  split; [exact Hp|]. split; [|exact Hs].
  apply (Permutation_NoDup (Permutation_sym Hp)). apply seq_NoDup.
Qed.

Lemma initial_indices_enumerate_the_dataset_witness :
  Permutation (CryoCARE_Dataset.indices (value shuffled_init_ok))
              (seq 0 (CryoCARE_Dataset.length (value shuffled_init_ok))) /\
  NoDup (CryoCARE_Dataset.indices (value shuffled_init_ok)).
Proof.
  destruct (initial_indices_enumerate_the_dataset toy_fs shuffled_kwargs
              (boot [5; 7; 1; 0]%nat) (value shuffled_init_ok)
              (final_world shuffled_init_ok) (run_of shuffled_init_ok))
    as (A & B & _).
  split; [exact A|exact B].
Defined.

Lemma set_indices_same (ds : CryoCARE_Dataset.t) :
  CryoCARE_Dataset.set_indices ds (CryoCARE_Dataset.indices ds) = ds.
Proof. destruct ds. reflexivity. Qed.

(** X6.  One traversal of [__iter__] over a constructed dataset succeeds
    under every process state and yields [length] pairs, the pair at each
    position being what [__getitem__] returns for the index at that
    position of the current order.  At the end of the traversal only the
    index order may have changed: it is again an arrangement of
    [0 .. length - 1], and it is untouched when [shuffle] is off. *)
Theorem iter_serves_every_index_once fs a w0 ds w1 :
  CryoCARE_Dataset.__init__ fs a w0 = Ok (ds, w1) ->
  forall w, exists ps ds' w',
    CryoCARE_Dataset.__iter__ ds w = Ok ((ps, ds'), w') /\
    Forall2 (fun idx pq =>
               exists wa wb,
                 CryoCARE_Dataset.__getitem__ ds (Z.of_nat idx) wa = Ok (pq, wb))
            (CryoCARE_Dataset.indices ds) ps /\
    List.length ps = CryoCARE_Dataset.length ds /\
    ds' = CryoCARE_Dataset.set_indices ds (CryoCARE_Dataset.indices ds') /\
    Permutation (CryoCARE_Dataset.indices ds') (seq 0 (CryoCARE_Dataset.length ds)) /\
    (CryoCARE_Dataset.shuffle ds = false -> ds' = ds).
Proof.
  intros Hinit w.
  destruct (init_indices fs a w0 ds w1 Hinit) as (Hperm & _).
  destruct (init_inv fs a w0 ds w1 Hinit) as [Hinv _].
  destruct (mapM_total (fun idx => CryoCARE_Dataset.__getitem__ ds (Z.of_nat idx))
              (CryoCARE_Dataset.indices ds)) with (w := w) as (ps & w2 & Hps).
  { intros idx Hin w3.
    assert (Hlt : (idx < CryoCARE_Dataset.length ds)%nat).
    { apply (Permutation_in _ Hperm) in Hin. apply in_seq in Hin. lia. }
    destruct (getitem_valid fs ds (Z.of_nat idx) Hinv) as
      (? & ? & ? & ? & ? & ? & ? & ? & ? & _ & _ & _ & _ & _ & _ & _ & Hget);
      [lia|].
    destruct (Hget w3) as (swap & w4 & Hrun). eexists. eexists. exact Hrun. }
  pose proof (mapM_ok_Forall2 _ _ _ _ _ Hps) as Hall.
  assert (Hlen : List.length ps = CryoCARE_Dataset.length ds).
  { rewrite <- (Forall2_length Hall), (Permutation_length Hperm). apply length_seq. }
  unfold CryoCARE_Dataset.__iter__. rewrite (bind_ok _ _ _ _ _ Hps).
  unfold CryoCARE_Dataset.on_epoch_end.
  destruct (CryoCARE_Dataset.shuffle ds) eqn:Esh.
  - destruct (permutation_total (CryoCARE_Dataset.length ds) w2) as (ix & w3 & Hix).
    exists ps, (CryoCARE_Dataset.set_indices ds ix), w3.
    split.
    { rewrite (bind_ok _ _ w2 (CryoCARE_Dataset.set_indices ds ix) w3); [reflexivity|].
      rewrite (bind_ok _ _ _ _ _ Hix). reflexivity. }
    split; [exact Hall|]. split; [exact Hlen|]. split; [reflexivity|].
    split; [exact (permutation_spec _ _ _ _ Hix)|intros E; discriminate E].
  - exists ps, ds, w2.
    split; [rewrite (bind_ok _ _ w2 ds w2) by reflexivity; reflexivity|].
    split; [exact Hall|]. split; [exact Hlen|].
    split; [symmetry; apply set_indices_same|].
    split; [exact Hperm|reflexivity].
Qed.

Lemma iter_serves_every_index_once_witness :
  exists ps ds' w',
    CryoCARE_Dataset.__iter__ (value shuffled_init_ok) (boot toy_tape)
      = Ok ((ps, ds'), w') /\
    List.length ps = CryoCARE_Dataset.length (value shuffled_init_ok) /\
    Permutation (CryoCARE_Dataset.indices ds')
                (seq 0 (CryoCARE_Dataset.length (value shuffled_init_ok))).
Proof.
  destruct (iter_serves_every_index_once toy_fs shuffled_kwargs
              (boot [5; 7; 1; 0]%nat) (value shuffled_init_ok)
              (final_world shuffled_init_ok) (run_of shuffled_init_ok) (boot toy_tape))
    as (ps & ds' & w' & H1 & _ & H2 & _ & H3 & _).
  exists ps, ds', w'. split; [exact H1|]. split; [exact H2|exact H3].
Defined.

(** ** What [load] restores *)

Lemma init_attributes_tags fs a w ds w' :
  CryoCARE_Dataset.init_attributes fs a w = Ok (ds, w') ->
  (CryoCARE_Dataset.arg_tilt_axis a = None -> CryoCARE_Dataset.rot_axes ds = None) /\
  CryoCARE_Dataset.n_tomos ds = List.length (CryoCARE_Dataset.arg_tomo_paths_odd a).
Proof.
  unfold CryoCARE_Dataset.init_attributes. intros H.
  apply bind_ok_inv in H. destruct H as (rot & w1 & Hrot & H).
  apply bind_ok_inv in H. destruct H as (odds & w2 & _ & H).
  apply bind_ok_inv in H. destruct H as (evens & w3 & _ & H).
  apply bind_ok_inv in H. destruct H as (cs & w4 & _ & H).
  apply bind_ok_inv in H. destruct H as (ix & w5 & _ & H).
  apply ret_ok_inv in H. destruct H as [<- _]. simpl. split; [|reflexivity].
  intros E. rewrite E in Hrot. apply ret_ok_inv in Hrot. symmetry. exact (proj1 Hrot).
Qed.

Lemma init_tags fs a w ds w' :
  CryoCARE_Dataset.__init__ fs a w = Ok (ds, w') ->
  (CryoCARE_Dataset.arg_tilt_axis a = None -> CryoCARE_Dataset.rot_axes ds = None) /\
  CryoCARE_Dataset.n_tomos ds = List.length (CryoCARE_Dataset.arg_tomo_paths_odd a).
Proof.
  unfold CryoCARE_Dataset.__init__. intros H.
  apply bind_ok_inv in H. destruct H as (self & w1 & Hpre & H).
  apply init_attributes_tags in Hpre.
  destruct (CryoCARE_Dataset.is_none _ || CryoCARE_Dataset.is_none _).
  - apply compute_mean_std_ok in H. destruct H as (samples & -> & _). exact Hpre.
  - apply ret_ok_inv in H. destruct H as [<- _]. exact Hpre.
Qed.

(** X7.  Whatever the archive at the path records, a dataset that [load]
    returns has no tilt axis, no rotation axes and no mask paths (one
    [None] per odd path): the tilt axis of a saved training dataset does
    not survive the round trip, and the masks it was sampled under are
    forgotten.  The volume paths, the per-volume sample count, the
    extraction windows, the footprint, the shuffle flag and the
    coordinate sets are the archived ones, the count as the numpy value
    the archive holds. *)
Theorem load_forgets_tilt_axis_and_masks fs files path w ds w' :
  CryoCARE_Dataset.load fs files path w = Ok (ds, w') ->
  exists tmp,
    files path = Some tmp /\
    CryoCARE_Dataset.tilt_axis ds = None /\
    CryoCARE_Dataset.rot_axes ds = None /\
    CryoCARE_Dataset.mask_paths ds
    = repeat None (List.length (CryoCARE_Dataset.npz_tomo_paths_odd tmp)) /\
    CryoCARE_Dataset.tomo_paths_odd ds = CryoCARE_Dataset.npz_tomo_paths_odd tmp /\
    CryoCARE_Dataset.tomo_paths_even ds = CryoCARE_Dataset.npz_tomo_paths_even tmp /\
    CryoCARE_Dataset.n_samples_per_tomo ds = CryoCARE_Dataset.npz_n_samples_per_tomo tmp /\
    CryoCARE_Dataset.extraction_shapes ds = CryoCARE_Dataset.npz_extraction_shapes tmp /\
    CryoCARE_Dataset.sample_shape ds = CryoCARE_Dataset.npz_sample_shape tmp /\
    CryoCARE_Dataset.shuffle ds = CryoCARE_Dataset.npz_shuffle tmp /\
    CryoCARE_Dataset.coords ds = CryoCARE_Dataset.npz_coords tmp /\
    CryoCARE_Dataset.count_is_ndarray ds = true.
Proof.
  intros H. apply load_inv in H. destruct H as (tmp & d0 & Hf & Hd0 & ->).
  exists tmp. split; [exact Hf|].
  pose proof (init_fields _ _ _ _ _ Hd0) as (Eo & Ee & En & Et & Ees & Ess & Esh).
  pose proof (init_tags _ _ _ _ _ Hd0) as (Erot & _).
  pose proof (init_inv _ _ _ _ _ Hd0) as (_ & Emask).
  pose proof (init_count_kind _ _ _ _ _ Hd0) as Ek.
  simpl in *. repeat split; try assumption. exact (Erot eq_refl).
Qed.

Lemma load_forgets_tilt_axis_and_masks_witness :
  CryoCARE_Dataset.tilt_axis
    (CryoCARE_DataModule.train_dataset (value toy_setup_ok)) = Some "Y"%string /\
  CryoCARE_Dataset.tilt_axis (value toy_train_reload_ok) = None /\
  CryoCARE_Dataset.rot_axes (value toy_train_reload_ok) = None /\
  CryoCARE_Dataset.mask_paths (value toy_train_reload_ok) = [None] /\
  CryoCARE_Dataset.count_is_ndarray (value toy_train_reload_ok) = true.
Proof.
  split; [vm_compute; reflexivity|].
  destruct (load_forgets_tilt_axis_and_masks toy_fs
              (CryoCARE_Dataset.save
                 (CryoCARE_DataModule.train_dataset (value toy_setup_ok))
                 "train.npz" no_files)
              "train.npz"%string
              (boot toy_tape) (value toy_train_reload_ok)
              (final_world toy_train_reload_ok) (run_of toy_train_reload_ok))
    as (tmp & Hf & A & B & C & _ & _ & _ & _ & _ & _ & _ & K).
  vm_compute in Hf. injection Hf as <-.
  split; [exact A|]. split; [exact B|]. split; [|exact K].
  rewrite C. vm_compute. reflexivity.
Defined.

(** ** A reloaded dataset serves the same patches *)

Lemma opened_volumes_unique fs : forall (l : list string) (vs vs' : list volume),
  Forall2 (fun p v => fs p = Some v) l vs ->
  Forall2 (fun p v => fs p = Some v) l vs' -> vs = vs'.
Proof.
  intros l vs vs' H. revert vs'.
  induction H as [|p v l vs Hp Hl IH]; intros vs' H'; inversion H'; subst.
  - reflexivity.
  - f_equal; [congruence|apply IH; assumption].
Qed.

Lemma init_sized fs a w ds w' :
  masks_cover a ->
  CryoCARE_Dataset.__init__ fs a w = Ok (ds, w') -> sized fs ds.
Proof.
  intros Hcover H.
  pose proof (init_fields _ _ _ _ _ H) as (Eo & Ee & _ & _ & Ees & _ & _).
  destruct (init_inv _ _ _ _ _ H) as [Hinv Emask].
  destruct (constructed_rows fs ds Hinv) as (Hrows & _ & Hlen).
  destruct Hinv as (Hc & Hodd & Heven & _).
  split; [exact Hodd|]. split; [exact Heven|]. split; [exact Hrows|].
  split; [|exact Hlen].
  rewrite <- (Forall2_length Hc). unfold zip4.
  rewrite (length_combine (combine (combine _ _) _) (CryoCARE_Dataset.mask_paths ds)).
  apply Nat.min_l.
  rewrite Emask, Eo, Ee, Ees, !length_combine.
  unfold masks_cover in Hcover. unfold stored_mask_paths.
  destruct (CryoCARE_Dataset.arg_mask_paths a) as [l|].
  - exact Hcover.
  - rewrite repeat_length. lia.
Qed.

Lemma load_sized fs ds0 files path w ds w' :
  sized fs ds0 ->
  files path = Some (CryoCARE_Dataset.archive_of ds0) ->
  CryoCARE_Dataset.load fs files path w = Ok (ds, w') ->
  sized fs ds /\
  CryoCARE_Dataset.length ds = CryoCARE_Dataset.length ds0 /\
  CryoCARE_Dataset.tomos_odd ds = CryoCARE_Dataset.tomos_odd ds0 /\
  CryoCARE_Dataset.tomos_even ds = CryoCARE_Dataset.tomos_even ds0 /\
  CryoCARE_Dataset.coords ds = CryoCARE_Dataset.coords ds0 /\
  CryoCARE_Dataset.n_samples_per_tomo ds = CryoCARE_Dataset.n_samples_per_tomo ds0 /\
  CryoCARE_Dataset.sample_shape ds = CryoCARE_Dataset.sample_shape ds0 /\
  CryoCARE_Dataset.count_is_ndarray ds = true.
Proof.
  intros (Hodd0 & Heven0 & Hrows0 & Hcount0 & Hlen0) Hf H.
  apply load_inv in H. destruct H as (tmp & d0 & Ht & Hd0 & ->).
  rewrite Hf in Ht. injection Ht as <-.
  pose proof (init_fields _ _ _ _ _ Hd0) as (Eo & Ee & En & _ & Ees & Ess & _).
  pose proof (init_count_kind _ _ _ _ _ Hd0) as Ek.
  assert (Hs : sized fs d0)
    by (exact (init_sized fs
                 (CryoCARE_Dataset.load_kwargs (CryoCARE_Dataset.archive_of ds0))
                 w d0 w' I Hd0)).
  destruct Hs as (Hodd & Heven & Hrows & Hcount & Hlen).
  simpl in Eo, Ee, En, Ees, Ess, Ek. simpl.
  rewrite Eo in Hodd. rewrite Ee in Heven.
  pose proof (opened_volumes_unique fs _ _ _ Hodd Hodd0) as Eto.
  pose proof (opened_volumes_unique fs _ _ _ Heven Heven0) as Ete.
  assert (Elen : CryoCARE_Dataset.length d0 = CryoCARE_Dataset.length ds0).
  { rewrite Hlen, Hlen0, Hcount, Hcount0, Eo, Ee, Ees, En. reflexivity. }
  split.
  - unfold sized. simpl. rewrite Eo, Ee, En, Ees, Eto, Ete.
    split; [exact Hodd0|]. split; [exact Heven0|]. split; [exact Hrows0|].
    split; [exact Hcount0|]. rewrite Elen. exact Hlen0.
  - repeat split; assumption.
Qed.

Lemma built_sized fs ds : built fs ds -> sized fs ds.
Proof.
  intros H.
  induction H as [a w ds w' Hcover Hinit|ds0 files path w ds w' Hb IH Hf Hload].
  - exact (init_sized fs a w ds w' Hcover Hinit).
  - exact (proj1 (load_sized fs ds0 files path w ds w' IH Hf Hload)).
Qed.

(** With a zero count held as a numpy value the division of the index
    does not raise: it gives position 0 of the first coordinate set, and
    there is none, or it is empty. *)
Lemma getitem_zero_ndarray fs ds idx w :
  sized fs ds ->
  CryoCARE_Dataset.n_samples_per_tomo ds = 0 ->
  CryoCARE_Dataset.count_is_ndarray ds = true ->
  CryoCARE_Dataset.__getitem__ ds idx w = Raise IndexError.
Proof.
  intros (_ & _ & Hrows & _) Hn Hk.
  unfold CryoCARE_Dataset.__getitem__, floor_divmod. rewrite Hn, Hk. simpl Z.eqb.
  rewrite (bind_ok _ _ w (0, 0) w) by reflexivity. simpl fst. simpl snd.
  destruct (CryoCARE_Dataset.coords ds) as [|row rows] eqn:Ec.
  - apply bind_raise. apply py_index_out_of_range. simpl. lia.
  - rewrite (bind_ok _ _ w row w) by reflexivity.
    apply bind_raise. apply py_index_out_of_range.
    inversion Hrows as [|r rs Hr _]; subst. rewrite Hr, Hn. simpl. lia.
Qed.

(** X8.  For a dataset built from masks that cover its volumes (or read
    back from such a dataset), the dataset that [load] returns from its
    archive has the same length, the same reopened volumes, coordinates
    and footprint, and the same per-volume count, held as a numpy value.
    It answers every call of [__getitem__], at whatever index and
    process state, exactly as the original does, except when the count
    is the Python integer 0: there every call on the original raises
    [ZeroDivisionError], and every call on the loaded dataset raises
    [IndexError]. *)
Theorem reloaded_dataset_serves_the_same_patches fs ds files path w ds' w' :
  built fs ds ->
  files path = Some (CryoCARE_Dataset.archive_of ds) ->
  CryoCARE_Dataset.load fs files path w = Ok (ds', w') ->
  CryoCARE_Dataset.__len__ ds' = CryoCARE_Dataset.__len__ ds /\
  CryoCARE_Dataset.count_is_ndarray ds' = true /\
  (forall idx w1,
     CryoCARE_Dataset.__getitem__ ds' idx w1
     = if (CryoCARE_Dataset.n_samples_per_tomo ds =? 0)
          && negb (CryoCARE_Dataset.count_is_ndarray ds)
       then Raise IndexError
       else CryoCARE_Dataset.__getitem__ ds idx w1) /\
  (CryoCARE_Dataset.n_samples_per_tomo ds = 0 ->
   CryoCARE_Dataset.count_is_ndarray ds = false ->
   forall idx w1, CryoCARE_Dataset.__getitem__ ds idx w1 = Raise ZeroDivisionError).
Proof.
  intros Hb Hf Hload.
  destruct (load_sized fs ds files path w ds' w' (built_sized fs ds Hb) Hf Hload)
    as (Hs & Elen & Eto & Ete & Ec & En & Ess & Ek).
  split; [exact Elen|]. split; [exact Ek|]. split.
  - intros idx w1.
    destruct (CryoCARE_Dataset.n_samples_per_tomo ds =? 0) eqn:E0.
    + apply Z.eqb_eq in E0.
      destruct (CryoCARE_Dataset.count_is_ndarray ds) eqn:Ek0; simpl.
      * unfold CryoCARE_Dataset.__getitem__.
        rewrite Eto, Ete, Ec, En, Ess, Ek, Ek0. reflexivity.
      * apply (getitem_zero_ndarray fs ds' idx w1 Hs); [rewrite En; exact E0|exact Ek].
    + simpl. unfold CryoCARE_Dataset.__getitem__, floor_divmod.
      rewrite Eto, Ete, Ec, En, Ess, E0. reflexivity.
  - intros Hn Hk idx w1. unfold CryoCARE_Dataset.__getitem__, floor_divmod.
    rewrite Hn, Hk. reflexivity.
Qed.

Lemma reloaded_dataset_serves_the_same_patches_witness :
  (CryoCARE_Dataset.__len__ (value toy_train_reload_ok)
   = CryoCARE_Dataset.__len__ (CryoCARE_DataModule.train_dataset (value toy_setup_ok)) /\
   forall idx w1,
     CryoCARE_Dataset.__getitem__ (value toy_train_reload_ok) idx w1
     = CryoCARE_Dataset.__getitem__
         (CryoCARE_DataModule.train_dataset (value toy_setup_ok)) idx w1) /\
  (forall idx w1,
     CryoCARE_Dataset.__getitem__ (value hollow_reload_ok) idx w1 = Raise IndexError /\
     CryoCARE_Dataset.__getitem__ (value hollow_init_ok) idx w1
     = Raise ZeroDivisionError).
Proof.
  split.
  - destruct (setup_inv _ _ _ _ _ _ _ _ _ _ _ _ (run_of toy_setup_ok))
      as (shapes & w1 & w2 & n_train & n_val & _ & _ & Htrain & _).
    destruct (reloaded_dataset_serves_the_same_patches toy_fs
                (CryoCARE_DataModule.train_dataset (value toy_setup_ok))
                _ "train.npz"%string (boot toy_tape) _
                (final_world toy_train_reload_ok)
                ltac:(eapply built_by_init; [|exact Htrain]; exact I)
                eq_refl (run_of toy_train_reload_ok))
      as (A & _ & B & _).
    split; [exact A|exact B].
  - assert (Hb : built toy_fs (value hollow_init_ok))
      by (eapply built_by_init; [|exact (run_of hollow_init_ok)]; exact I).
    destruct (reloaded_dataset_serves_the_same_patches toy_fs
                (value hollow_init_ok) _ "hollow.npz"%string (boot []) _
                (final_world hollow_reload_ok) Hb eq_refl (run_of hollow_reload_ok))
      as (_ & _ & B & C).
    intros idx w1. split; [exact (B idx w1)|exact (C eq_refl eq_refl idx w1)].
Defined.

(** ** Estimation within the dataset *)

Lemma Forall2_impl_in {A B} (R S : A -> B -> Prop) (l1 : list A) (l2 : list B) :
  Forall2 R l1 l2 ->
  (forall a b, In a l1 -> R a b -> S a b) ->
  Forall2 S l1 l2.
Proof.
  intros H. induction H as [|a b l1 l2 Hab Hl IH]; intros Himp; constructor.
  - apply Himp; [left; reflexivity|exact Hab].
  - apply IH. intros a' b' Hin. apply Himp. right. exact Hin.
Qed.

Lemma print_ok s w : print s w = Ok (tt, {| entropy := entropy w; stdout := stdout w ++ [s] |}).
Proof. reflexivity. Qed.

(** X9.  When the constructor has built its coordinate lists, mean or std
    is not supplied and the normalisation budget does not exceed the
    dataset's length, exactly [budget] patches are read, at the indices
    [0, 1, ..., budget - 1] in this order, whatever the shuffle flag and
    the index order are: the patch for index [i] is the even or the odd
    sub-volume of volume pair [i // n] at its stored coordinate number
    [i % n], so a budget of at most [n] draws on the first volume pair
    only.  When the patches have one shape construction succeeds and
    the statistics are numpy's mean and std over them; when they do not,
    numpy cannot stack them and construction raises [ValueError]. *)
Theorem estimation_reads_the_first_indices fs a w ds0 w1 :
  CryoCARE_Dataset.init_attributes fs a w = Ok (ds0, w1) ->
  CryoCARE_Dataset.arg_mean a = None \/ CryoCARE_Dataset.arg_std a = None ->
  CryoCARE_Dataset.arg_n_normalization_samples a
  <= Z.of_nat (CryoCARE_Dataset.length ds0) ->
  let n := CryoCARE_Dataset.n_samples_per_tomo ds0 in
  let ss := CryoCARE_Dataset.sample_shape ds0 in
  exists samples w',
    CryoCARE_Dataset.__init__ fs a w
    = (if same_shapes samples
       then Ok (CryoCARE_Dataset.set_stats ds0
                  (Some (NpMean samples)) (Some (NpStd samples)), w')
       else Raise ValueError) /\
    List.length samples = Z.to_nat (CryoCARE_Dataset.arg_n_normalization_samples a) /\
    Forall2
      (fun i sample =>
         exists row y x ve vo,
           nth_error (CryoCARE_Dataset.coords ds0) (Z.to_nat (Z.of_nat i / n)) = Some row /\
           nth_error row (Z.to_nat (Z.of_nat i mod n)) = Some (y, x) /\
           nth_error (CryoCARE_Dataset.tomos_even ds0) (Z.to_nat (Z.of_nat i / n))
           = Some ve /\
           nth_error (CryoCARE_Dataset.tomos_odd ds0) (Z.to_nat (Z.of_nat i / n))
           = Some vo /\
           (sample = subvolume ve y x (fp0 ss) (fp1 ss) \/
            sample = subvolume vo y x (fp0 ss) (fp1 ss)))
      (seq 0 (Z.to_nat (CryoCARE_Dataset.arg_n_normalization_samples a)))
      samples.
Proof.
  intros Hpre Hnone Hbudget n ss.
  pose proof (init_attributes_fields fs a w ds0 w1 Hpre)
    as (_ & _ & _ & _ & _ & Hm & Hs & _ & _).
  pose proof (proj1 (init_attributes_inv fs a w ds0 w1 Hpre)) as Hinv.
  set (B := Z.to_nat (CryoCARE_Dataset.arg_n_normalization_samples a)).
  assert (Hvalid : forall i, In i (seq 0 B) ->
            0 <= Z.of_nat i < Z.of_nat (CryoCARE_Dataset.length ds0)).
  { intros i Hi. apply in_seq in Hi. unfold B in Hi. lia. }
  destruct (mapM_total
              (fun i => xy <- CryoCARE_Dataset.__getitem__ ds0 (Z.of_nat i) ;; ret (fst xy))
              (seq 0 B))
    with (w := {| entropy := entropy w1;
                  stdout := stdout w1 ++ ["Computing normalization parameters:"%string] |})
    as (samples & w2 & Hsamples).
  { intros i Hi w3.
    destruct (getitem_valid fs ds0 (Z.of_nat i) Hinv (Hvalid i Hi)) as
      (? & ? & ? & ? & ? & ? & ? & ? & ? & _ & _ & _ & _ & _ & _ & _ & Hget).
    destruct (Hget w3) as (swap & w4 & Hrun).
    rewrite (bind_ok _ _ _ _ _ Hrun). eexists. eexists. reflexivity. }
  exists samples, w2. split; [|split].
  - unfold CryoCARE_Dataset.__init__. rewrite (bind_ok _ _ _ _ _ Hpre).
    assert (Hc : CryoCARE_Dataset.is_none (CryoCARE_Dataset.mean ds0)
                 || CryoCARE_Dataset.is_none (CryoCARE_Dataset.std ds0) = true).
    { rewrite Hm, Hs. destruct Hnone as [-> | ->]; [reflexivity|apply orb_true_r]. }
    rewrite Hc. unfold CryoCARE_Dataset.compute_mean_std.
    rewrite (bind_ok _ _ _ _ _ (print_ok _ w1)). fold B.
    rewrite (bind_ok _ _ _ _ _ Hsamples).
    unfold bind, np_mean, np_std. destruct (same_shapes samples); reflexivity.
  - rewrite <- (Forall2_length (mapM_ok_Forall2 _ _ _ _ _ Hsamples)). apply length_seq.
  - pose proof (mapM_ok_Forall2 _ _ _ _ _ Hsamples) as Hall.
    apply (Forall2_impl_in _ _ _ _ Hall).
    intros i sample Hi (wa & wb & Hrun).
    apply bind_ok_inv in Hrun. destruct Hrun as (xy & w3 & Hxy & Hret).
    apply ret_ok_inv in Hret. destruct Hret as [<- _].
    destruct (getitem_valid fs ds0 (Z.of_nat i) Hinv (Hvalid i Hi)) as
      (o & e & es & mp & row & y & x & ve & vo & _ & _ & Erow & Eyx & Eve & Evo & _ & Hget).
    destruct (Hget wa) as (swap & w4 & Hrun). rewrite Hrun in Hxy.
    exists row, y, x, ve, vo.
    split; [exact Erow|]. split; [exact Eyx|]. split; [exact Eve|]. split; [exact Evo|].
    destruct swap; inversion Hxy; [right|left]; reflexivity.
Qed.

Lemma estimation_reads_the_first_indices_witness :
  (exists samples w',
     CryoCARE_Dataset.__init__ toy_fs frugal_kwargs (boot toy_tape)
     = Ok (CryoCARE_Dataset.set_stats (value frugal_attributes_ok)
             (Some (NpMean samples)) (Some (NpStd samples)), w') /\
     List.length samples = 1%nat) /\
  (exists samples,
     List.length samples = 2%nat /\ same_shapes samples = false /\
     CryoCARE_Dataset.__init__ toy_fs clipped_kwargs (boot [0; 160]%nat)
     = Raise ValueError).
Proof.
  split.
  - destruct (estimation_reads_the_first_indices toy_fs frugal_kwargs (boot toy_tape)
                (value frugal_attributes_ok) (final_world frugal_attributes_ok)
                (run_of frugal_attributes_ok) (or_introl eq_refl))
      as (samples & w' & H1 & H2 & _).
    + vm_compute. intros E; discriminate E.
    + exists samples, w'. split; [|exact H2].
      destruct (same_shapes samples); [exact H1|].
      vm_compute in H1. discriminate H1.
  - destruct (estimation_reads_the_first_indices toy_fs clipped_kwargs
                (boot [0; 160]%nat)
                (value clipped_attributes_ok) (final_world clipped_attributes_ok)
                (run_of clipped_attributes_ok) (or_introl eq_refl))
      as (samples & w' & H1 & H2 & _).
    + vm_compute. intros E; discriminate E.
    + exists samples. split; [exact H2|].
      destruct (same_shapes samples); [vm_compute in H1; discriminate H1|].
      split; [reflexivity|exact H1].
Defined.

(** ** How many samples [setup] holds *)

(** X10.  After a successful [setup] both datasets hold coordinates for
    the same number [T] of volume pairs, the length of the shortest of
    the odd paths, the even paths and the stored mask paths, and the
    length of each dataset is [T] times its per-volume count: the
    truncation of the binary64 product of the number of samples per
    volume and [1 - validation_fraction] for the training dataset, and of
    its product with [validation_fraction] for the validation dataset
    (a negative count gives length zero). *)
Theorem setup_lengths fs odd even masks n vf ss ax nn w dm w' :
  CryoCARE_DataModule.setup fs odd even masks n vf ss ax nn w = Ok (dm, w') ->
  let T := Nat.min (Nat.min (List.length odd) (List.length even))
                   (List.length (stored_mask_paths odd masks)) in
  let train := CryoCARE_DataModule.train_dataset dm in
  let val := CryoCARE_DataModule.val_dataset dm in
  exists n_train n_val,
    int_of_product n (one_minus vf) w = Ok (n_train, w) /\
    int_of_product n vf w = Ok (n_val, w) /\
    truncation_of (fmul (float_of_Z n) (one_minus vf)) n_train /\
    truncation_of (fmul (float_of_Z n) vf) n_val /\
    List.length (CryoCARE_Dataset.coords train) = T /\
    List.length (CryoCARE_Dataset.coords val) = T /\
    CryoCARE_Dataset.__len__ train = (T * Z.to_nat n_train)%nat /\
    CryoCARE_Dataset.__len__ val = (T * Z.to_nat n_val)%nat.
Proof.
  intros H T train val.
  destruct (setup_row_counts _ _ _ _ _ _ _ _ _ _ _ _ H) as [E2 E3].
  fold T in E2, E3. fold train in E2. fold val in E3.
  apply setup_inv in H.
  destruct H as (shapes & w1 & w2 & n_train & n_val & Hsh & Ht & H2 & Hv & H3).
  exists n_train, n_val.
  destruct (init_row_count _ _ _ _ _ H2) as [_ L2].
  destruct (init_row_count _ _ _ _ _ H3) as [_ L3].
  simpl in L2, L3. fold train in L2. fold val in L3.
  split; [exact (Ht w)|]. split; [exact (Hv w)|].
  split; [exact (py_int_truncates _ _ _ _ (int_of_product_inv _ _ _ _ _ (Ht w) w))|].
  split; [exact (py_int_truncates _ _ _ _ (int_of_product_inv _ _ _ _ _ (Hv w) w))|].
  unfold CryoCARE_Dataset.__len__. rewrite L2, L3, E2, E3.
  repeat split; reflexivity.
Qed.

Lemma setup_lengths_witness :
  CryoCARE_Dataset.__len__ (CryoCARE_DataModule.train_dataset (value toy_setup_ok))
  = 5%nat /\
  CryoCARE_Dataset.__len__ (CryoCARE_DataModule.val_dataset (value toy_setup_ok))
  = 1%nat /\
  CryoCARE_Dataset.__len__ (CryoCARE_DataModule.train_dataset (value ten_setup_ok))
  = 1%nat /\
  CryoCARE_Dataset.__len__ (CryoCARE_DataModule.val_dataset (value ten_setup_ok))
  = 8%nat.
Proof.
  destruct (setup_lengths toy_fs ["a_ODD.mrc"%string] ["a_EVN.mrc"%string]
              None 7 (float_of_ratio 1 4) (2, 2, 1) "Y" 3 (boot toy_tape)
              (value toy_setup_ok) (final_world toy_setup_ok) (run_of toy_setup_ok))
    as (n_train & n_val & Et & Ev & _ & _ & _ & _ & A & B).
  vm_compute in Et. injection Et as <-. vm_compute in Ev. injection Ev as <-.
  destruct (setup_lengths toy_fs ["a_ODD.mrc"%string] ["a_EVN.mrc"%string]
              None 10 (float_of_ratio 8 10) (2, 2, 1) "Y" 1 (boot toy_tape)
              (value ten_setup_ok) (final_world ten_setup_ok) (run_of ten_setup_ok))
    as (m_train & m_val & Ft & Fv & _ & _ & _ & _ & C & D).
  vm_compute in Ft. injection Ft as <-. vm_compute in Fv. injection Fv as <-.
  split; [rewrite A; reflexivity|]. split; [rewrite B; reflexivity|].
  split; [rewrite C; reflexivity|rewrite D; reflexivity].
Defined.

(** ** Saving and loading a module *)

Lemma setup_built fs odd even masks n vf ss ax nn w dm w' :
  CryoCARE_DataModule.setup fs odd even masks n vf ss ax nn w = Ok (dm, w') ->
  (forall l, masks = Some l ->
             (Nat.min (List.length odd) (List.length even) <= List.length l)%nat) ->
  built fs (CryoCARE_DataModule.train_dataset dm) /\
  built fs (CryoCARE_DataModule.val_dataset dm).
Proof.
  intros H Hmasks.
  apply setup_inv in H. destruct H as (shapes & wa & wb & n_train & n_val & Hsh & Ht & H2 & Hv & H3).
  apply extraction_shapes_count in Hsh.
  assert (Hcover : forall kw,
            CryoCARE_Dataset.arg_tomo_paths_odd kw = odd ->
            CryoCARE_Dataset.arg_tomo_paths_even kw = even ->
            CryoCARE_Dataset.arg_mask_paths kw = masks ->
            List.length (CryoCARE_Dataset.arg_extraction_shapes kw) = List.length shapes ->
            masks_cover kw).
  { intros kw Eo Ee Em El. unfold masks_cover. rewrite Em, Eo, Ee, El, Hsh.
    destruct masks as [l|]; [|exact I].
    specialize (Hmasks l eq_refl). lia. }
  split.
  - eapply built_by_init; [|exact H2].
    apply Hcover; try reflexivity. simpl. apply length_map.
  - eapply built_by_init; [|exact H3].
    apply Hcover; try reflexivity. simpl. apply length_map.
Qed.

Lemma built_reloads fs ds files path :
  built fs ds ->
  files path = Some (CryoCARE_Dataset.archive_of ds) ->
  forall w, exists ds' w',
    CryoCARE_Dataset.load fs files path w = Ok (ds', w') /\
    CryoCARE_Dataset.coords ds' = CryoCARE_Dataset.coords ds /\
    CryoCARE_Dataset.mean ds' = CryoCARE_Dataset.mean ds /\
    CryoCARE_Dataset.std ds' = CryoCARE_Dataset.std ds /\
    CryoCARE_Dataset.n_samples_per_tomo ds' = CryoCARE_Dataset.n_samples_per_tomo ds /\
    CryoCARE_Dataset.__len__ ds' = CryoCARE_Dataset.__len__ ds.
Proof.
  intros B Hf w.
  destruct (reloadable_load fs _ files path (built_reloadable fs _ B) Hf w)
    as (ds' & w' & L & C & M & S & N & _).
  pose proof (load_sized fs _ _ _ _ _ _ (built_sized fs _ B) Hf L) as (_ & E & _).
  exists ds', w'. repeat (split; [assumption|]). exact E.
Qed.

(** X11.  A module built by [setup] with no mask list, or with a mask
    list at least as long as the shorter of the two path lists, can be
    saved to any directory and loaded from it again under every process
    state (the volume files being unchanged, the directory writable):
    [load] succeeds and both datasets come back with their coordinate
    sets, mean, std, per-volume count and length. *)
Theorem module_save_then_load fs odd even masks n vf ss ax nn w dm w' :
  CryoCARE_DataModule.setup fs odd even masks n vf ss ax nn w = Ok (dm, w') ->
  (forall l, masks = Some l ->
             (Nat.min (List.length odd) (List.length even) <= List.length l)%nat) ->
  forall path files w1, exists dm' w2,
    CryoCARE_DataModule.load fs (CryoCARE_DataModule.save dm path files) path w1
    = Ok (dm', w2) /\
    (forall pick : CryoCARE_DataModule.t -> CryoCARE_Dataset.t,
       pick = CryoCARE_DataModule.train_dataset \/
       pick = CryoCARE_DataModule.val_dataset ->
       CryoCARE_Dataset.coords (pick dm') = CryoCARE_Dataset.coords (pick dm) /\
       CryoCARE_Dataset.mean (pick dm') = CryoCARE_Dataset.mean (pick dm) /\
       CryoCARE_Dataset.std (pick dm') = CryoCARE_Dataset.std (pick dm) /\
       CryoCARE_Dataset.n_samples_per_tomo (pick dm')
       = CryoCARE_Dataset.n_samples_per_tomo (pick dm) /\
       CryoCARE_Dataset.__len__ (pick dm') = CryoCARE_Dataset.__len__ (pick dm)).
Proof.
  intros H Hmasks path files w1.
  destruct (setup_built _ _ _ _ _ _ _ _ _ _ _ _ H Hmasks) as [Bt Bv].
  destruct (built_reloads fs _ _ _ Bt (saved_train dm path files) w1)
    as (t' & w2 & Lt & Ct & Mt & St & Nt & Et).
  destruct (built_reloads fs _ _ _ Bv (saved_val dm path files) w2)
    as (v' & w3 & Lv & Cv & Mv & Sv & Nv & Ev).
  exists {| CryoCARE_DataModule.train_dataset := t';
            CryoCARE_DataModule.val_dataset := v' |}, w3.
  split.
  - unfold CryoCARE_DataModule.load.
    rewrite (bind_ok _ _ _ _ _ Lt), (bind_ok _ _ _ _ _ Lv). reflexivity.
  - intros pick [-> | ->]; simpl; repeat split; assumption.
Qed.

Lemma module_save_then_load_witness :
  exists dm' w2,
    CryoCARE_DataModule.load toy_fs
      (CryoCARE_DataModule.save (value toy_setup_ok) "out" no_files) "out"
      (boot toy_tape) = Ok (dm', w2) /\
    CryoCARE_Dataset.coords (CryoCARE_DataModule.val_dataset dm')
    = CryoCARE_Dataset.coords (CryoCARE_DataModule.val_dataset (value toy_setup_ok)) /\
    CryoCARE_Dataset.coords (CryoCARE_DataModule.train_dataset dm')
    = CryoCARE_Dataset.coords (CryoCARE_DataModule.train_dataset (value toy_setup_ok)).
Proof.
  destruct (module_save_then_load toy_fs ["a_ODD.mrc"%string] ["a_EVN.mrc"%string]
              None 7 (float_of_ratio 1 4) (2, 2, 1) "Y" 3 (boot toy_tape)
              (value toy_setup_ok) (final_world toy_setup_ok) (run_of toy_setup_ok))
    with (path := "out"%string) (files := no_files) (w1 := boot toy_tape)
    as (dm' & w2 & H1 & H2).
  - intros l E. discriminate E.
  - exists dm', w2. split; [exact H1|]. split.
    + exact (proj1 (H2 CryoCARE_DataModule.val_dataset (or_intror eq_refl))).
    + exact (proj1 (H2 CryoCARE_DataModule.train_dataset (or_introl eq_refl))).
Defined.

(** ** Square footprints stay inside their windows *)

Lemma row_coordinates_leave_margins ss y x mask (l : list nat) cy cx :
  Forall (fun i =>
            (i < List.length (fst (CryoCARE_Dataset.valid_inds ss y x mask)))%nat) l ->
  In (cy, cx)
     (map (fun i => (nth i (fst (CryoCARE_Dataset.valid_inds ss y x mask)) 0,
                     nth i (snd (CryoCARE_Dataset.valid_inds ss y x mask)) 0)) l) ->
  0 <= fst y -> 0 <= snd y - fp1 ss -> 0 <= fst x -> 0 <= snd x - fp0 ss ->
  fst y <= cy /\ cy + fp1 ss < snd y /\ fst x <= cx /\ cx + fp0 ss < snd x.
Proof.
  intros Hall Hin Hy0 Hy1 Hx0 Hx1.
  apply in_map_iff in Hin. destruct Hin as (i & Heq & Hi).
  rewrite Forall_forall in Hall. specialize (Hall i Hi).
  revert Heq Hall. unfold CryoCARE_Dataset.valid_inds.
  destruct (shape3 mask) as [[Y X] D]. simpl fst. simpl snd.
  set (wh := np_where mask _ _). rewrite length_map. intros Heq Hlt.
  set (d := (0%nat, 0%nat, 0%nat)).
  assert (E1 : forall f : nat * nat * nat -> Z, nth i (map f wh) 0 = f (nth i wh d)).
  { intros f. rewrite (nth_indep _ 0 (f d)) by (rewrite length_map; exact Hlt).
    apply map_nth. }
  rewrite !E1 in Heq.
  pose proof (nth_In wh d Hlt) as Hv.
  destruct (nth i wh d) as [[a b] k]. simpl in Heq. inversion Heq; subst cy cx.
  apply np_where_spec in Hv. destruct Hv as (Ha & Hb & _).
  destruct (slice_range_position _ _ _ _ Hy0 Hy1 Ha) as [_ Hay].
  destruct (slice_range_position _ _ _ _ Hx0 Hx1 Hb) as [_ Hbx].
  repeat split; lia.
Qed.

Lemma dataset_patches_in_windows fs d :
  constructed_from fs d ->
  fp0 (CryoCARE_Dataset.sample_shape d) = fp1 (CryoCARE_Dataset.sample_shape d) ->
  0 <= fp0 (CryoCARE_Dataset.sample_shape d) ->
  (forall t e wnd,
     nth_error (CryoCARE_Dataset.tomo_paths_even d) t = Some e ->
     nth_error (CryoCARE_Dataset.extraction_shapes d) t = Some wnd ->
     exists ve, fs e = Some ve /\ window_fits (CryoCARE_Dataset.sample_shape d) ve wnd) ->
  patches_in_windows d.
Proof.
  intros Hinv Hsq Hs0 Hwin idx Hidx n ss t c.
  destruct (getitem_valid fs d idx Hinv Hidx)
    as (o & e & es & mp & row & y & x & ve & vo & Ez & Hz & Erow & Eyx & Eve & Evo
        & Hsh & Hget).
  fold n in Ez, Hz, Erow, Eyx, Eve, Evo, Hget. fold t in Ez, Erow, Eve, Evo.
  fold c in Eyx. fold ss in Hz, Hget, Hsq, Hs0.
  pose proof (proj1 (nth_error_zip4 _ _ _ _ _ _ _ _ _) Ez) as (_ & Ee & Ees & _).
  destruct (Hwin t e es Ee Ees) as (ve' & Hfe & Hfit). fold ss in Hfit.
  destruct Hinv as (_ & _ & Heven & _).
  destruct (Forall2_nth_error_r _ _ _ Heven t e Ee) as (ve'' & Eve'' & Hfe'').
  assert (ve'' = ve) by congruence. assert (ve' = ve) by congruence. subst ve'' ve'.
  destruct Hfit as (F1 & F2 & F3 & F4 & F5 & F6).
  simpl in Hz.
  destruct Hz as (ve1 & vo1 & mask & l & _ & _ & _ & _ & _ & _ & _ & _ & _ & _ & Hall & Hrow).
  assert (Hin : In (y, x) row) by exact (nth_error_In _ _ Eyx).
  rewrite Hrow in Hin.
  destruct (row_coordinates_leave_margins ss (fst es) (snd es) mask l y x Hall Hin
              F1 F3 F4 F6) as (M1 & M2 & M3 & M4).
  exists es, row, y, x, ve.
  split; [exact Ees|]. split; [exact Erow|]. split; [exact Eyx|]. split; [exact Eve|].
  split; [split; [exact M1|rewrite Hsq; exact M2]|].
  split; [split; [exact M3|rewrite <- Hsq; exact M4]|].
  split; [split; assumption|]. split; [split; assumption|].
  intros w. destruct (Hget w) as (swap & w' & Hrun).
  assert (Hp : shape4 (subvolume ve y x (fp0 ss) (fp1 ss))
               = (Z.to_nat (fp0 ss), Z.to_nat (fp1 ss), snd (shape3 ve), 1%nat)).
  { rewrite subvolume_shape.
    rewrite (slice_range_inside y (fp0 ss)) by lia.
    rewrite (slice_range_inside x (fp1 ss)) by lia. reflexivity. }
  assert (Hq : shape4 (subvolume vo y x (fp0 ss) (fp1 ss))
               = shape4 (subvolume ve y x (fp0 ss) (fp1 ss)))
    by (rewrite !subvolume_shape, Hsh; reflexivity).
  destruct swap.
  - exists (subvolume vo y x (fp0 ss) (fp1 ss)), (subvolume ve y x (fp0 ss) (fp1 ss)), w'.
    split; [exact Hrun|]. rewrite Hq. split; [exact Hp|reflexivity].
  - exists (subvolume ve y x (fp0 ss) (fp1 ss)), (subvolume vo y x (fp0 ss) (fp1 ss)), w'.
    split; [exact Hrun|]. split; [exact Hp|exact Hq].
Qed.

Lemma computed_windows_fit fs e o i ss vf w wt wv w' :
  CryoCARE_DataModule.__compute_extraction_shapes__ fs e o i ss vf w
    = Ok ((wt, wv), w') ->
  fp0 ss = fp1 ss -> 0 <= fp0 ss ->
  exists ve, fs e = Some ve /\ window_fits ss ve wt /\ window_fits ss ve wv.
Proof.
  intros H Hsq Hs0. apply compute_extraction_shapes_ok_inv in H.
  destruct H as (ve & vo & c & He & _ & _ & H0 & H1 & _ & Hc1 & Hc2 & -> & ->).
  exists ve. split; [exact He|].
  unfold window_fits, CryoCARE_DataModule.window_set, CryoCARE_DataModule.shape_at,
    CryoCARE_DataModule.footprint_at in *.
  destruct i; simpl; split; repeat split; lia.
Qed.

Lemma setup_window_facts fs odd even ax ss vf w shapes w'
    (pick : window * window -> window) :
  CryoCARE_DataModule.extraction_shapes fs odd even ax ss vf w = Ok (shapes, w') ->
  pick = fst \/ pick = snd ->
  fp0 ss = fp1 ss -> 0 <= fp0 ss ->
  forall t e wnd,
    nth_error even t = Some e ->
    nth_error (map pick shapes) t = Some wnd ->
    exists ve, fs e = Some ve /\ window_fits ss ve wnd.
Proof.
  intros Hsh Hpick Hsq Hs0 t e wnd Ee Ew.
  apply extraction_shapes_inv in Hsh.
  rewrite nth_error_map in Ew.
  destruct (nth_error shapes t) as [tv|] eqn:Etv; [|discriminate Ew].
  simpl in Ew. inversion Ew; subst wnd.
  destruct (Forall2_nth_error_l _ _ _ Hsh t tv Etv) as ([e' o'] & Eeo & wa & wb & Hrun).
  apply nth_error_combine in Eeo. destruct Eeo as [Ee' _].
  assert (e' = e) by congruence. subst e'. simpl in Hrun.
  destruct tv as [wt wv].
  destruct (computed_windows_fit _ _ _ _ _ _ _ _ _ _ Hrun Hsq Hs0) as (ve & He & Ft & Fv).
  exists ve. split; [exact He|]. destruct Hpick as [-> | ->]; assumption.
Qed.

(** X12.  When the two in-plane footprint extents are equal and not
    negative, every coordinate stored by the two datasets of a successful
    [setup] keeps its in-plane footprint inside the extraction window of
    its volume pair, with one row and one column to spare, and the window
    lies inside the volume: every patch [__getitem__] serves at a valid
    index then has the shape [(sample_shape[0], sample_shape[1], depth, 1)],
    training patches lie before the split point and validation patches
    behind it. *)
Theorem square_footprints_stay_in_their_windows
    fs odd even masks n vf ss ax nn w dm w' :
  CryoCARE_DataModule.setup fs odd even masks n vf ss ax nn w = Ok (dm, w') ->
  fp0 ss = fp1 ss -> 0 <= fp0 ss ->
  patches_in_windows (CryoCARE_DataModule.train_dataset dm) /\
  patches_in_windows (CryoCARE_DataModule.val_dataset dm).
Proof.
  intros H Hsq Hs0.
  apply setup_inv in H. destruct H as (shapes & w1 & w2 & n_train & n_val & Hsh & Ht & H2 & Hv & H3).
  pose proof (init_fields _ _ _ _ _ H2) as (_ & Ee2 & _ & _ & Ees2 & Ess2 & _).
  pose proof (init_fields _ _ _ _ _ H3) as (_ & Ee3 & _ & _ & Ees3 & Ess3 & _).
  simpl in Ee2, Ees2, Ess2, Ee3, Ees3, Ess3.
  split.
  - apply (dataset_patches_in_windows fs).
    + exact (proj1 (init_inv _ _ _ _ _ H2)).
    + rewrite Ess2. exact Hsq.
    + rewrite Ess2. exact Hs0.
    + rewrite Ee2, Ees2, Ess2.
      exact (setup_window_facts fs odd even ax ss vf w shapes w1 fst Hsh
               (or_introl eq_refl) Hsq Hs0).
  - apply (dataset_patches_in_windows fs).
    + exact (proj1 (init_inv _ _ _ _ _ H3)).
    + rewrite Ess3. exact Hsq.
    + rewrite Ess3. exact Hs0.
    + rewrite Ee3, Ees3, Ess3.
      exact (setup_window_facts fs odd even ax ss vf w shapes w1 snd Hsh
               (or_intror eq_refl) Hsq Hs0).
Qed.

Lemma square_footprints_stay_in_their_windows_witness :
  patches_in_windows (CryoCARE_DataModule.train_dataset (value toy_setup_ok)) /\
  patches_in_windows (CryoCARE_DataModule.val_dataset (value toy_setup_ok)).
Proof.
  apply (square_footprints_stay_in_their_windows
           toy_fs ["a_ODD.mrc"%string] ["a_EVN.mrc"%string]
           None 7 (float_of_ratio 1 4) (2, 2, 1) "Y" 3 (boot toy_tape)
           (value toy_setup_ok) (final_world toy_setup_ok) (run_of toy_setup_ok)).
  - reflexivity.
  - discriminate.
Defined.

(** ** The extraction script *)

Import cryoCARE_extract_train_data.

Lemma and_then_done {A B} (m : Script A) (k : A -> Script B) p a p1 :
  m p = Done a p1 -> and_then m k p = k a p1.
Proof. unfold and_then. intros ->. reflexivity. Qed.

Lemma and_then_done_inv {A B} (m : Script A) (k : A -> Script B) p b p2 :
  and_then m k p = Done b p2 ->
  exists a p1, m p = Done a p1 /\ k a p1 = Done b p2.
Proof.
  unfold and_then. destruct (m p) as [a p1|e d|e p1]; try discriminate.
  intros H. exists a, p1. split; [reflexivity|exact H].
Qed.

Lemma get_done_inv {A} key (field : option A) p a p1 :
  get key field p = Done a p1 -> field = Some a /\ p1 = p.
Proof.
  unfold get, pure, stop. destruct field as [v|]; [|discriminate].
  intros H. inversion H. split; reflexivity.
Qed.

Lemma lift_done_inv {A} (m : M A) p a p1 :
  lift m p = Done a p1 -> m (py p) = Ok (a, py p1) /\ storage p1 = storage p.
Proof.
  unfold lift. destruct (m (py p)) as [[a0 w]|e]; [|discriminate].
  intros H. inversion H. split; reflexivity.
Qed.

Lemma reads_only_pure {A} (a : A) : reads_only (pure a).
Proof. intros p. reflexivity. Qed.

Lemma reads_only_stop {A} e : reads_only (@stop A e).
Proof. intros p. reflexivity. Qed.

Lemma reads_only_get {A} key (field : option A) : reads_only (get key field).
Proof. destruct field; [apply reads_only_pure|apply reads_only_stop]. Qed.

Lemma reads_only_lift {A} (m : M A) : reads_only (lift m).
Proof. intros p. unfold lift. destruct (m (py p)) as [[a w]|e]; reflexivity. Qed.

Lemma reads_only_and_then {A B} (m : Script A) (k : A -> Script B) :
  reads_only m -> (forall a, reads_only (k a)) -> reads_only (and_then m k).
Proof.
  intros Hm Hk p. specialize (Hm p). unfold and_then.
  destruct (m p) as [a p1|e d|e p1]; simpl in Hm; try exact Hm.
  rewrite (Hk a p1). exact Hm.
Qed.

Lemma reads_only_for_each {A B} (f : A -> Script B) l :
  (forall a, reads_only (f a)) -> reads_only (for_each f l).
Proof.
  intros Hf. induction l as [|a l IH]; simpl.
  - apply reads_only_pure.
  - apply reads_only_and_then; [apply Hf|]. intros b.
    apply reads_only_and_then; [exact IH|]. intros bs. apply reads_only_pure.
Qed.

Lemma reads_only_odd_files h folder : reads_only (odd_files h folder).
Proof.
  unfold odd_files. apply reads_only_and_then.
  - unfold os_listdir. destruct (listing h folder);
      [apply reads_only_pure|apply reads_only_stop].
  - intros names. apply reads_only_pure.
Qed.

Lemma reads_only_select_folders h c : reads_only (select_folders h c).
Proof.
  unfold select_folders. destruct (folders c) as [[|f fl]|]; try apply reads_only_pure.
  apply reads_only_and_then; [apply reads_only_for_each, reads_only_odd_files|].
  intros found. apply reads_only_and_then; [apply reads_only_get|].
  intros k. apply reads_only_and_then; [apply reads_only_lift|].
  intros sampled. apply reads_only_pure.
Qed.

Lemma reads_only_sample_data h c : reads_only (sample_data h c).
Proof.
  unfold sample_data.
  apply reads_only_and_then; [apply reads_only_select_folders|]. intros cfg.
  repeat (apply reads_only_and_then; [apply reads_only_get|]; intros ?).
  apply reads_only_and_then; [apply reads_only_lift|]. intros dm.
  apply reads_only_pure.
Qed.

(** [select_folders] changes no key but [odd] and [even]. *)
Lemma select_folders_keys h c p cfg p1 :
  select_folders h c p = Done cfg p1 ->
  path cfg = path c /\ overwrite cfg = overwrite c /\ mask cfg = mask c /\
  num_samples cfg = num_samples c /\ split cfg = split c /\
  patch_shape cfg = patch_shape c /\ tilt_axis cfg = tilt_axis c /\
  n_normalization_samples cfg = n_normalization_samples c.
Proof.
  unfold select_folders. destruct (folders c) as [[|f fl]|].
  - unfold pure. intros H. inversion H. repeat split; reflexivity.
  - intros H.
    apply and_then_done_inv in H. destruct H as (found & p2 & _ & H).
    apply and_then_done_inv in H. destruct H as (k & p3 & _ & H).
    apply and_then_done_inv in H. destruct H as (sampled & p4 & _ & H).
    unfold pure in H. inversion H. repeat split; reflexivity.
  - unfold pure. intros H. inversion H. repeat split; reflexivity.
Qed.

(** What a successful [sample_data] has done: the module is the one
    [setup] builds from the lists of the configuration, with one minus
    [split] as validation fraction. *)
Lemma sample_data_done_inv h c p cfg dm p1 :
  sample_data h c p = Done (cfg, dm) p1 ->
  exists p0 o e n s ss ax nn,
    select_folders h c p = Done cfg p0 /\
    odd cfg = Some o /\ even cfg = Some e /\ num_samples c = Some n /\
    split c = Some s /\ patch_shape c = Some ss /\ tilt_axis c = Some ax /\
    n_normalization_samples c = Some nn /\
    CryoCARE_DataModule.setup (volumes h) o e (mask c) n (one_minus s) ss ax nn (py p0)
    = Ok (dm, py p1) /\
    storage p1 = storage p.
Proof.
  intros H. pose proof (reads_only_sample_data h c p) as Hd. rewrite H in Hd.
  simpl in Hd. unfold sample_data in H.
  apply and_then_done_inv in H. destruct H as (cfg0 & p0 & Hsel & H).
  destruct (select_folders_keys _ _ _ _ _ Hsel)
    as (_ & _ & Em & En & Es & Ess & Eax & Enn).
  apply and_then_done_inv in H. destruct H as (o & q1 & G1 & H).
  apply get_done_inv in G1. destruct G1 as [G1 ->].
  apply and_then_done_inv in H. destruct H as (e & q2 & G2 & H).
  apply get_done_inv in G2. destruct G2 as [G2 ->].
  apply and_then_done_inv in H. destruct H as (n & q3 & G3 & H).
  apply get_done_inv in G3. destruct G3 as [G3 ->].
  apply and_then_done_inv in H. destruct H as (s & q4 & G4 & H).
  apply get_done_inv in G4. destruct G4 as [G4 ->].
  apply and_then_done_inv in H. destruct H as (ss & q5 & G5 & H).
  apply get_done_inv in G5. destruct G5 as [G5 ->].
  apply and_then_done_inv in H. destruct H as (ax & q6 & G6 & H).
  apply get_done_inv in G6. destruct G6 as [G6 ->].
  apply and_then_done_inv in H. destruct H as (nn & q7 & G7 & H).
  apply get_done_inv in G7. destruct G7 as [G7 ->].
  apply and_then_done_inv in H. destruct H as (dm0 & q8 & Hset & H).
  apply lift_done_inv in Hset. destruct Hset as [Hset _].
  unfold pure in H. inversion H. subst cfg0 dm0 q8.
  exists p0, o, e, n, s, ss, ax, nn.
  rewrite <- En, <- Es, <- Ess, <- Eax, <- Enn, <- Em.
  repeat (split; [assumption|]). exact Hd.
Qed.

(** The output directory exists and may not be replaced: the second part
    of [main] prints its refusal and exits. *)
Lemma write_out_refuses h cfg dm p1 name :
  path cfg = Some name -> entries (storage p1) name <> None ->
  overwrite cfg <> Some true ->
  write_out h cfg dm p1
  = Stopped (SystemExit 1)
      {| py := {| entropy := entropy (py p1); stdout := stdout (py p1) ++ [refusal] |};
         storage := storage p1 |}.
Proof.
  intros Hp He Ho. unfold write_out, and_then, try_except_OSError, get, pure, os_makedirs.
  rewrite Hp.
  destruct (entries (storage p1) name) as [[|]|] eqn:E; [| |congruence].
  - destruct (overwrite cfg) as [[|]|]; [congruence|reflexivity|reflexivity].
  - destruct (overwrite cfg) as [[|]|]; [congruence|reflexivity|reflexivity].
Qed.

(** The output directory is free and can be created, or is a directory
    that may be replaced: the second part of [main] writes the module. *)
Lemma write_out_writes h cfg dm p1 name :
  path cfg = Some name ->
  (entries (storage p1) name = None /\ creatable h name = true) \/
  (entries (storage p1) name = Some Dir /\ overwrite cfg = Some true) ->
  exists p',
    write_out h cfg dm p1 = Done tt p' /\ py p' = py p1 /\
    entries (storage p') name = Some Dir /\
    archives (storage p') = CryoCARE_DataModule.save dm name (archives (storage p1)).
Proof.
  intros Hp Hc. unfold write_out, and_then, try_except_OSError, get, pure, os_makedirs.
  rewrite Hp.
  destruct Hc as [[E Hcr]|[E Ho]]; rewrite E.
  - rewrite Hcr. unfold dm_save, with_entry, with_archives. simpl.
    rewrite String.eqb_refl.
    eexists. split; [reflexivity|]. simpl. rewrite String.eqb_refl.
    repeat split; reflexivity.
  - rewrite Ho, E. unfold dm_save, with_archives. rewrite E.
    eexists. split; [reflexivity|]. simpl. rewrite E.
    repeat split; reflexivity.
Qed.

(** X13.  When the output directory of the configuration is there
    already and [overwrite] is absent or false, [main] never writes: it
    first runs everything up to and including [setup], whose failure is
    then also the failure of [main], and only after a successful [setup]
    prints its refusal and exits with status 1; the disk is left as it
    was in every case. *)
Theorem main_keeps_an_existing_output_directory h c p name :
  path c = Some name -> entries (storage p) name <> None ->
  overwrite c <> Some true ->
  main h c p
  = match sample_data h c p with
    | Done _ p1 =>
        Stopped (SystemExit 1)
          {| py := {| entropy := entropy (py p1);
                      stdout := stdout (py p1) ++ [refusal] |};
             storage := storage p |}
    | Failed e d => Failed e d
    | Stopped e p1 => Stopped e p1
    end /\
  disk_after (main h c p) = storage p.
Proof.
  intros Hp He Ho.
  pose proof (reads_only_sample_data h c p) as Hd.
  unfold main, and_then.
  destruct (sample_data h c p) as [[cfg dm] p1|e d|e p1] eqn:Hs.
  - destruct (sample_data_done_inv _ _ _ _ _ _ Hs)
      as (p0 & ? & ? & ? & ? & ? & ? & ? & Hsel & _).
    destruct (select_folders_keys _ _ _ _ _ Hsel) as (Ep & Eo & _).
    simpl in Hd. simpl fst. simpl snd.
    rewrite (write_out_refuses h cfg dm p1 name).
    + rewrite Hd. split; reflexivity.
    + rewrite Ep. exact Hp.
    + rewrite Hd. exact He.
    + rewrite Eo. exact Ho.
  - split; [reflexivity|exact Hd].
  - split; [reflexivity|exact Hd].
Qed.

Lemma main_keeps_an_existing_output_directory_witness :
  main farm farm_config occupied
  = match sample_data farm farm_config occupied with
    | Done _ p1 =>
        Stopped (SystemExit 1)
          {| py := {| entropy := entropy (py p1);
                      stdout := stdout (py p1) ++ [refusal] |};
             storage := storage occupied |}
    | Failed e d => Failed e d
    | Stopped e p1 => Stopped e p1
    end /\
  disk_after (main farm farm_config occupied) = storage occupied.
Proof.
  apply (main_keeps_an_existing_output_directory farm farm_config occupied "out").
  - reflexivity.
  - discriminate.
  - discriminate.
Defined.

(** X14.  When everything up to and including [setup] succeeds, no mask
    list is configured, and the output directory is either free and can
    be created, or is a directory and [overwrite] is true, [main]
    returns; the output directory is then a directory, the archives on
    the disk are those [save] writes for the module [setup] built, and
    [CryoCARE_DataModule.load] reads them back from the output directory
    under every process state into datasets with the same coordinates,
    statistics and lengths. *)
Theorem main_saves_a_module_that_loads h c p name cfg dm p1 :
  sample_data h c p = Done (cfg, dm) p1 ->
  path c = Some name ->
  mask c = None ->
  (entries (storage p) name = None /\ creatable h name = true) \/
  (entries (storage p) name = Some Dir /\ overwrite c = Some true) ->
  exists p',
    main h c p = Done tt p' /\ py p' = py p1 /\
    entries (storage p') name = Some Dir /\
    archives (storage p') = CryoCARE_DataModule.save dm name (archives (storage p)) /\
    forall w, exists dm' w',
      CryoCARE_DataModule.load (volumes h) (archives (storage p')) name w
      = Ok (dm', w') /\
      (forall pick : CryoCARE_DataModule.t -> CryoCARE_Dataset.t,
         pick = CryoCARE_DataModule.train_dataset \/
         pick = CryoCARE_DataModule.val_dataset ->
         CryoCARE_Dataset.coords (pick dm') = CryoCARE_Dataset.coords (pick dm) /\
         CryoCARE_Dataset.mean (pick dm') = CryoCARE_Dataset.mean (pick dm) /\
         CryoCARE_Dataset.std (pick dm') = CryoCARE_Dataset.std (pick dm) /\
         CryoCARE_Dataset.n_samples_per_tomo (pick dm')
         = CryoCARE_Dataset.n_samples_per_tomo (pick dm) /\
         CryoCARE_Dataset.__len__ (pick dm') = CryoCARE_Dataset.__len__ (pick dm)).
Proof.
  intros Hs Hp Hm Hc.
  destruct (sample_data_done_inv _ _ _ _ _ _ Hs)
    as (p0 & o & e & n & s & ss & ax & nn & Hsel & _ & _ & _ & _ & _ & _ & _ & Hset & Hd).
  destruct (select_folders_keys _ _ _ _ _ Hsel) as (Ep & Eo & _).
  destruct (write_out_writes h cfg dm p1 name) as (p' & Hw & Hpy & Hdir & Hsaved).
  - rewrite Ep. exact Hp.
  - rewrite Hd, Eo. exact Hc.
  - exists p'. split.
    + unfold main. rewrite (and_then_done _ _ _ _ _ Hs). exact Hw.
    + split; [exact Hpy|]. split; [exact Hdir|].
      rewrite Hd in Hsaved. split; [exact Hsaved|].
      rewrite Hm in Hset.
      destruct (setup_built _ _ _ _ _ _ _ _ _ _ _ _ Hset) as [Bt Bv];
        [intros l Hl; discriminate Hl|].
      intros w. rewrite Hsaved.
      destruct (built_reloads (volumes h) _ _ _ Bt
                  (saved_train dm name (archives (storage p))) w)
        as (t' & w2 & Lt & Ft).
      destruct (built_reloads (volumes h) _ _ _ Bv
                  (saved_val dm name (archives (storage p))) w2)
        as (v' & w3 & Lv & Fv).
      exists {| CryoCARE_DataModule.train_dataset := t';
                CryoCARE_DataModule.val_dataset := v' |}, w3.
      split.
      * unfold CryoCARE_DataModule.load.
        rewrite (bind_ok _ _ _ _ _ Lt), (bind_ok _ _ _ _ _ Lv). reflexivity.
      * intros pick [-> | ->]; simpl; assumption.
Qed.

Lemma main_saves_a_module_that_loads_witness :
  exists p',
    main farm farm_config fresh = Done tt p' /\
    py p' = py (final_process farm_sample_ok) /\
    entries (storage p') "out"%string = Some Dir /\
    archives (storage p')
    = CryoCARE_DataModule.save (snd (returned farm_sample_ok)) "out"
        (archives (storage fresh)) /\
    forall w, exists dm' w',
      CryoCARE_DataModule.load (volumes farm) (archives (storage p')) "out" w
      = Ok (dm', w') /\
      (forall pick : CryoCARE_DataModule.t -> CryoCARE_Dataset.t,
         pick = CryoCARE_DataModule.train_dataset \/
         pick = CryoCARE_DataModule.val_dataset ->
         CryoCARE_Dataset.coords (pick dm')
         = CryoCARE_Dataset.coords (pick (snd (returned farm_sample_ok))) /\
         CryoCARE_Dataset.mean (pick dm')
         = CryoCARE_Dataset.mean (pick (snd (returned farm_sample_ok))) /\
         CryoCARE_Dataset.std (pick dm')
         = CryoCARE_Dataset.std (pick (snd (returned farm_sample_ok))) /\
         CryoCARE_Dataset.n_samples_per_tomo (pick dm')
         = CryoCARE_Dataset.n_samples_per_tomo (pick (snd (returned farm_sample_ok))) /\
         CryoCARE_Dataset.__len__ (pick dm')
         = CryoCARE_Dataset.__len__ (pick (snd (returned farm_sample_ok)))).
Proof.
  apply (main_saves_a_module_that_loads farm farm_config fresh "out"
           (fst (returned farm_sample_ok)) (snd (returned farm_sample_ok))
           (final_process farm_sample_ok)).
  - rewrite <- surjective_pairing. exact (return_of farm_sample_ok).
  - reflexivity.
  - reflexivity.
  - left. split; reflexivity.
Defined.

(** *** Folder mode *)

Lemma for_each_odd_files h p : forall fl names,
  Forall2 (fun f ns => listing h f = Some ns) fl names ->
  for_each (odd_files h) fl p
  = Done (map (fun fn : string * list string =>
                 map (os_path_join (fst fn))
                     (filter (str_contains "_ODD.mrc") (snd fn)))
              (combine fl names)) p.
Proof.
  intros fl names H. induction H as [|f ns fl names Hf _ IH]; simpl.
  - reflexivity.
  - unfold and_then at 1. unfold odd_files at 1, os_listdir, and_then at 1.
    rewrite Hf. unfold pure at 1 2. unfold and_then. rewrite IH. reflexivity.
Qed.

Lemma random_sample_spec population k w :
  0 <= k <= Z.of_nat (List.length population) ->
  exists positions w',
    random_sample population k w
    = Ok (map (fun i => nth i population EmptyString) positions, w') /\
    List.length positions = Z.to_nat k /\ NoDup positions /\
    Forall (fun i => (i < List.length population)%nat) positions.
Proof.
  intros Hk. unfold random_sample.
  assert (E : (k <? 0) || (Z.of_nat (List.length population) <? k) = false).
  { apply orb_false_iff. split; [apply Z.ltb_ge|apply Z.ltb_ge]; lia. }
  rewrite E.
  destruct (draw_without_replacement_ok (Z.to_nat k) (seq 0 (List.length population)) w)
    as (l & w' & Hdraw & Hlen & Hnd & Hincl).
  - rewrite length_seq. lia.
  - apply seq_NoDup.
  - exists l, w'. split.
    + rewrite (bind_ok _ _ _ _ _ Hdraw). reflexivity.
    + split; [exact Hlen|]. split; [exact Hnd|].
      apply Forall_forall. intros i Hi. apply Hincl in Hi.
      apply in_seq in Hi. lia.
Qed.

Lemma random_sample_rejects population k w :
  k < 0 \/ Z.of_nat (List.length population) < k ->
  random_sample population k w = Raise ValueError.
Proof.
  intros Hk. unfold random_sample.
  assert (E : (k <? 0) || (Z.of_nat (List.length population) <? k) = true).
  { apply orb_true_iff. destruct Hk as [Hk|Hk]; [left|right]; apply Z.ltb_lt; exact Hk. }
  rewrite E. reflexivity.
Qed.

(** X15.  With a non-empty [folders] list whose folders can all be
    listed, the volume lists come from the folders, whatever [odd] and
    [even] the configuration gives: [num_slices] of the files whose name
    contains [_ODD.mrc] are drawn at distinct positions as the odd
    volumes, and each even path is the odd path with [_ODD.mrc] replaced
    by [_EVN.mrc]; a [num_slices] that is negative or exceeds the number
    of such files raises [ValueError], the disk being left as it was. *)
Theorem folder_mode_draws_the_volume_pairs h c p fl names k :
  folders c = Some fl -> fl <> [] ->
  Forall2 (fun f ns => listing h f = Some ns) fl names ->
  num_slices c = Some k ->
  (0 <= k <= Z.of_nat (List.length (candidates fl names)) ->
   exists positions p1,
     select_folders h c p
     = Done (set_lists c
               (map (fun i => nth i (candidates fl names) EmptyString) positions)
               (map (str_replace "_ODD.mrc" "_EVN.mrc")
                    (map (fun i => nth i (candidates fl names) EmptyString) positions)))
            p1 /\
     storage p1 = storage p /\
     List.length positions = Z.to_nat k /\ NoDup positions /\
     Forall (fun i => (i < List.length (candidates fl names))%nat) positions) /\
  (k < 0 \/ Z.of_nat (List.length (candidates fl names)) < k ->
   select_folders h c p = Failed ValueError (storage p) /\
   main h c p = Failed ValueError (storage p)).
Proof.
  intros Hf Hne Hls Hk.
  assert (Hsel : select_folders h c p
                 = and_then (lift (random_sample (candidates fl names) k))
                     (fun sampled =>
                        pure (set_lists c sampled
                                (map (str_replace "_ODD.mrc" "_EVN.mrc") sampled))) p).
  { unfold select_folders. rewrite Hf.
    destruct fl as [|f fl']; [contradiction Hne; reflexivity|].
    unfold and_then at 1. rewrite (for_each_odd_files h p _ _ Hls).
    unfold and_then at 1. rewrite Hk. reflexivity. }
  split.
  - intros Hr.
    destruct (random_sample_spec (candidates fl names) k (py p) Hr)
      as (positions & w' & Hrun & Hlen & Hnd & Hall).
    exists positions, {| py := w'; storage := storage p |}.
    split.
    + rewrite Hsel. unfold and_then, lift. rewrite Hrun. reflexivity.
    + split; [reflexivity|]. split; [exact Hlen|]. split; [exact Hnd|exact Hall].
  - intros Hr.
    pose proof (random_sample_rejects (candidates fl names) k (py p) Hr) as Hrun.
    assert (E : select_folders h c p = Failed ValueError (storage p)).
    { rewrite Hsel. unfold and_then, lift. rewrite Hrun. reflexivity. }
    split; [exact E|].
    unfold main, sample_data, and_then. rewrite E. reflexivity.
Qed.

Lemma folder_mode_draws_the_volume_pairs_witness :
  (0 <= 1 <= Z.of_nat (List.length
                         (candidates ["data"%string]
                            [["a_EVN.mrc"; "a_ODD.mrc"; "notes.txt"]%string])) ->
   exists positions p1,
     select_folders farm farm_config fresh
     = Done (set_lists farm_config
               (map (fun i => nth i (candidates ["data"%string]
                                       [["a_EVN.mrc"; "a_ODD.mrc"; "notes.txt"]%string])
                                    EmptyString) positions)
               (map (str_replace "_ODD.mrc" "_EVN.mrc")
                    (map (fun i => nth i (candidates ["data"%string]
                                            [["a_EVN.mrc"; "a_ODD.mrc"; "notes.txt"]%string])
                                         EmptyString) positions)))
            p1 /\
     storage p1 = storage fresh /\
     List.length positions = Z.to_nat 1 /\ NoDup positions /\
     Forall (fun i => (i < List.length
                           (candidates ["data"%string]
                              [["a_EVN.mrc"; "a_ODD.mrc"; "notes.txt"]%string]))%nat)
            positions) /\
  (1 < 0 \/ Z.of_nat (List.length
                        (candidates ["data"%string]
                           [["a_EVN.mrc"; "a_ODD.mrc"; "notes.txt"]%string])) < 1 ->
   select_folders farm farm_config fresh = Failed ValueError (storage fresh) /\
   main farm farm_config fresh = Failed ValueError (storage fresh)).
Proof.
  apply (folder_mode_draws_the_volume_pairs farm farm_config fresh
           ["data"%string] [["a_EVN.mrc"; "a_ODD.mrc"; "notes.txt"]%string] 1).
  - reflexivity.
  - discriminate.
  - constructor; [reflexivity|constructor].
  - reflexivity.
Defined.
